(** * Booking widgets: step flow, slot matching and form validation

    A shallow embedding of the booking logic of two Framer components of
    the repository:

    - the flexible-duration widget, [components/framer/flexible/component.tsx]
      (module [Flexible]);
    - the rental (date-range) widget, [unnamed/part_000] (module [Rental]).

    Conventions of the embedding.

    - JavaScript numbers that the code only uses as integers (epoch
      milliseconds, minutes, hours, days) are [Z]; [Math.floor (a / b)]
      for a positive [b] is [Z.div] and the [%] operator is [Z.rem]
      (its sign follows the dividend).
    - A JS object used as a dictionary whose key order matters
      ([response.times], [response.dates], the router's [routes]) is an
      association list in [Object.keys] order; form dictionaries, where
      the order is irrelevant, are [gmap string _].
    - Host functions ([Date], [URL], [isNaN], [Intl]) are the fields of
      the class [Host]; every theorem holds for every host.
    - An [async] handler is a tree of API calls ([Async]); running it
      against an oracle for the SDK gives the state it leaves. *)

From Stdlib Require Import ZArith QArith Lia DecimalPos DecimalString Ascii String.
From Stdlib Require Import Sorting.Sorted Sorting.Permutation.
From stdpp Require Import base option list gmap strings sorting.

Local Open Scope string_scope.
Local Open Scope Z_scope.

(** ** JavaScript values used by the widgets *)

(** [`${n}`] for an integral number [n] (below 1e21 in magnitude, where
    JS prints plain decimal digits). *)
Definition Number_toString (n : Z) : string :=
  NilZero.string_of_int (Z.to_int n).

(** [Number.MAX_SAFE_INTEGER]: up to here doubles hold integers exactly. *)
Definition MAX_SAFE_INTEGER : Z := 9007199254740991.

(** ** Durations *)

Record Duration : Type := mkDuration {
  days : Z;
  hours : Z;
  minutes : Z;
}.

(** The durations the widgets build: whole, non-negative fields, small
    enough for the arithmetic of [durationToISO] to be exact. *)
Definition valid_duration (d : Duration) : Prop :=
  0 <= days d /\ 0 <= hours d /\ 0 <= minutes d /\
  days d * 24 + hours d <= MAX_SAFE_INTEGER /\ minutes d <= MAX_SAFE_INTEGER.

Module Flexible_Duration.

(** component.tsx:125 *)
Definition durationToISO (duration : Duration) : string :=
  "PT" ++ Number_toString (hours duration) ++ "H"
       ++ Number_toString (minutes duration) ++ "M".

(** component.tsx:583, the total the duration picker works with *)
Definition convertToMinutes (duration : Duration) : Z :=
  hours duration * 60 + minutes duration.

(** component.tsx:587 *)
Definition convertToHoursAndMinutes (totalMinutes : Z) : Duration :=
  {| days := 0;
     hours := totalMinutes / 60;
     minutes := Z.rem totalMinutes 60 |}.

End Flexible_Duration.

Module Rental_Duration.

(** part_000:166 *)
Definition durationToISO (duration : Duration) : string :=
  "PT" ++ Number_toString (days duration * 24 + hours duration) ++ "H"
       ++ Number_toString (minutes duration) ++ "M".

(** part_000:170, on [diffMs = endDateTime.getTime() - startDateTime.getTime()] *)
Definition calculateDuration (diffMs : Z) : Duration :=
  let totalMinutes := diffMs / (1000 * 60) in
  let hours := totalMinutes / 60 in
  let minutes := Z.rem totalMinutes 60 in
  let days := hours / 24 in
  {| days := days; hours := Z.rem hours 24; minutes := minutes |}.

(** The minutes a rental duration stands for. *)
Definition totalMinutes (duration : Duration) : Z :=
  (days duration * 24 + hours duration) * 60 + minutes duration.

End Rental_Duration.

(** *** Reading an ISO-8601 duration back

    The repository only writes durations.  To state the round trip, the
    reader below follows ISO 8601 for the time designators the widgets
    emit: [PT], a run of decimal digits and [H], a run of decimal digits
    and [M]; the result is in minutes. *)

Definition is_digit (a : ascii) : bool :=
  (48 <=? N_of_ascii a)%N && (N_of_ascii a <=? 57)%N.

Fixpoint all_digits (s : string) : bool :=
  match s with
  | EmptyString => true
  | String a rest => is_digit a && all_digits rest
  end.

Fixpoint split_at_char (c : ascii) (s : string) : option (string * string) :=
  match s with
  | EmptyString => None
  | String a rest =>
      if Ascii.eqb a c then Some (EmptyString, rest)
      else match split_at_char c rest with
           | Some (l, r) => Some (String a l, r)
           | None => None
           end
  end.

Definition digits_to_Z (s : string) : option Z :=
  match s with
  | EmptyString => None
  | _ => match NilEmpty.uint_of_string s with
         | Some u => Some (Z.of_uint u)
         | None => None
         end
  end.

Definition iso_duration_minutes (s : string) : option Z :=
  match s with
  | String "P" (String "T" rest) =>
      match split_at_char "H" rest with
      | Some (h, rest') =>
          match split_at_char "M" rest' with
          | Some (m, EmptyString) =>
              match digits_to_Z h, digits_to_Z m with
              | Some hh, Some mm => Some (hh * 60 + mm)
              | _, _ => None
              end
          | _ => None
          end
      | None => None
      end
  | _ => None
  end.

(** ** The host: what the browser and the JS engine provide *)

(** The calendar fields of a date, as [getFullYear], [getMonth] (from 0),
    [getDate], [getHours], [getMinutes], [getSeconds] and
    [getMilliseconds] read them, and as [new Date(y, m, d, h, mi, s, ms)]
    and [Date.UTC] take them. *)
Record DateFields : Type := mkDateFields {
  f_year : Z;
  f_month : Z;
  f_date : Z;
  f_hours : Z;
  f_minutes : Z;
  f_seconds : Z;
  f_ms : Z;
}.

(** Dates are their time value (epoch milliseconds); an invalid date
    (time value NaN) only arises from parsing and is [None] there. *)
Class Host : Type := {
  (** [new Date(s).getTime()] *)
  Date_getTime : string -> option Z;
  (** [d.toLocaleTimeString()]; [None] is the invalid date *)
  Date_toLocaleTimeString : option Z -> string;
  (** [d.toISOString()] of a valid date *)
  Date_toISOString : Z -> string;
  (** the fields of a date in the browser's time zone *)
  Date_getFields : Z -> DateFields;
  (** [new Date(y, m, d, h, mi, s, ms)], fields in the browser's zone *)
  Date_local : DateFields -> Z;
  (** [Date.UTC(y, m, d, h, mi, s, ms)] *)
  Date_UTC : DateFields -> Z;
  (** [new Date(d.toLocaleString("en-US", { timeZone })).getTime()];
      [None] when [toLocaleString] throws a RangeError (unknown zone) *)
  Date_wallClock : string -> Z -> option Z;
  (** the text of the RangeError of [toISOString] on an invalid date *)
  invalid_time_error : string;
  (** the text of the RangeError for an unknown time zone *)
  invalid_zone_error : string -> string;
  (** [new URL(s)] returns (does not throw) *)
  URL_canParse : string -> bool;
  (** [isNaN(s)] for a string [s] *)
  isNaN_string : string -> bool;
  (** [Array.prototype.sort] with the comparator [key(a) - key(b)] on an
      array of two or more elements some of whose keys are NaN ([None]):
      the comparator is then not a consistent order and ECMAScript leaves
      the arrangement to the engine.  From the keys in array order, the
      field gives the original indices in the order the engine leaves
      the elements in. *)
  Array_sort_NaN_order : list (option Z) -> list nat;
}.

(** [d.setHours(h, m, s, ms)] *)
Definition Date_setHours `{Host} (d h m s ms : Z) : Z :=
  let f := Date_getFields d in
  Date_local {| f_year := f_year f; f_month := f_month f; f_date := f_date f;
                f_hours := h; f_minutes := m; f_seconds := s; f_ms := ms |}.

(** [d.setMonth(m)] *)
Definition Date_setMonth `{Host} (d m : Z) : Z :=
  let f := Date_getFields d in
  Date_local {| f_year := f_year f; f_month := m; f_date := f_date f;
                f_hours := f_hours f; f_minutes := f_minutes f;
                f_seconds := f_seconds f; f_ms := f_ms f |}.

(** ** Arrays *)

Section Arrays.
Context {A : Type}.

(** [Array.prototype.sort(compareFn)].  The comparator returns a number
    or NaN ([None]), which the sort reads as 0.  The sort is stable
    (ECMAScript 2019): an insertion sort that puts an element before the
    first one it does not compare greater than.  For a comparator that
    is a consistent order this is the one stable sorted arrangement; when
    it is not (NaN results), ECMAScript leaves the order to the engine,
    and no statement about order is made here. *)
Definition goes_before (compareFn : A -> A -> option Z) (a b : A) : bool :=
  match compareFn a b with
  | Some v => v <=? 0
  | None => true
  end.

Fixpoint sort_insert (compareFn : A -> A -> option Z) (a : A) (l : list A)
  : list A :=
  match l with
  | [] => [a]
  | b :: l' =>
      if goes_before compareFn a b then a :: b :: l'
      else b :: sort_insert compareFn a l'
  end.

Definition Array_sort (compareFn : A -> A -> option Z) (l : list A) : list A :=
  foldr (sort_insert compareFn) [] l.

(** [self.findIndex(p)]: the first index whose element satisfies [p],
    -1 when there is none. *)
Fixpoint findIndex_from (p : A -> bool) (index : Z) (l : list A) : Z :=
  match l with
  | [] => -1
  | a :: l' => if p a then index else findIndex_from p (index + 1) l'
  end.

Definition Array_findIndex (p : A -> bool) (self : list A) : Z :=
  findIndex_from p 0 self.

(** [self.filter((element, index, self) => p)] *)
Fixpoint filter_from (p : A -> Z -> bool) (index : Z) (l : list A) : list A :=
  match l with
  | [] => []
  | a :: l' =>
      if p a index then a :: filter_from p (index + 1) l'
      else filter_from p (index + 1) l'
  end.

Definition Array_filter (p : A -> Z -> list A -> bool) (self : list A)
  : list A :=
  filter_from (fun a index => p a index self) 0 self.

End Arrays.

(** [[...new Set(l)]]: the distinct elements in order of first occurrence. *)
Definition Set_elements (l : list string) : list string :=
  foldl (fun (seen : list string) x =>
           if decide (x ∈ seen) then seen else (seen ++ [x])%list) [] l.

(** The default [sort()] of an array of strings compares code units; on
    the ASCII strings of the API (ISO dates) that is [String.compare]. *)
Definition compareStrings (a b : string) : option Z :=
  match String.compare a b with
  | Lt => Some (-1)
  | Eq => Some 0
  | Gt => Some 1
  end.

(** ** Slots *)

Record Price : Type := mkPrice {
  amount : Z;
  currency : string;
}.

Record TimeSlot : Type := mkTimeSlot {
  startTime : string;
  endTime : string;
  price : option Price;
}.

Record TimeSlotWithResource : Type := mkTimeSlotWithResource {
  timeSlot : TimeSlot;
  resourceID : string;
}.

(** The answer of [services.getTimes]: [times] maps a resource id to its
    slots; the pairs are in [Object.keys] order, the keys distinct. *)
Record TimesResponse : Type := mkTimesResponse {
  times : list (string * list TimeSlot);
}.

(** The answer of [services.getDates]. *)
Record DatesResponse : Type := mkDatesResponse {
  dates : list (string * list string);
}.

(** [new Date(x.timeSlot.startTime).getTime()] *)
Definition startMs `{Host} (x : TimeSlotWithResource) : option Z :=
  Date_getTime (startTime (timeSlot x)).

(** [new Date(x.timeSlot.startTime).toLocaleTimeString()] *)
Definition localTime `{Host} (x : TimeSlotWithResource) : string :=
  Date_toLocaleTimeString (startMs x).

(** The comparator of [formatSlots]: the difference of the start times. *)
Definition compareStart `{Host} (a b : TimeSlotWithResource) : option Z :=
  match startMs a, startMs b with
  | Some ta, Some tb => Some (ta - tb)
  | _, _ => None
  end.

(** component.tsx:1922, the [flatMap] over the resource ids *)
Definition allSlots (response : TimesResponse) : list TimeSlotWithResource :=
  flat_map
    (fun '(resourceID, slots) =>
       map (fun time => {| timeSlot := time; resourceID := resourceID |}) slots)
    (times response).

(** [new Date(x.timeSlot.startTime).getTime()] is a number *)
Definition readable_start `{Host} (x : TimeSlotWithResource) : bool :=
  match startMs x with
  | Some _ => true
  | None => false
  end.

(** component.tsx:1932, the array after [sort].  When every start time
    is a date the comparator is a consistent order and the sort is the
    stable one of every engine (so it is for fewer than two elements,
    where nothing is compared); with a start time that is not a date the
    comparator returns NaN and the order is the engine's own. *)
Definition sortedSlots `{Host} (response : TimesResponse)
  : list TimeSlotWithResource :=
  let timeSlots := allSlots response in
  if forallb readable_start timeSlots || Nat.ltb (length timeSlots) 2
  then Array_sort compareStart timeSlots
  else omap (fun index => timeSlots !! index)
            (Array_sort_NaN_order (map startMs timeSlots)).

(** component.tsx:1918 *)
Definition formatSlots `{Host} (response : TimesResponse)
  : list TimeSlotWithResource :=
  Array_filter
    (fun time index self =>
       index =? Array_findIndex
                  (fun t => String.eqb (localTime t) (localTime time)) self)
    (sortedSlots response).

(** The elements of [l] whose key is met for the first time, [seen] being
    the keys met before [l]: what the index test of [formatSlots] keeps. *)
Fixpoint keep_first {A K : Type} `{EqDecision K} (key : A -> K)
    (seen : list K) (l : list A) : list A :=
  match l with
  | [] => []
  | a :: l' =>
      if decide (key a ∈ seen) then keep_first key (seen ++ [key a]) l'
      else a :: keep_first key (seen ++ [key a]) l'
  end.

(** [a] starts no later than [b], both start times being valid dates. *)
Definition starts_no_later `{Host} (a b : TimeSlotWithResource) : Prop :=
  exists ta tb, startMs a = Some ta /\ startMs b = Some tb /\ ta <= tb.

(** Every slot of the response has a start time the host can read. *)
Definition valid_starts `{Host} (response : TimesResponse) : Prop :=
  Forall (fun x => is_Some (startMs x)) (allSlots response).

(** ** The form view

    [FormView] is the same in both widgets (component.tsx:1043-1170 and
    part_000:642-763 differ in styling properties only). *)

Inductive FieldType : Type :=
  | text | number | multiselect | select | phone | url | textarea.

Inductive InputWidth : Type := span_1 | span_2.

Record CustomFormField : Type := mkCustomFormField {
  placeholderText : string;
  type : FieldType;
  inputWidth : InputWidth;
  required : bool;
  labelText : string;
  errorText : string;
  options : option string;
}.

(** What a form dictionary holds under a label: nothing yet
    ([undefined]), the string of an input, or the array of checked
    options of a multiselect. *)
Inductive FormValue : Type :=
  | VUndefined
  | VString (s : string)
  | VArray (l : list string).

Global Instance FormValue_eq_dec : EqDecision FormValue.
Proof. solve_decision. Defined.

Global Instance FieldType_eq_dec : EqDecision FieldType.
Proof. solve_decision. Defined.

(** [value] in a condition *)
Definition truthy (value : FormValue) : bool :=
  match value with
  | VUndefined => false
  | VString s => negb (String.eqb s "")
  | VArray _ => true
  end.

(** [value.length === 0] (evaluated only on a truthy value) *)
Definition length_is_0 (value : FormValue) : bool :=
  match value with
  | VUndefined => false
  | VString s => String.eqb s ""
  | VArray l => match l with [] => true | _ => false end
  end.

(** [!value || value.length === 0] *)
Definition is_empty (value : FormValue) : bool :=
  negb (truthy value) || length_is_0 value.

Fixpoint join_comma (l : list string) : string :=
  match l with
  | [] => ""
  | [s] => s
  | s :: l' => s ++ "," ++ join_comma l'
  end.

(** [String(value)], as [new URL] and [RegExp.prototype.test] read it *)
Definition ToString (value : FormValue) : string :=
  match value with
  | VUndefined => "undefined"
  | VString s => s
  | VArray l => join_comma l
  end.

(** [isNaN(value)] *)
Definition isNaN `{Host} (value : FormValue) : bool :=
  match value with
  | VUndefined => true
  | _ => isNaN_string (ToString value)
  end.

(** The pattern [/^\+?[\d\s-()]+$/]: an optional plus sign, then one or
    more digits, white space, hyphens and parentheses up to the end.
    Strings are UTF-8 text; [\s] is the white space and the line
    terminators of ECMAScript: U+0009 to U+000D and U+0020 (one byte
    each), U+00A0, U+1680, U+2000 to U+200A, U+2028, U+2029, U+202F,
    U+205F, U+3000 and U+FEFF. *)
Definition is_space (a : ascii) : bool :=
  let n := N_of_ascii a in
  ((n =? 32) || ((9 <=? n) && (n <=? 13)))%N.

Definition phone_class (a : ascii) : bool :=
  is_digit a || is_space a
  || Ascii.eqb a "-" || Ascii.eqb a "(" || Ascii.eqb a ")".

(** The white space of two bytes (U+00A0) and of three. *)
Definition is_space2 (a b : ascii) : bool :=
  ((N_of_ascii a =? 194) && (N_of_ascii b =? 160))%N.

Definition is_space3 (a b c : ascii) : bool :=
  let '(x, y, z) := (N_of_ascii a, N_of_ascii b, N_of_ascii c) in
  (((x =? 225) && (y =? 154) && (z =? 128))
   || ((x =? 226) && (y =? 128)
       && (((128 <=? z) && (z <=? 138)) || (z =? 168) || (z =? 169)
           || (z =? 175)))
   || ((x =? 226) && (y =? 129) && (z =? 159))
   || ((x =? 227) && (y =? 128) && (z =? 128))
   || ((x =? 239) && (y =? 187) && (z =? 191)))%N.

Fixpoint all_chars (p : ascii -> bool) (s : string) : bool :=
  match s with
  | EmptyString => true
  | String a rest => p a && all_chars p rest
  end.

(** [[\d\s-()]*] up to the end *)
Fixpoint phone_chars (s : string) : bool :=
  match s with
  | EmptyString => true
  | String a rest =>
      if phone_class a then phone_chars rest
      else
        match rest with
        | String b rest1 =>
            if is_space2 a b then phone_chars rest1
            else
              match rest1 with
              | String c rest2 =>
                  if is_space3 a b c then phone_chars rest2 else false
              | EmptyString => false
              end
        | EmptyString => false
        end
  end.

Definition phone_pattern_test (s : string) : bool :=
  let body := match s with
              | String "+" rest => rest
              | _ => s
              end in
  negb (String.eqb body "") && phone_chars body.

(** component.tsx:1110, part_000:704 *)
Definition validateField `{Host} (field : CustomFormField) (value : FormValue)
  : option string :=
  if required field && is_empty value then
    Some (if String.eqb (errorText field) "" then "This field is required"
          else errorText field)
  else if negb (required field) then None
  else
    match type field with
    | url =>
        if URL_canParse (ToString value) then None
        else Some "Please enter a valid URL"
    | number =>
        if truthy value && isNaN value then Some "Please enter a valid number"
        else None
    | phone =>
        if truthy value && negb (phone_pattern_test (ToString value))
        then Some "Please enter a valid phone number"
        else None
    | _ => None
    end.

Record FormValidation : Type := mkFormValidation {
  isValid : bool;
  errors : gmap string string;
}.

(** The props and the state of a mounted [FormView]. *)
Record FormView : Type := mkFormView {
  firstName_text : string;
  lastName_text : string;
  email_text : string;
  fields : list CustomFormField;
  guestFormEnabled : bool;
  fv_formData : gmap string FormValue;
  guestData : gmap string FormValue;
  formErrors : gmap string string;
}.

Definition setFormErrors (e : gmap string string) (fv : FormView) : FormView :=
  {| firstName_text := firstName_text fv; lastName_text := lastName_text fv;
     email_text := email_text fv; fields := fields fv;
     guestFormEnabled := guestFormEnabled fv; fv_formData := fv_formData fv;
     guestData := guestData fv; formErrors := e |}.

(** component.tsx:1078 *)
Definition guestFields (fv : FormView) : list CustomFormField :=
  if guestFormEnabled fv then
    [ {| placeholderText := firstName_text fv; type := text;
         inputWidth := span_1; required := true; labelText := "firstName";
         errorText := "First name is required"; options := None |};
      {| placeholderText := lastName_text fv; type := text;
         inputWidth := span_1; required := false; labelText := "lastName";
         errorText := "Last name is required"; options := None |};
      {| placeholderText := email_text fv; type := text;
         inputWidth := span_2; required := true; labelText := "email";
         errorText := "Email is required"; options := None |} ]
  else [].

Definition allFields (fv : FormView) : list CustomFormField :=
  (guestFields fv ++ fields fv)%list.

Definition isGuestField (label : string) : bool :=
  String.eqb label "firstName" || String.eqb label "lastName"
  || String.eqb label "email".

(** [guestData[field.labelText]] or [formData[field.labelText]] *)
Definition fieldValue (fv : FormView) (field : CustomFormField) : FormValue :=
  if isGuestField (labelText field)
  then default VUndefined (guestData fv !! labelText field)
  else default VUndefined (fv_formData fv !! labelText field).

(** One round of the [forEach] of [validateForm]. *)
Definition validateForm_step `{Host} (fv : FormView)
    (acc : gmap string string * bool) (field : CustomFormField)
  : gmap string string * bool :=
  match validateField field (fieldValue fv field) with
  | Some error =>
      if String.eqb error "" then acc
      else (<[labelText field := error]> (fst acc), false)
  | None => acc
  end.

(** component.tsx:1143, part_000:736: the validation and the view with its
    [formErrors] set. *)
Definition validateForm `{Host} (fv : FormView) : FormValidation * FormView :=
  let '(errors, isValid) :=
    foldl (validateForm_step fv) (∅, true) (allFields fv) in
  ({| isValid := isValid; errors := errors |}, setFormErrors errors fv).

(** ** The SDK and asynchronous handlers *)

Record ClientData : Type := mkClientData {
  client_id : option string;
  client_email : string;
  client_firstName : FormValue;
  client_lastName : FormValue;
}.

(** The [params] of [services.getDates] and [services.getTimes]. *)
Module Params.
Record t : Type := mk {
  from : string;
  to : string;
  duration : string;
  resourceIDs : option (list string);
}.
End Params.

(** The [data] of [bookings.request]; [metaData] and [client] are set
    only under their conditions, and [client] may then be [null]. *)
Module BookingRequest.
Record t : Type := mk {
  companyID : string;
  serviceID : string;
  resourceID : string;
  startTime : string;
  duration : string;
  metaData : option (gmap string FormValue);
  client : option (option ClientData);
}.
End BookingRequest.

Record BookingResponse : Type := mkBookingResponse {
  paymentURL : option string;
  status : string;
}.

(** The SDK methods the handlers await, indexed by what they resolve to. *)
Inductive ApiCall : Type -> Type :=
  | services_getDates (company service : string) (params : Params.t)
      : ApiCall DatesResponse
  | services_getTimes (company service : string) (params : Params.t)
      : ApiCall TimesResponse
  | bookings_request (data : BookingRequest.t)
      : ApiCall BookingResponse.

(** An [async] function: it returns, or awaits an SDK call and goes on
    with what the promise settles to, the resolved value or the rejection
    (the thrown [err], as the string [""+err]). *)
Inductive Async (A : Type) : Type :=
  | Ret (a : A)
  | Await {R : Type} (call : ApiCall R) (k : R + string -> Async A).

Arguments Ret {A} a.
Arguments Await {A R} call k.

(** The SDK as an oracle: how each call settles. *)
Definition Sdk : Type := forall R : Type, ApiCall R -> R + string.

Fixpoint run {A : Type} (sdk : Sdk) (a : Async A) : A :=
  match a with
  | Ret a => a
  | Await call k => run sdk (k (sdk _ call))
  end.

(** The number of SDK calls a handler makes against an oracle. *)
Fixpoint calls {A : Type} (sdk : Sdk) (a : Async A) : nat :=
  match a with
  | Ret _ => O
  | Await call k => S (calls sdk (k (sdk _ call)))
  end.

(** ** The router *)

(** [routes] of [useRouter()]: route ids paired with [value?.path]. *)
Definition Routes : Type := list (string * option string).

(** component.tsx:116, part_000:196 *)
Fixpoint getRouteId (allRoute : Routes) (path : string) : string :=
  match allRoute with
  | [] => ""
  | (key, value_path) :: rest =>
      if decide (value_path = Some path) then key else getRouteId rest path
  end.

(** [response.paymentURL && response.paymentURL.length > 0] *)
Definition has_paymentURL (response : BookingResponse) : option string :=
  match paymentURL response with
  | Some u => if String.eqb u "" then None else Some u
  | None => None
  end.

(** [Object.values(response.dates).flat()], its [Set] and the [sort()] *)
Definition uniqueDates (response : DatesResponse) : list string :=
  Array_sort compareStrings (Set_elements (concat (map snd (dates response)))).

(** ** The outcomes the specification names *)

(** The branching on a resolved booking response, in the priority order
    of the specification: a non-empty [paymentURL] redirects the page and
    leaves the step alone; otherwise the status "confirmed" gives the
    step [success]; otherwise the status "pending" gives the step
    [pending]; any other status changes nothing. *)
Definition response_outcome {Step : Type} (success pending : Step)
    (response : BookingResponse)
    (step step' : Step) (href href' : option string) : Prop :=
  (forall u, paymentURL response = Some u -> u <> "" ->
     href' = Some u /\ step' = step) /\
  (paymentURL response = None \/ paymentURL response = Some "" ->
     (status response = "confirmed" -> step' = success /\ href' = href) /\
     (status response <> "confirmed" -> status response = "pending" ->
        step' = pending /\ href' = href) /\
     (status response <> "confirmed" -> status response <> "pending" ->
        step' = step /\ href' = href)).

(** A route with this path is registered with the router. *)
Definition registered (routes : Routes) (path : string) : Prop :=
  exists key, (key, Some path) ∈ routes.

(** Route ids are non-empty strings (the empty string is what
    [getRouteId] returns for "no such route"). *)
Definition proper_ids (routes : Routes) : Prop :=
  Forall (fun route => fst route <> "") routes.

(** Where [proceedToRoute] must lead for a path: to a route registered
    with that path, or, only when there is none, to what is registered
    for "/". *)
Definition leads_to (routes : Routes) (path target : string) : Prop :=
  (registered routes path -> (target, Some path) ∈ routes) /\
  (~ registered routes path -> target = getRouteId routes "/").

(** ** The flexible-duration widget (component.tsx) *)

Module Flexible.

Export Flexible_Duration.

Inductive BookingStep : Type :=
  | Date | CustomForm | Guest | Form | Success | Pending | Error.

Global Instance BookingStep_eq_dec : EqDecision BookingStep.
Proof. solve_decision. Defined.

(** The props the handlers read. *)
Record Props : Type := mkProps {
  guestMode : bool;
  customForm_fields : option (list CustomFormField);
  bkla_companyID : string;
  serviceID : string;
  routes_confirmed : string;
  routes_pending : string;
}.

(** The component state ([useState]), the mounted form ([formRef.current])
    and what the handlers do to the page: the assignment to
    [window.location.href], the calls of [navigate] and of
    [console.error]. *)
Record State : Type := mkState {
  currentStep : BookingStep;
  loading : bool;
  submiting : bool;
  error : option string;
  serviceLoaded : bool;
  timeSlots : list TimeSlotWithResource;
  selectedTime : option TimeSlotWithResource;
  availableDates : list string;
  selectedResourceID : option string;
  currentDuration : Duration;
  clientData : option ClientData;
  formData : gmap string FormValue;
  formRef : option FormView;
  location_href : option string;
  navigations : list (string * string);
  console_errors : list string;
}.

Definition setCurrentStep (v : BookingStep) (s : State) : State :=
  mkState v (loading s) (submiting s) (error s) (serviceLoaded s)
    (timeSlots s) (selectedTime s) (availableDates s) (selectedResourceID s)
    (currentDuration s) (clientData s) (formData s) (formRef s)
    (location_href s) (navigations s) (console_errors s).

Definition setSubmiting (v : bool) (s : State) : State :=
  mkState (currentStep s) (loading s) v (error s) (serviceLoaded s)
    (timeSlots s) (selectedTime s) (availableDates s) (selectedResourceID s)
    (currentDuration s) (clientData s) (formData s) (formRef s)
    (location_href s) (navigations s) (console_errors s).

Definition setError (v : option string) (s : State) : State :=
  mkState (currentStep s) (loading s) (submiting s) v (serviceLoaded s)
    (timeSlots s) (selectedTime s) (availableDates s) (selectedResourceID s)
    (currentDuration s) (clientData s) (formData s) (formRef s)
    (location_href s) (navigations s) (console_errors s).

Definition setAvailableDates (v : list string) (s : State) : State :=
  mkState (currentStep s) (loading s) (submiting s) (error s) (serviceLoaded s)
    (timeSlots s) (selectedTime s) v (selectedResourceID s)
    (currentDuration s) (clientData s) (formData s) (formRef s)
    (location_href s) (navigations s) (console_errors s).

Definition set_formRef (v : option FormView) (s : State) : State :=
  mkState (currentStep s) (loading s) (submiting s) (error s) (serviceLoaded s)
    (timeSlots s) (selectedTime s) (availableDates s) (selectedResourceID s)
    (currentDuration s) (clientData s) (formData s) v
    (location_href s) (navigations s) (console_errors s).

(** [window.location.href = u] *)
Definition set_location_href (u : string) (s : State) : State :=
  mkState (currentStep s) (loading s) (submiting s) (error s) (serviceLoaded s)
    (timeSlots s) (selectedTime s) (availableDates s) (selectedResourceID s)
    (currentDuration s) (clientData s) (formData s) (formRef s)
    (Some u) (navigations s) (console_errors s).

(** [navigate(routeId, hash)] *)
Definition navigate (routeId hash : string) (s : State) : State :=
  mkState (currentStep s) (loading s) (submiting s) (error s) (serviceLoaded s)
    (timeSlots s) (selectedTime s) (availableDates s) (selectedResourceID s)
    (currentDuration s) (clientData s) (formData s) (formRef s)
    (location_href s) (navigations s ++ [(routeId, hash)])%list
    (console_errors s).

(** [console.error(message, err)] *)
Definition console_error (message err : string) (s : State) : State :=
  mkState (currentStep s) (loading s) (submiting s) (error s) (serviceLoaded s)
    (timeSlots s) (selectedTime s) (availableDates s) (selectedResourceID s)
    (currentDuration s) (clientData s) (formData s) (formRef s)
    (location_href s) (navigations s)
    (console_errors s ++ [(message ++ " " ++ err)%string])%list.

Section Handlers.
Context `{Host} (props : Props).

(** component.tsx:2092; [now] is the [new Date()] of the call. *)
Definition fetchAvailableDates (now : Z) (s : State) : Async State :=
  if String.eqb (bkla_companyID props) "" || String.eqb (serviceID props) ""
     || negb (serviceLoaded s)
  then Ret (setAvailableDates [] s)
  else
    let today := Date_setHours now 0 0 0 0 in
    let threeMonthsLater :=
      Date_setHours
        (Date_setMonth today (f_month (Date_getFields today) + 3))
        23 59 59 999 in
    let params :=
      {| Params.from := Date_toISOString today;
         Params.to := Date_toISOString threeMonthsLater;
         Params.duration := durationToISO (currentDuration s);
         Params.resourceIDs :=
           match selectedResourceID s with
           | Some r => if String.eqb r "" then None else Some [r]
           | None => None
           end |} in
    Await (services_getDates (bkla_companyID props) (serviceID props) params)
      (fun settled =>
         match settled with
         | inl response => Ret (setAvailableDates (uniqueDates response) s)
         | inr err =>
             Ret (setAvailableDates []
                    (console_error "Failed to load available dates:" err s))
         end).

(** component.tsx:2219-2235, the [data] of the request; the [toISOString]
    of an invalid start time throws. *)
Definition bookingData (selected : TimeSlotWithResource) (s : State)
  : BookingRequest.t + string :=
  match Date_getTime (startTime (timeSlot selected)) with
  | None => inr invalid_time_error
  | Some t =>
      inl {| BookingRequest.companyID := bkla_companyID props;
             BookingRequest.serviceID := serviceID props;
             BookingRequest.resourceID := resourceID selected;
             BookingRequest.startTime := Date_toISOString t;
             BookingRequest.duration := durationToISO (currentDuration s);
             BookingRequest.metaData :=
               if decide (formData s = ∅) then None else Some (formData s);
             BookingRequest.client :=
               if guestMode props then Some (clientData s) else None |}
  end.

(** component.tsx:2239-2245, the branches on the resolved response *)
Definition onBookingResponse (response : BookingResponse) (s : State) : State :=
  match has_paymentURL response with
  | Some u => set_location_href u s
  | None =>
      if String.eqb (status response) "confirmed" then setCurrentStep Success s
      else if String.eqb (status response) "pending" then setCurrentStep Pending s
      else s
  end.

(** component.tsx:2210 *)
Definition makeBooking (s : State) : Async State :=
  match selectedTime s with
  | None => Ret s
  | Some selected =>
      let s1 := setError None (setSubmiting true s) in
      match bookingData selected s1 with
      | inr err =>
          Ret (setSubmiting false
                 (setError (Some ("Failed to request booking: " ++ err)) s1))
      | inl data =>
          Await (bookings_request data)
            (fun settled =>
               match settled with
               | inl response =>
                   Ret (setSubmiting false (onBookingResponse response s1))
               | inr err =>
                   Ret (setSubmiting false
                          (setError
                             (Some ("Failed to request booking: " ++ err)) s1))
               end)
      end
  end.

(** [props.guestMode || props.customForm.fields?.length > 0] *)
Definition formsNeeded : bool :=
  guestMode props ||
  match customForm_fields props with
  | Some (_ :: _) => true
  | _ => false
  end.

(** component.tsx:2288 *)
Definition proceedToNextStep (s : State) : Async State :=
  if decide (currentStep s = Date) then
    if formsNeeded then Ret (setCurrentStep Form s)
    else makeBooking s
  else if decide (currentStep s = Form) then
    match formRef s with
    | None => Ret s
    | Some fv =>
        let '(validation, fv') := validateForm fv in
        let s' := set_formRef (Some fv') s in
        if negb (isValid validation) then Ret s'
        else makeBooking s'
    end
  else Ret s.

(** component.tsx:2308 *)
Definition proceedToPreviousStep (s : State) : State :=
  if decide (currentStep s = Form) then setCurrentStep Date s else s.

(** component.tsx:2276 *)
Definition proceedToRoute (routes : Routes) (route : string) (s : State)
  : State :=
  let routeId := getRouteId routes route in
  let routeId := if String.eqb routeId "" then getRouteId routes "/"
                 else routeId in
  navigate routeId "" s.

(** component.tsx:2037, the body of the effect on [currentStep] *)
Definition stepEffect (routes : Routes) (s : State) : State :=
  match currentStep s with
  | Success => proceedToRoute routes (routes_confirmed props) s
  | Pending => proceedToRoute routes (routes_pending props) s
  | _ => s
  end.

(** An event: the handler runs to its end against the SDK, React renders
    again, and the effect declared with the dependency [[currentStep]]
    runs when the step has changed. *)
Definition dispatch (routes : Routes) (sdk : Sdk)
    (handler : State -> Async State) (s : State) : State :=
  let s' := run sdk (handler s) in
  if decide (currentStep s' = currentStep s) then s'
  else stepEffect routes s'.

End Handlers.

End Flexible.

(** ** The rental (date-range) widget (part_000) *)

Module Rental.

Export Rental_Duration.

Inductive BookingStep : Type :=
  | DateRange | Form | Success | Pending | Error.

Global Instance BookingStep_eq_dec : EqDecision BookingStep.
Proof. solve_decision. Defined.

(** A time of day of the range picker.  Its [<select>] offers the strings
    of [generateTimeOptions] (["00:00"] to ["23:00"]) and the state starts
    at ["09:00"]; the record holds the two numbers that
    [split(":").map(Number)] reads from such a string. *)
Record ClockTime : Type := mkClockTime {
  clock_hour : Z;
  clock_minute : Z;
}.

(** The interface [DateRange] (the step of that name keeps the name);
    its [startTime] and [endTime] are [range_startTime] and
    [range_endTime] here, apart from the fields of a [TimeSlot]. *)
Record DateRangeT : Type := mkDateRange {
  startDate : option Z;
  endDate : option Z;
  range_startTime : ClockTime;
  range_endTime : ClockTime;
}.

Record Props : Type := mkProps {
  guestMode : bool;
  customForm_fields : option (list CustomFormField);
  bkla_companyID : string;
  serviceID : string;
  routes_confirmed : string;
  routes_pending : string;
}.

Record State : Type := mkState {
  currentStep : BookingStep;
  loading : bool;
  submiting : bool;
  error : option string;
  serviceLoaded : bool;
  dateRange : DateRangeT;
  availableDates : list string;
  selectedSlot : option TimeSlotWithResource;
  serviceTimezone : string;
  clientData : option ClientData;
  formData : gmap string FormValue;
  formRef : option FormView;
  location_href : option string;
  navigations : list (string * string);
  console_errors : list string;
}.

Definition setCurrentStep (v : BookingStep) (s : State) : State :=
  mkState v (loading s) (submiting s) (error s) (serviceLoaded s)
    (dateRange s) (availableDates s) (selectedSlot s) (serviceTimezone s)
    (clientData s) (formData s) (formRef s)
    (location_href s) (navigations s) (console_errors s).

Definition setSubmiting (v : bool) (s : State) : State :=
  mkState (currentStep s) (loading s) v (error s) (serviceLoaded s)
    (dateRange s) (availableDates s) (selectedSlot s) (serviceTimezone s)
    (clientData s) (formData s) (formRef s)
    (location_href s) (navigations s) (console_errors s).

Definition setError (v : option string) (s : State) : State :=
  mkState (currentStep s) (loading s) (submiting s) v (serviceLoaded s)
    (dateRange s) (availableDates s) (selectedSlot s) (serviceTimezone s)
    (clientData s) (formData s) (formRef s)
    (location_href s) (navigations s) (console_errors s).

Definition setAvailableDates (v : list string) (s : State) : State :=
  mkState (currentStep s) (loading s) (submiting s) (error s) (serviceLoaded s)
    (dateRange s) v (selectedSlot s) (serviceTimezone s)
    (clientData s) (formData s) (formRef s)
    (location_href s) (navigations s) (console_errors s).

Definition setSelectedSlot (v : option TimeSlotWithResource) (s : State)
  : State :=
  mkState (currentStep s) (loading s) (submiting s) (error s) (serviceLoaded s)
    (dateRange s) (availableDates s) v (serviceTimezone s)
    (clientData s) (formData s) (formRef s)
    (location_href s) (navigations s) (console_errors s).

Definition set_formRef (v : option FormView) (s : State) : State :=
  mkState (currentStep s) (loading s) (submiting s) (error s) (serviceLoaded s)
    (dateRange s) (availableDates s) (selectedSlot s) (serviceTimezone s)
    (clientData s) (formData s) v
    (location_href s) (navigations s) (console_errors s).

Definition set_location_href (u : string) (s : State) : State :=
  mkState (currentStep s) (loading s) (submiting s) (error s) (serviceLoaded s)
    (dateRange s) (availableDates s) (selectedSlot s) (serviceTimezone s)
    (clientData s) (formData s) (formRef s)
    (Some u) (navigations s) (console_errors s).

Definition navigate (routeId hash : string) (s : State) : State :=
  mkState (currentStep s) (loading s) (submiting s) (error s) (serviceLoaded s)
    (dateRange s) (availableDates s) (selectedSlot s) (serviceTimezone s)
    (clientData s) (formData s) (formRef s)
    (location_href s) (navigations s ++ [(routeId, hash)])%list
    (console_errors s).

Definition console_error (message err : string) (s : State) : State :=
  mkState (currentStep s) (loading s) (submiting s) (error s) (serviceLoaded s)
    (dateRange s) (availableDates s) (selectedSlot s) (serviceTimezone s)
    (clientData s) (formData s) (formRef s)
    (location_href s) (navigations s)
    (console_errors s ++ [(message ++ " " ++ err)%string])%list.

Section Handlers.
Context `{Host} (props : Props).

(** part_000:115; [None] when [toLocaleString] rejects the zone. *)
Definition convertToUTC (localDate : Z) (timeZone : string) : option Z :=
  let f := Date_getFields localDate in
  let testDate :=
    Date_local {| f_year := f_year f; f_month := f_month f;
                  f_date := f_date f; f_hours := 12; f_minutes := 0;
                  f_seconds := 0; f_ms := 0 |} in
  match Date_wallClock "UTC" testDate, Date_wallClock timeZone testDate with
  | Some utcTime, Some tzTime =>
      let offsetMs := utcTime - tzTime in
      let targetTime := Date_UTC f in
      Some (targetTime + offsetMs)
  | _, _ => None
  end.

(** part_000:1312-1316: the picked day at the picked time of day *)
Definition dateTime (date : Z) (time : ClockTime) : Z :=
  Date_setHours date (clock_hour time) (clock_minute time) 0 0.

(** [duration.days * 24 + duration.hours + duration.minutes / 60].  For
    a duration of [calculateDuration] the first two summands are whole
    and the quotient lies strictly between -1 and 1 (at most 59/60), so
    rounding cannot carry the double across 24: its comparison with 24 is
    the comparison of this rational. *)
Definition totalHours (duration : Duration) : Q :=
  inject_Z (days duration * 24 + hours duration) + (minutes duration # 60).

(** [totalHours < 24] *)
Definition below_24h (duration : Duration) : bool :=
  negb (Qle_bool 24 (totalHours duration)).

(** part_000:1246 *)
Definition fetchAvailableDates (year month : Z) (s : State) : Async State :=
  if String.eqb (bkla_companyID props) "" || String.eqb (serviceID props) ""
     || negb (serviceLoaded s) || String.eqb (serviceTimezone s) ""
  then Ret (setAvailableDates [] s)
  else
    let startOfMonth :=
      Date_local {| f_year := year; f_month := month; f_date := 1;
                    f_hours := 0; f_minutes := 0; f_seconds := 0;
                    f_ms := 0 |} in
    let endOfMonth :=
      Date_setHours
        (Date_local {| f_year := year; f_month := month + 1; f_date := 0;
                       f_hours := 0; f_minutes := 0; f_seconds := 0;
                       f_ms := 0 |})
        23 59 59 999 in
    match convertToUTC startOfMonth (serviceTimezone s),
          convertToUTC endOfMonth (serviceTimezone s) with
    | Some startUTC, Some endUTC =>
        let params :=
          {| Params.from := Date_toISOString startUTC;
             Params.to := Date_toISOString endUTC;
             Params.duration := "PT23H";
             Params.resourceIDs := None |} in
        Await (services_getDates (bkla_companyID props) (serviceID props) params)
          (fun settled =>
             match settled with
             | inl response => Ret (setAvailableDates (uniqueDates response) s)
             | inr err =>
                 Ret (setAvailableDates []
                        (console_error "Failed to load available dates:" err s))
             end)
    | _, _ =>
        Ret (setAvailableDates []
               (console_error "Failed to load available dates:"
                  (invalid_zone_error (serviceTimezone s)) s))
    end.

(** part_000:1357: [Math.abs(slotStart.getTime() - startDateTime.getTime())
    < 60000]; with an invalid slot start the difference is NaN and the
    comparison false. *)
Definition withinTolerance (startDateTime : Z) (slot : TimeSlot) : bool :=
  match Date_getTime (startTime slot) with
  | Some slotStart => Z.abs (slotStart - startDateTime) <? 60000
  | None => false
  end.

(** part_000:1355, the inner loop over the slots of one resource *)
Fixpoint scanSlots (startDateTime : Z) (resourceID : string)
    (slots : list TimeSlot) : option TimeSlotWithResource :=
  match slots with
  | [] => None
  | slot :: rest =>
      if withinTolerance startDateTime slot
      then Some {| timeSlot := slot; resourceID := resourceID |}
      else scanSlots startDateTime resourceID rest
  end.

(** part_000:1353, the outer loop over [Object.keys(times)]; [None] is
    the [setSelectedSlot(null)] after the loops. *)
Fixpoint scanResources (startDateTime : Z)
    (times : list (string * list TimeSlot)) : option TimeSlotWithResource :=
  match times with
  | [] => None
  | (resourceID, slots) :: rest =>
      match scanSlots startDateTime resourceID slots with
      | Some found => Some found
      | None => scanResources startDateTime rest
      end
  end.




(** part_000:1298 *)
Definition checkSlotAvailability (s : State) : Async State :=
  match startDate (dateRange s), endDate (dateRange s) with
  | Some start, Some end_ =>
      if String.eqb (bkla_companyID props) ""
         || String.eqb (serviceID props) ""
         || negb (serviceLoaded s) || String.eqb (serviceTimezone s) ""
      then Ret (setSelectedSlot None s)
      else
        let startDateTime := dateTime start (range_startTime (dateRange s)) in
        let endDateTime := dateTime end_ (range_endTime (dateRange s)) in
        let duration := calculateDuration (endDateTime - startDateTime) in
        if below_24h duration then Ret (setSelectedSlot None s)
        else
          match convertToUTC startDateTime (serviceTimezone s),
                convertToUTC endDateTime (serviceTimezone s) with
          | Some startUTC, Some endUTC =>
              let params :=
                {| Params.from := Date_toISOString startUTC;
                   Params.to := Date_toISOString endUTC;
                   Params.duration := durationToISO duration;
                   Params.resourceIDs := None |} in
              Await (services_getTimes (bkla_companyID props)
                       (serviceID props) params)
                (fun settled =>
                   match settled with
                   | inl response =>
                       Ret (setSelectedSlot
                              (scanResources startDateTime (times response)) s)
                   | inr err =>
                       Ret (setSelectedSlot None
                              (console_error
                                 "Failed to check slot availability:" err s))
                   end)
          | _, _ =>
              Ret (setSelectedSlot None
                     (console_error "Failed to check slot availability:"
                        (invalid_zone_error (serviceTimezone s)) s))
          end
  | _, _ => Ret (setSelectedSlot None s)
  end.

(** part_000:1514 *)
Definition isDurationValid (s : State) : bool :=
  match startDate (dateRange s), endDate (dateRange s) with
  | Some start, Some end_ =>
      let startDateTime := dateTime start (range_startTime (dateRange s)) in
      let endDateTime := dateTime end_ (range_endTime (dateRange s)) in
      Qle_bool 24 (totalHours (calculateDuration (endDateTime - startDateTime)))
  | _, _ => false
  end.

(** part_000:1404-1435, the [data] of the request *)
Definition bookingData (selected : TimeSlotWithResource) (start end_ : Z)
    (s : State) : BookingRequest.t + string :=
  let startDateTime := dateTime start (range_startTime (dateRange s)) in
  let endDateTime := dateTime end_ (range_endTime (dateRange s)) in
  let duration := calculateDuration (endDateTime - startDateTime) in
  match convertToUTC startDateTime (serviceTimezone s) with
  | None => inr (invalid_zone_error (serviceTimezone s))
  | Some startUTC =>
      inl {| BookingRequest.companyID := bkla_companyID props;
             BookingRequest.serviceID := serviceID props;
             BookingRequest.resourceID := resourceID selected;
             BookingRequest.startTime := Date_toISOString startUTC;
             BookingRequest.duration := durationToISO duration;
             BookingRequest.metaData :=
               if decide (formData s = ∅) then None else Some (formData s);
             BookingRequest.client :=
               if guestMode props then Some (clientData s) else None |}
  end.

(** part_000:1439-1445 *)
Definition onBookingResponse (response : BookingResponse) (s : State) : State :=
  match has_paymentURL response with
  | Some u => set_location_href u s
  | None =>
      if String.eqb (status response) "confirmed" then setCurrentStep Success s
      else if String.eqb (status response) "pending" then setCurrentStep Pending s
      else s
  end.

(** part_000:1389 *)
Definition makeBooking (s : State) : Async State :=
  match selectedSlot s, startDate (dateRange s), endDate (dateRange s) with
  | Some selected, Some start, Some end_ =>
      if String.eqb (serviceTimezone s) "" then Ret s
      else
        let s1 := setError None (setSubmiting true s) in
        match bookingData selected start end_ s1 with
        | inr err =>
            Ret (setSubmiting false
                   (setError (Some ("Failed to request booking: " ++ err)) s1))
        | inl data =>
            Await (bookings_request data)
              (fun settled =>
                 match settled with
                 | inl response =>
                     Ret (setSubmiting false (onBookingResponse response s1))
                 | inr err =>
                     Ret (setSubmiting false
                            (setError
                               (Some ("Failed to request booking: " ++ err))
                               s1))
                 end)
        end
  | _, _, _ => Ret s
  end.

(** [props.guestMode || props.customForm.fields?.length > 0] *)
Definition formsNeeded : bool :=
  guestMode props ||
  match customForm_fields props with
  | Some (_ :: _) => true
  | _ => false
  end.

(** part_000:1488 *)
Definition proceedToNextStep (s : State) : Async State :=
  if decide (currentStep s = DateRange) then
    if formsNeeded then Ret (setCurrentStep Form s)
    else makeBooking s
  else if decide (currentStep s = Form) then
    match formRef s with
    | None => Ret s
    | Some fv =>
        let '(validation, fv') := validateForm fv in
        let s' := set_formRef (Some fv') s in
        if negb (isValid validation) then Ret s'
        else makeBooking s'
    end
  else Ret s.

(** part_000:1506 *)
Definition proceedToPreviousStep (s : State) : State :=
  if decide (currentStep s = Form) then setCurrentStep DateRange s else s.

(** part_000:1476 *)
Definition proceedToRoute (routes : Routes) (route : string) (s : State)
  : State :=
  let routeId := getRouteId routes route in
  let routeId := if String.eqb routeId "" then getRouteId routes "/"
                 else routeId in
  navigate routeId "" s.

(** part_000:1200, the body of the effect on [currentStep] *)
Definition stepEffect (routes : Routes) (s : State) : State :=
  match currentStep s with
  | Success => proceedToRoute routes (routes_confirmed props) s
  | Pending => proceedToRoute routes (routes_pending props) s
  | _ => s
  end.

(** An event: the handler runs against the SDK, React renders again and
    the effect with the dependency [[currentStep]] runs when the step has
    changed. *)
Definition dispatch (routes : Routes) (sdk : Sdk)
    (handler : State -> Async State) (s : State) : State :=
  let s' := run sdk (handler s) in
  if decide (currentStep s' = currentStep s) then s'
  else stepEffect routes s'.

End Handlers.

End Rental.

(** ** A concrete host

    A browser in the UTC time zone with a 24-hour locale, for running the
    handlers on examples.  It reads dates written
    [YYYY-MM-DDTHH:MM:SSZ] (optionally with [.mmm]); it knows the zones
    [UTC] and a few fixed-offset ones; its URL and number tests accept a
    sub-language of what a browser accepts (plain [http] and [https]
    addresses; an optional sign and decimal digits with an optional
    fraction); it sorts like V8. *)

Module UtcHost.

(** Days since 1970-01-01 of a proleptic Gregorian date, month from 1. *)
Definition days_from_civil (y m d : Z) : Z :=
  let y := if m <=? 2 then y - 1 else y in
  let era := y / 400 in
  let yoe := y - era * 400 in
  let mp := (m + 9) mod 12 in
  let doy := (153 * mp + 2) / 5 + d - 1 in
  let doe := yoe * 365 + yoe / 4 - yoe / 100 + doy in
  era * 146097 + doe - 719468.

Definition civil_from_days (z : Z) : Z * Z * Z :=
  let z := z + 719468 in
  let era := z / 146097 in
  let doe := z - era * 146097 in
  let yoe := (doe - doe / 1460 + doe / 36524 - doe / 146096) / 365 in
  let y := yoe + era * 400 in
  let doy := doe - (365 * yoe + yoe / 4 - yoe / 100) in
  let mp := (5 * doy + 2) / 153 in
  let d := doy - (153 * mp + 2) / 5 + 1 in
  let m := if mp <? 10 then mp + 3 else mp - 9 in
  (if m <=? 2 then y + 1 else y, m, d).

Definition msPerDay : Z := 86400000.

Definition utc (f : DateFields) : Z :=
  let y := f_year f + f_month f / 12 in
  let m := f_month f mod 12 in
  let day := days_from_civil y (m + 1) 1 + (f_date f - 1) in
  day * msPerDay + f_hours f * 3600000 + f_minutes f * 60000
  + f_seconds f * 1000 + f_ms f.

Definition getFields (t : Z) : DateFields :=
  let day := t / msPerDay in
  let r := t mod msPerDay in
  let '(y, m, d) := civil_from_days day in
  {| f_year := y; f_month := m - 1; f_date := d;
     f_hours := r / 3600000; f_minutes := (r / 60000) mod 60;
     f_seconds := (r / 1000) mod 60; f_ms := r mod 1000 |}.

(** [n] written with at least [width] digits *)
Definition pad (width : nat) (n : Z) : string :=
  let s := Number_toString n in
  let fix zeros (k : nat) : string :=
    match k with O => "" | S k' => "0" ++ zeros k' end in
  zeros (width - String.length s)%nat ++ s.

Definition toISOString (t : Z) : string :=
  let f := getFields t in
  pad 4 (f_year f) ++ "-" ++ pad 2 (f_month f + 1) ++ "-" ++ pad 2 (f_date f)
  ++ "T" ++ pad 2 (f_hours f) ++ ":" ++ pad 2 (f_minutes f) ++ ":"
  ++ pad 2 (f_seconds f) ++ "." ++ pad 3 (f_ms f) ++ "Z".

Definition toLocaleTimeString (t : option Z) : string :=
  match t with
  | None => "Invalid Date"
  | Some t =>
      let f := getFields t in
      pad 2 (f_hours f) ++ ":" ++ pad 2 (f_minutes f) ++ ":"
      ++ pad 2 (f_seconds f)
  end.

(** Exactly [n] digits at the head of [s], and the rest. *)
Fixpoint take_digits (n : nat) (acc : Z) (s : string) : option (Z * string) :=
  match n with
  | O => Some (acc, s)
  | S n' =>
      match s with
      | String a rest =>
          if is_digit a
          then take_digits n' (acc * 10 + (Z.of_N (N_of_ascii a) - 48)) rest
          else None
      | EmptyString => None
      end
  end.

Definition expect (c : ascii) (s : string) : option string :=
  match s with
  | String a rest => if Ascii.eqb a c then Some rest else None
  | EmptyString => None
  end.

Definition days_in_month (y m : Z) : Z :=
  days_from_civil (y + m / 12) (m mod 12 + 1) 1 - days_from_civil y m 1.

Definition getTime (s : string) : option Z :=
  '(y, s) ← take_digits 4 0 s; s ← expect "-" s;
  '(m, s) ← take_digits 2 0 s; s ← expect "-" s;
  '(d, s) ← take_digits 2 0 s; s ← expect "T" s;
  '(hh, s) ← take_digits 2 0 s; s ← expect ":" s;
  '(mi, s) ← take_digits 2 0 s; s ← expect ":" s;
  '(ss, s) ← take_digits 2 0 s;
  '(ms, s) ← match expect "." s with
              | Some s' => take_digits 3 0 s'
              | None => Some (0, s)
              end;
  s ← expect "Z" s;
  if String.eqb s ""
     && (1 <=? m) && (m <=? 12) && (1 <=? d) && (d <=? days_in_month y m)
     && (hh <=? 23) && (mi <=? 59) && (ss <=? 59)
  then Some (utc {| f_year := y; f_month := m - 1; f_date := d;
                    f_hours := hh; f_minutes := mi; f_seconds := ss;
                    f_ms := ms |})
  else None.

(** Minutes east of UTC of the zones this host knows. *)
Definition zone_offset (timeZone : string) : option Z :=
  if String.eqb timeZone "UTC" then Some 0
  else if String.eqb timeZone "Etc/GMT-2" then Some 120
  else if String.eqb timeZone "Etc/GMT+5" then Some (-300)
  else None.

Definition wallClock (timeZone : string) (t : Z) : option Z :=
  match zone_offset timeZone with
  | Some minutes_east => Some (t / 1000 * 1000 + minutes_east * 60000)
  | None => None
  end.

Definition is_alpha (a : ascii) : bool :=
  let n := N_of_ascii a in
  (((65 <=? n) && (n <=? 90)) || ((97 <=? n) && (n <=? 122)))%N.

(** The URLs this host accepts: [http://] or [https://], a host of
    labels separated by dots, each a letter followed by letters, digits
    and hyphens, and optionally a slash and a path, query and fragment
    of unreserved characters. *)
Definition is_url_char (a : ascii) : bool :=
  is_alpha a || is_digit a
  || negb (all_chars (fun b => negb (Ascii.eqb a b)) "-._~/?=&%#").

Fixpoint url_host (at_label_start : bool) (s : string) : bool :=
  match s with
  | EmptyString => negb at_label_start
  | String a rest =>
      if at_label_start then is_alpha a && url_host false rest
      else if is_alpha a || is_digit a || Ascii.eqb a "-"
      then url_host false rest
      else if Ascii.eqb a "." then url_host true rest
      else if Ascii.eqb a "/" then all_chars is_url_char rest
      else false
  end.

Fixpoint strip_prefix (prefix s : string) : option string :=
  match prefix, s with
  | EmptyString, _ => Some s
  | String a prefix', String b s' =>
      if Ascii.eqb a b then strip_prefix prefix' s' else None
  | String _ _, EmptyString => None
  end.

Definition canParse (s : string) : bool :=
  match strip_prefix "http://" s, strip_prefix "https://" s with
  | Some rest, _ | None, Some rest => url_host true rest
  | None, None => false
  end.

Definition is_number (s : string) : bool :=
  let body := match s with
              | String "-" rest => rest
              | String "+" rest => rest
              | _ => s
              end in
  match split_at_char "." body with
  | Some (whole, fraction) =>
      all_digits whole && all_digits fraction
      && negb (String.eqb (whole ++ fraction) "")
  | None => all_digits body && negb (String.eqb body "")
  end.

(** The engine's sort on keys with a NaN among them, after V8: a NaN of
    the comparator counts as 0; the run at the head of the array
    (ascending, or strictly descending and then reversed) is extended by
    binary insertion of the remaining elements.  V8 sorts arrays of
    fewer than 64 elements this way; longer arrays it merges run by run,
    which this host does not follow. *)
Definition key_compare (keys : list (option Z)) (i j : nat) : Z :=
  match keys !! i, keys !! j with
  | Some (Some a), Some (Some b) => a - b
  | _, _ => 0
  end.

Fixpoint count_run (compare : nat -> nat -> Z) (descending : bool)
    (previous : nat) (run_reversed rest : list nat) : list nat * list nat :=
  match rest with
  | [] => (run_reversed, [])
  | current :: rest' =>
      let order := compare current previous in
      if (if descending then 0 <=? order else order <? 0)
      then (run_reversed, rest)
      else count_run compare descending current
             (current :: run_reversed) rest'
  end.

Fixpoint insertion_point (compare : nat -> nat -> Z) (pivot : nat)
    (sorted : list nat) (fuel left right : nat) : nat :=
  match fuel with
  | O => left
  | S fuel' =>
      if Nat.ltb left right then
        let mid := (left + Nat.div (right - left) 2)%nat in
        match sorted !! mid with
        | Some element =>
            if compare pivot element <? 0
            then insertion_point compare pivot sorted fuel' left mid
            else insertion_point compare pivot sorted fuel' (S mid) right
        | None => left
        end
      else left
  end.

Definition binary_insert (compare : nat -> nat -> Z) (sorted : list nat)
    (pivot : nat) : list nat :=
  let left :=
    insertion_point compare pivot sorted (S (length sorted)) O
      (length sorted) in
  (take left sorted ++ pivot :: drop left sorted)%list.

Definition sort_NaN_order (keys : list (option Z)) : list nat :=
  let compare := key_compare keys in
  match seq 0 (length keys) with
  | low :: high :: rest =>
      let descending := compare high low <? 0 in
      let '(run_reversed, rest') :=
        count_run compare descending high [high; low] rest in
      let run := if descending then run_reversed else rev run_reversed in
      foldl (binary_insert compare) run rest'
  | short => short
  end.

Global Instance host : Host := {|
  Date_getTime := getTime;
  Date_toLocaleTimeString := toLocaleTimeString;
  Date_toISOString := toISOString;
  Date_getFields := getFields;
  Date_local := utc;
  Date_UTC := utc;
  Date_wallClock := wallClock;
  invalid_time_error := "RangeError: Invalid time value";
  invalid_zone_error := fun z => "RangeError: Invalid time zone specified: " ++ z;
  URL_canParse := canParse;
  isNaN_string := fun s => negb (String.eqb s "") && negb (is_number s);
  Array_sort_NaN_order := sort_NaN_order;
|}.

End UtcHost.

(** ** Example data *)

Module Examples.

Definition slot (start : string) : TimeSlot :=
  {| startTime := start; endTime := ""; price := None |}.

(** Two rooms; both offer 09:00 on June 1st, and the second offers 08:00
    on the next day, the same time of day as the first room's early
    slot. *)
Definition two_rooms : TimesResponse :=
  {| times :=
       [ ("room-a", [ slot "2024-06-01T09:00:00Z"; slot "2024-06-01T08:00:00Z" ]);
         ("room-b", [ slot "2024-06-01T09:00:00Z"; slot "2024-06-02T08:00:00Z" ]) ] |}.

(** The rental widget, ready to query: June 1st to June 3rd 2024, 09:00
    to 09:00, service in UTC. *)
Definition rental_props : Rental.Props :=
  {| Rental.guestMode := false; Rental.customForm_fields := Some [];
     Rental.bkla_companyID := "company"; Rental.serviceID := "service";
     Rental.routes_confirmed := "/thanks"; Rental.routes_pending := "/pending" |}.

Definition nine : Rental.ClockTime :=
  {| Rental.clock_hour := 9; Rental.clock_minute := 0 |}.

Definition rental_state (range : Rental.DateRangeT) : Rental.State :=
  {| Rental.currentStep := Rental.DateRange; Rental.loading := false;
     Rental.submiting := false; Rental.error := None;
     Rental.serviceLoaded := true; Rental.dateRange := range;
     Rental.availableDates := []; Rental.selectedSlot := None;
     Rental.serviceTimezone := "UTC"; Rental.clientData := None;
     Rental.formData := ∅; Rental.formRef := None;
     Rental.location_href := None; Rental.navigations := [];
     Rental.console_errors := [] |}.

(** 2024-06-01T00:00:00Z and 2024-06-03T00:00:00Z *)
Definition june_1 : Z := 1717200000000.
Definition june_3 : Z := 1717372800000.

Definition two_days : Rental.DateRangeT :=
  {| Rental.startDate := Some june_1; Rental.endDate := Some june_3;
     Rental.range_startTime := nine; Rental.range_endTime := nine |}.

(** The same day, 09:00 to 17:00. *)
Definition eight_hours : Rental.DateRangeT :=
  {| Rental.startDate := Some june_1; Rental.endDate := Some june_1;
     Rental.range_startTime := nine;
     Rental.range_endTime :=
       {| Rental.clock_hour := 17; Rental.clock_minute := 0 |} |}.

(** An SDK whose [getTimes] resolves to [response] and whose other calls
    reject. *)
Definition sdk_times (response : TimesResponse) : Sdk :=
  fun R call =>
    match call in ApiCall R return R + string with
    | services_getTimes _ _ _ => inl response
    | services_getDates _ _ _ => inr "Error: not available"
    | bookings_request _ => inr "Error: not available"
    end.



(** An optional field of a given type, and a form showing only it. *)
Definition optional_field (ty : FieldType) : CustomFormField :=
  {| placeholderText := "Contact"; type := ty; inputWidth := span_2;
     required := false; labelText := "contact"; errorText := "";
     options := None |}.

Definition required_field (ty : FieldType) : CustomFormField :=
  {| placeholderText := "Contact"; type := ty; inputWidth := span_2;
     required := true; labelText := "contact";
     errorText := "Contact is required"; options := None |}.

Definition form_with (field : CustomFormField) (value : FormValue) : FormView :=
  {| firstName_text := "First Name"; lastName_text := "Last Name";
     email_text := "Email"; fields := [field]; guestFormEnabled := false;
     fv_formData := {[ labelText field := value ]}; guestData := ∅;
     formErrors := ∅ |}.

(** The flexible widget on its first step with a time selected. *)
Definition flexible_props : Flexible.Props :=
  {| Flexible.guestMode := false; Flexible.customForm_fields := Some [];
     Flexible.bkla_companyID := "company"; Flexible.serviceID := "service";
     Flexible.routes_confirmed := "/thanks";
     Flexible.routes_pending := "/pending" |}.

Definition flexible_state : Flexible.State :=
  {| Flexible.currentStep := Flexible.Date; Flexible.loading := false;
     Flexible.submiting := false; Flexible.error := None;
     Flexible.serviceLoaded := true; Flexible.timeSlots := [];
     Flexible.selectedTime :=
       Some {| timeSlot := slot "2024-06-01T09:00:00Z";
               resourceID := "room-a" |};
     Flexible.availableDates := ["2024-06-01"];
     Flexible.selectedResourceID := None;
     Flexible.currentDuration := {| days := 0; hours := 1; minutes := 30 |};
     Flexible.clientData := None; Flexible.formData := ∅;
     Flexible.formRef := None; Flexible.location_href := None;
     Flexible.navigations := []; Flexible.console_errors := [] |}.

(** The rental widget with a slot selected. *)
Definition rental_selected : Rental.State :=
  Rental.setSelectedSlot
    (Some {| timeSlot := slot "2024-06-01T09:00:00Z"; resourceID := "room-a" |})
    (rental_state two_days).

(** An SDK whose [bookings.request] settles to [settled] and whose other
    calls reject. *)
Definition sdk_booking (settled : BookingResponse + string) : Sdk :=
  fun R call =>
    match call in ApiCall R return R + string with
    | bookings_request _ => settled
    | services_getTimes _ _ _ => inr "Error: not available"
    | services_getDates _ _ _ => inr "Error: not available"
    end.

(** An SDK all of whose calls reject with [err]. *)
Definition sdk_rejecting (err : string) : Sdk :=
  fun R call => inr err.

Definition site_routes : Routes :=
  [ ("home", Some "/"); ("thanks", Some "/thanks");
    ("wait", Some "/pending") ].

End Examples.
From Stdlib Require OrdersEx.


(** ** Further parts of the two widgets

    The pickers, the form input handlers and the remaining handlers of
    the two components, on the definitions above. *)

(** [s.padStart(targetLength, "0")] *)
Definition padStart0 (targetLength : nat) (s : string) : string :=
  let fix zeros (k : nat) : string :=
    match k with O => "" | S k' => String "0" (zeros k') end in
  zeros (targetLength - String.length s)%nat ++ s.

(** The local calendar day of a date as [YYYY-MM-DD]: the [dateStr] of
    [isDateAvailable] (component.tsx:329, part_000:258-261). *)
Definition dateStr `{Host} (date : Z) : string :=
  let f := Date_getFields date in
  Number_toString (f_year f) ++ "-"
  ++ padStart0 2 (Number_toString (f_month f + 1)) ++ "-"
  ++ padStart0 2 (Number_toString (f_date f)).

(** [d.setDate(n)] *)
Definition Date_setDate `{Host} (d n : Z) : Z :=
  let f := Date_getFields d in
  Date_local {| f_year := f_year f; f_month := f_month f; f_date := n;
                f_hours := f_hours f; f_minutes := f_minutes f;
                f_seconds := f_seconds f; f_ms := f_ms f |}.

(** *** The duration picker (component.tsx:563-640) *)

Module DurationPicker.

Import Flexible_Duration.

Record Props : Type := mkProps {
  minDuration : Duration;
  stepDuration : Duration;
  maxDuration : Duration;
}.

(** component.tsx:596: the new [duration] state and, when the change is
    accepted, the argument of [onDurationChange]. *)
Definition handleDurationChange (p : Props) (up : bool) (duration : Duration)
  : Duration * option Duration :=
  let currentMinutes := convertToMinutes duration in
  let stepMinutes := convertToMinutes (stepDuration p) in
  let newTotalMinutes :=
    if up then currentMinutes + stepMinutes
    else currentMinutes - stepMinutes in
  let minMinutes := convertToMinutes (minDuration p) in
  let maxMinutes := convertToMinutes (maxDuration p) in
  if (minMinutes <=? newTotalMinutes)
     && ((newTotalMinutes <=? maxMinutes) || (maxMinutes =? 0))
  then
    let newDuration := convertToHoursAndMinutes newTotalMinutes in
    (newDuration, Some newDuration)
  else (duration, None).

(** component.tsx:633 *)
Definition minusButtonEnabled (p : Props) (duration : Duration) : bool :=
  convertToMinutes (minDuration p) <? convertToMinutes duration.

(** component.tsx:635 *)
Definition plusButtonEnabled (p : Props) (duration : Duration) : bool :=
  (convertToMinutes duration <? convertToMinutes (maxDuration p))
  || (convertToMinutes (maxDuration p) =? 0).

(** The total is within the configured bounds ([max] 0 is "no upper
    bound"). *)
Definition within_bounds (p : Props) (duration : Duration) : Prop :=
  convertToMinutes (minDuration p) <= convertToMinutes duration /\
  (convertToMinutes duration <= convertToMinutes (maxDuration p) \/
   convertToMinutes (maxDuration p) = 0).

End DurationPicker.

(** *** The date strip of the flexible widget (component.tsx:191-335) *)

Module DatePicker.

(** The part of the picker state the handlers below touch; an invalid
    date (from the native date input) is [None]. *)
Record State : Type := mkState {
  selectedDate : option Z;
  startOffset : Z;
  visibleCount : Z;
}.

(** component.tsx:224; [now] is the [new Date()] of the call.  With an
    invalid [newDate] the offset is NaN and both comparisons are false. *)
Definition doChangeDate (now : Z) (newDate : option Z) (s : State) : State :=
  match newDate with
  | None => {| selectedDate := None; startOffset := startOffset s;
               visibleCount := visibleCount s |}
  | Some d =>
      let newDateOffset := (d - now) / (1000 * 60 * 60 * 24) in
      let rangeStart := startOffset s in
      let rangeEnd := startOffset s + visibleCount s - 1 in
      if (newDateOffset <? rangeStart) || (rangeEnd <? newDateOffset)
      then {| selectedDate := Some d; startOffset := newDateOffset;
              visibleCount := visibleCount s |}
      else {| selectedDate := Some d; startOffset := startOffset s;
              visibleCount := visibleCount s |}
  end.

(** component.tsx:297 *)
Definition handleDateClick (date : Z) (s : State) : State :=
  {| selectedDate := Some date; startOffset := startOffset s;
     visibleCount := visibleCount s |}.

(** component.tsx:302 *)
Definition handlePrevious (s : State) : State :=
  {| selectedDate := selectedDate s;
     startOffset := startOffset s - (visibleCount s - 1);
     visibleCount := visibleCount s |}.

(** component.tsx:306 *)
Definition handleNext (s : State) : State :=
  {| selectedDate := selectedDate s;
     startOffset := startOffset s + (visibleCount s - 1);
     visibleCount := visibleCount s |}.

(** component.tsx:326 *)
Definition isDateAvailable `{Host} (availableDates : list string) (date : Z)
  : bool :=
  match availableDates with
  | [] => true
  | _ => bool_decide (dateStr date ∈ availableDates)
  end.

End DatePicker.

(** *** The time list of the flexible widget (component.tsx:753-812) *)

Module TimePicker.

(** The candidates of [getNextAvailableDate]: the available dates, read
    as dates and set to local midnight, that lie after the selected day.
    An unreadable string gives an invalid date, which is not greater
    than anything and is filtered out. *)
Definition laterDates `{Host} (availableDates : list string) (current : Z)
  : list Z :=
  omap (fun dateStr =>
          match Date_getTime dateStr with
          | Some t =>
              let midnight := Date_setHours t 0 0 0 0 in
              if current <? midnight then Some midnight else None
          | None => None
          end)
       availableDates.

(** component.tsx:784; the props [availableDates] and [selectedDate] may
    be missing. *)
Definition getNextAvailableDate `{Host}
    (availableDates : option (list string)) (selectedDate : option Z)
  : option Z :=
  match availableDates, selectedDate with
  | Some (d :: ds), Some selected =>
      let currentSelectedDate := Date_setHours selected 0 0 0 0 in
      let nextAvailableDates :=
        Array_sort (fun a b => Some (a - b))
          (laterDates (d :: ds) currentSelectedDate) in
      match nextAvailableDates with
      | first :: _ => Some first
      | [] => None
      end
  | _, _ => None
  end.

End TimePicker.

(** *** The form inputs (component.tsx:1171-1198, part_000:764-788) *)

Definition setGuestData (g : gmap string FormValue) (fv : FormView) : FormView :=
  {| firstName_text := firstName_text fv; lastName_text := lastName_text fv;
     email_text := email_text fv; fields := fields fv;
     guestFormEnabled := guestFormEnabled fv; fv_formData := fv_formData fv;
     guestData := g; formErrors := formErrors fv |}.

Definition setFormViewData (d : gmap string FormValue) (fv : FormView)
  : FormView :=
  {| firstName_text := firstName_text fv; lastName_text := lastName_text fv;
     email_text := email_text fv; fields := fields fv;
     guestFormEnabled := guestFormEnabled fv; fv_formData := d;
     guestData := guestData fv; formErrors := formErrors fv |}.

(** component.tsx:1171: the view after the input and the object handed to
    [onDataChange].  In an object spread the later source wins, so the
    union is taken with the later source on the left. *)
Definition handleInputChange (key : string) (value : FormValue) (fv : FormView)
  : FormView * gmap string FormValue :=
  if isGuestField key then
    let newGuestData := <[key := value]> (guestData fv) in
    (setGuestData newGuestData fv, newGuestData ∪ fv_formData fv)
  else
    let newFormData := <[key := value]> (fv_formData fv) in
    (setFormViewData newFormData fv, guestData fv ∪ newFormData).

(** component.tsx:1190: [guestData[label] || ""] *)
Definition getFieldValue (fv : FormView) (field : CustomFormField) : FormValue :=
  let value := fieldValue fv field in
  if truthy value then value else VString "".

(** The guest labels live in [guestData] and only there. *)
Definition routed (fv : FormView) : Prop :=
  (forall key, is_Some (guestData fv !! key) -> isGuestField key = true) /\
  (forall key, is_Some (fv_formData fv !! key) -> isGuestField key = false).

(** *** The form data in the parent (component.tsx:2253-2274,
    part_000:1453-1474) *)

(** [handleClientDataChange] on the record built by
    [handleFormDataChange]: [Some None] is [setClientData(null)].  The
    interface [ClientData] has a string [email]; a [data] object whose
    email is an array (a multiselect field labelled "email") is outside
    it and has no result here. *)
Definition clientOf (clientUUID : string) (data : gmap string FormValue)
  : option (option ClientData) :=
  let email :=
    match data !! "email" with
    | None | Some VUndefined => Some ""
    | Some (VString e) => Some e
    | Some (VArray _) => None
    end in
  match email with
  | None => None
  | Some e =>
      if String.eqb e "" then Some None
      else Some (Some {| client_id := Some clientUUID; client_email := e;
                         client_firstName :=
                           default VUndefined (data !! "firstName");
                         client_lastName :=
                           default VUndefined (data !! "lastName") |})
  end.

(** The [data] object after the three [delete]s. *)
Definition withoutGuestKeys (data : gmap string FormValue)
  : gmap string FormValue :=
  delete "lastName" (delete "firstName" (delete "email" data)).

(** *** More of the flexible widget *)

Module FlexibleView.

Import Flexible.

Definition setLoading (v : bool) (s : State) : State :=
  mkState (currentStep s) v (submiting s) (error s) (serviceLoaded s)
    (timeSlots s) (selectedTime s) (availableDates s) (selectedResourceID s)
    (currentDuration s) (clientData s) (formData s) (formRef s)
    (location_href s) (navigations s) (console_errors s).

Definition setTimeSlots (v : list TimeSlotWithResource) (s : State) : State :=
  mkState (currentStep s) (loading s) (submiting s) (error s) (serviceLoaded s)
    v (selectedTime s) (availableDates s) (selectedResourceID s)
    (currentDuration s) (clientData s) (formData s) (formRef s)
    (location_href s) (navigations s) (console_errors s).

Definition setSelectedTime (v : option TimeSlotWithResource) (s : State)
  : State :=
  mkState (currentStep s) (loading s) (submiting s) (error s) (serviceLoaded s)
    (timeSlots s) v (availableDates s) (selectedResourceID s)
    (currentDuration s) (clientData s) (formData s) (formRef s)
    (location_href s) (navigations s) (console_errors s).

Definition setCurrentDuration (v : Duration) (s : State) : State :=
  mkState (currentStep s) (loading s) (submiting s) (error s) (serviceLoaded s)
    (timeSlots s) (selectedTime s) (availableDates s) (selectedResourceID s)
    v (clientData s) (formData s) (formRef s)
    (location_href s) (navigations s) (console_errors s).

Definition setClientData (v : option ClientData) (s : State) : State :=
  mkState (currentStep s) (loading s) (submiting s) (error s) (serviceLoaded s)
    (timeSlots s) (selectedTime s) (availableDates s) (selectedResourceID s)
    (currentDuration s) v (formData s) (formRef s)
    (location_href s) (navigations s) (console_errors s).

Definition setFormData (v : gmap string FormValue) (s : State) : State :=
  mkState (currentStep s) (loading s) (submiting s) (error s) (serviceLoaded s)
    (timeSlots s) (selectedTime s) (availableDates s) (selectedResourceID s)
    (currentDuration s) (clientData s) v (formRef s)
    (location_href s) (navigations s) (console_errors s).

(** [d.setTime(x)]: the time value is [x] with its fraction dropped. *)
Definition Date_setTime (x : Q) : Z := Z.quot (Qnum x) (Zpos (Qden x)).

Section Handlers.
Context `{Host} (props : Props).

(** component.tsx:110, in minutes; [None] when [toLocaleString] rejects
    the zone. *)
Definition getTimezoneOffset (timeZone : string) (date : Z) : option Q :=
  match Date_wallClock "UTC" date, Date_wallClock timeZone date with
  | Some utcDate, Some localDate =>
      Some (inject_Z (utcDate - localDate) / inject_Z (1000 * 60))%Q
  | _, _ => None
  end.

(** component.tsx:2149-2176: the window asked of [getTimes], from the
    start of the day to the start of the next one, extended by what the
    duration has beyond one hour, both shifted by the zone offset when
    [props.localTime] is set.  [inr] is the RangeError thrown for an
    unknown zone, which this part of the handler does not catch. *)
Definition timesWindow (localTime : bool) (timeZone : string) (date : Z)
    (duration : Duration) : Z * Z + string :=
  let startOfTheDay :=
    Date_setHours date 0 0 0 (f_ms (Date_getFields date)) in
  let endOfTheDay :=
    Date_setDate startOfTheDay (f_date (Date_getFields startOfTheDay) + 1) in
  let endOfTheDay :=
    if (1 <? hours duration)
       || ((hours duration =? 1) && (0 <? minutes duration))
    then
      let durationMs :=
        (hours duration - 1) * 3600000 + minutes duration * 60000 in
      let extended := endOfTheDay + durationMs in
      if 0 <? days duration
      then Date_setDate extended
             (f_date (Date_getFields extended) + days duration)
      else extended
    else endOfTheDay in
  if localTime then
    match getTimezoneOffset timeZone startOfTheDay with
    | Some offsetMinutes =>
        inl (Date_setTime
               (inject_Z startOfTheDay - offsetMinutes * 60 * 1000)%Q,
             Date_setTime
               (inject_Z endOfTheDay - offsetMinutes * 60 * 1000)%Q)
    | None => inr (invalid_zone_error timeZone)
    end
  else inl (startOfTheDay, endOfTheDay).

(** component.tsx:2135; [localTime] is [props.localTime === true] and
    [timeZone] the state of that name.  The result is the state the
    handler leaves and, when its promise rejects, the error it rejects
    with. *)
Definition onDateChange (localTime : bool) (timeZone : string) (date : Z)
    (s : State) : Async (State * option string) :=
  if String.eqb (bkla_companyID props) "" || String.eqb (serviceID props) ""
     || negb (serviceLoaded s)
  then Ret (s, None)
  else
    let s1 := setSelectedTime None (setError None (setLoading true s)) in
    match timesWindow localTime timeZone date (currentDuration s) with
    | inr thrown => Ret (s1, Some thrown)
    | inl (startOfTheDay, endOfTheDay) =>
        let params :=
          {| Params.from := Date_toISOString startOfTheDay;
             Params.to := Date_toISOString endOfTheDay;
             Params.resourceIDs :=
               match selectedResourceID s with
               | Some r => if String.eqb r "" then Some [] else Some [r]
               | None => Some []
               end;
             Params.duration := durationToISO (currentDuration s) |} in
        Await (services_getTimes (bkla_companyID props) (serviceID props)
                 params)
          (fun settled =>
             match settled with
             | inl response =>
                 Ret (setLoading false
                        (setTimeSlots (formatSlots response) s1), None)
             | inr err =>
                 Ret (setLoading false
                        (setError (Some ("Failed to load times: " ++ err)) s1),
                      None)
             end)
    end.

(** component.tsx:2253; no result for a [data] outside [ClientData]. *)
Definition handleFormDataChange (clientUUID : string)
    (data : gmap string FormValue) (s : State) : option State :=
  match clientOf clientUUID data with
  | Some client => Some (setFormData (withoutGuestKeys data)
                           (setClientData client s))
  | None => None
  end.

(** component.tsx:1976; [selectedDate] is the prop, [None] the invalid
    date. *)
Definition preselectedDate (selectedDate : option string) (now : Z)
  : option Z :=
  match selectedDate with
  | None => Some now
  | Some given =>
      match Date_getTime given with
      | Some presDate => if presDate <? now then Some now else Some presDate
      | None => None
      end
  end.

(** component.tsx:2329 *)
Definition bookButtonEnabled (isAuthorized showTerms termsAccepted : bool)
    (s : State) : bool :=
  negb (submiting s)
  && (isAuthorized || guestMode props)
  && (negb (bool_decide (currentStep s = Date))
      || bool_decide (selectedTime s <> None))
  && (negb showTerms || termsAccepted).

End Handlers.

End FlexibleView.

(** *** More of the rental widget *)

Module RentalView.

Import Rental.

Definition setDateRange (v : DateRangeT) (s : State) : State :=
  mkState (currentStep s) (loading s) (submiting s) (error s) (serviceLoaded s)
    v (availableDates s) (selectedSlot s) (serviceTimezone s)
    (clientData s) (formData s) (formRef s)
    (location_href s) (navigations s) (console_errors s).

Definition setClientData (v : option ClientData) (s : State) : State :=
  mkState (currentStep s) (loading s) (submiting s) (error s) (serviceLoaded s)
    (dateRange s) (availableDates s) (selectedSlot s) (serviceTimezone s)
    v (formData s) (formRef s)
    (location_href s) (navigations s) (console_errors s).

Definition setFormData (v : gmap string FormValue) (s : State) : State :=
  mkState (currentStep s) (loading s) (submiting s) (error s) (serviceLoaded s)
    (dateRange s) (availableDates s) (selectedSlot s) (serviceTimezone s)
    (clientData s) v (formRef s)
    (location_href s) (navigations s) (console_errors s).

(** ["start" | "end"]: the selection mode of the range picker and the
    [type] of [handleTimeChange]. *)
Inductive StartOrEnd : Type := at_start | at_end.

(** The initial [dateRange] (part_000:1163). *)
Definition initialDateRange : DateRangeT :=
  {| startDate := None; endDate := None;
     range_startTime := {| clock_hour := 9; clock_minute := 0 |};
     range_endTime := {| clock_hour := 9; clock_minute := 0 |} |}.

Section Handlers.
Context `{Host} (props : Props).

(** part_000:256 *)
Definition isDateAvailable (availableDates : list string) (date : Z) : bool :=
  bool_decide (dateStr date ∈ availableDates).

(** part_000:302: the selection mode and the range after a click on a
    day ([onDateRangeChange] is the parent's [setDateRange]). *)
Definition handleDateClick (availableDates : list string) (date : Z)
    (picker : StartOrEnd * DateRangeT) : StartOrEnd * DateRangeT :=
  let '(selectionMode, range) := picker in
  if negb (isDateAvailable availableDates date) then picker
  else
    let restart :=
      (at_end, {| startDate := Some date; endDate := None;
                  range_startTime := range_startTime range;
                  range_endTime := range_endTime range |}) in
    match selectionMode, startDate range with
    | at_start, _ | _, None => restart
    | at_end, Some start =>
        if date <? start then restart
        else (at_start, {| startDate := startDate range; endDate := Some date;
                           range_startTime := range_startTime range;
                           range_endTime := range_endTime range |})
    end.

(** part_000:332 *)
Definition handleTimeChange (type : StartOrEnd) (time : ClockTime)
    (range : DateRangeT) : DateRangeT :=
  match type with
  | at_start => {| startDate := startDate range; endDate := endDate range;
                   range_startTime := time;
                   range_endTime := range_endTime range |}
  | at_end => {| startDate := startDate range; endDate := endDate range;
                 range_startTime := range_startTime range;
                 range_endTime := time |}
  end.

(** part_000:1540, the effect on the date range *)
Definition slotEffect (s : State) : Async State :=
  if isDurationValid s then checkSlotAvailability props s
  else Ret (setSelectedSlot None s).

(** part_000:1580 *)
Definition isButtonEnabled (isAuthorized : bool) (s : State) : bool :=
  if submiting s then false
  else if decide (currentStep s = DateRange) then
    isDurationValid s && bool_decide (selectedSlot s <> None)
    && (isAuthorized || guestMode props)
  else isAuthorized || guestMode props.

(** part_000:1453; no result for a [data] outside [ClientData]. *)
Definition handleFormDataChange (clientUUID : string)
    (data : gmap string FormValue) (s : State) : option State :=
  match clientOf clientUUID data with
  | Some client => Some (setFormData (withoutGuestKeys data)
                           (setClientData client s))
  | None => None
  end.

End Handlers.

(** What the picker does to the range, one user action at a time. *)
Inductive PickerEvent : Type :=
  | ClickDay (availableDates : list string) (date : Z)
  | ChangeTime (type : StartOrEnd) (time : ClockTime).

Definition pickerStep `{Host} (picker : StartOrEnd * DateRangeT)
    (event : PickerEvent) : StartOrEnd * DateRangeT :=
  match event with
  | ClickDay availableDates date => handleDateClick availableDates date picker
  | ChangeTime type time => (fst picker, handleTimeChange type time (snd picker))
  end.

(** A range with an end has a start, not after the end. *)
Definition ordered_range (range : DateRangeT) : Prop :=
  match endDate range with
  | Some end_ => exists start, startDate range = Some start /\ start <= end_
  | None => True
  end.

(** The pickers reachable by user actions: while an end is awaited there
    is a start and no end; otherwise the range is empty or complete with
    the start day not after the end day. *)
Definition picker_shape (picker : StartOrEnd * DateRangeT) : Prop :=
  match fst picker with
  | at_end =>
      is_Some (startDate (snd picker)) /\ endDate (snd picker) = None
  | at_start =>
      (startDate (snd picker) = None /\ endDate (snd picker) = None) \/
      (exists start end_,
         startDate (snd picker) = Some start /\
         endDate (snd picker) = Some end_ /\ start <= end_)
  end.

End RentalView.
(** ** The villa widget ([unnamed/part_000], from line 2000)

    The weekly rental component: its availability fetch, the price and
    slot lookup for the selected span, the week selection and the booking
    request. *)

Module Villa.

(** ["list" | "form" | "success"] *)
Inductive Step : Type := StepList | StepForm | StepSuccess.

Inductive LengthMode : Type := weeks | in_days.

(** [props.routes] *)
Record RoutesProp : Type := mkRoutesProp {
  confirmed : option string;
  pending : option string;
}.

(** The [texts] the handlers use, after the defaults. *)
Record Texts : Type := mkTexts {
  availabilityError : string;
  firstNameRequired : string;
  lastNameRequired : string;
  emailRequired : string;
  noSlotFound : string;
  bookingFailed : string;
}.

(** The configuration as the component reads it at the top of its body,
    after the defaults: the ids, the length mode, the required flags of
    [formTexts], the router of [useRouter] ([navigate] and [routes], each
    possibly undefined) and the route props. *)
Record Props : Type := mkProps {
  bk_companyID : string;
  serviceID : string;
  resourceID : string;
  lengthMode : LengthMode;
  fixedLengthDays : Z;
  formTexts_firstNameRequired : bool;
  formTexts_lastNameRequired : bool;
  formTexts_emailRequired : bool;
  showTerms : bool;
  texts : Texts;
  navigate : bool;
  routes : option Routes;
  props_routes : option RoutesProp;
}.

Record Client : Type := mkClient {
  firstName : string;
  lastName : string;
  email : string;
}.

(** part_000:2388 *)
Definition findRouteId (allRoutes : option Routes) (path : string) : string :=
  match allRoutes with
  | None => ""
  | Some allRoutes => getRouteId allRoutes path
  end.

(** part_000:2397: [d.toISOString().split("T")[0]] *)
Definition fmt `{Host} (d : Z) : string :=
  match split_at_char "T" (Date_toISOString d) with
  | Some (day, _) => day
  | None => Date_toISOString d
  end.

(** part_000:2398 *)
Definition addDays `{Host} (d n : Z) : Z :=
  Date_setDate d (f_date (Date_getFields d) + n).

(** part_000:2815 *)
Definition isSameDay `{Host} (d1 d2 : Z) : bool :=
  (f_year (Date_getFields d1) =? f_year (Date_getFields d2))
  && (f_month (Date_getFields d1) =? f_month (Date_getFields d2))
  && (f_date (Date_getFields d1) =? f_date (Date_getFields d2)).

(** [times[resourceID] || []] on the [times] object of the response *)
Fixpoint slotsOf (resourceID : string) (times : list (string * list TimeSlot))
  : list TimeSlot :=
  match times with
  | [] => []
  | (key, slots) :: rest =>
      if String.eqb key resourceID then slots else slotsOf resourceID rest
  end.

(** part_000:2693-2701, the loop: the first slot whose start, as an ISO
    string, begins with the target day; a slot whose start is not a date
    makes [toISOString] throw and is passed over. *)
Fixpoint firstOnDay `{Host} (targetDateStr : string) (slots : list TimeSlot)
  : option TimeSlot :=
  match slots with
  | [] => None
  | s :: rest =>
      match Date_getTime (startTime s) with
      | Some t =>
          if String.prefix targetDateStr (Date_toISOString t) then Some s
          else firstOnDay targetDateStr rest
      | None => firstOnDay targetDateStr rest
      end
  end.

(** The test of that loop on one slot. *)
Definition startsOn `{Host} (targetDateStr : string) (slot : TimeSlot) : bool :=
  match Date_getTime (startTime slot) with
  | Some t => String.prefix targetDateStr (Date_toISOString t)
  | None => false
  end.

(** part_000:2691-2702: [chosen] *)
Definition chosenSlot `{Host} (targetDateStr : string) (slots : list TimeSlot)
  : option TimeSlot :=
  match firstOnDay targetDateStr slots with
  | Some s => Some s
  | None => head slots
  end.

(** part_000:2704-2708: the price that is taken over, one with a
    currency. *)
Definition chosenPrice (chosen : TimeSlot) : option Price :=
  match price chosen with
  | Some p => if String.eqb (currency p) "" then None else Some p
  | None => None
  end.

Record State : Type := mkState {
  step : Step;
  availableDates : list string;
  startDate : option Z;
  endDate : option Z;
  days : Z;
  loading : bool;
  error : option string;
  price : option Price;
  priceLoading : bool;
  lastPriceKeyRef : option string;
  slotStartISO : option string;
  client : Client;
  customData : gmap string FormValue;
  termsAccepted : bool;
  location_href : option string;
  navigations : list string;
  console : list string;
}.

Definition setStep (v : Step) (s : State) : State :=
  mkState v (availableDates s) (startDate s) (endDate s) (days s) (loading s)
    (error s) (price s) (priceLoading s) (lastPriceKeyRef s) (slotStartISO s)
    (client s) (customData s) (termsAccepted s) (location_href s)
    (navigations s) (console s).

Definition setAvailableDates (v : list string) (s : State) : State :=
  mkState (step s) v (startDate s) (endDate s) (days s) (loading s) (error s)
    (price s) (priceLoading s) (lastPriceKeyRef s) (slotStartISO s)
    (client s) (customData s) (termsAccepted s) (location_href s)
    (navigations s) (console s).

Definition setStartDate (v : option Z) (s : State) : State :=
  mkState (step s) (availableDates s) v (endDate s) (days s) (loading s)
    (error s) (price s) (priceLoading s) (lastPriceKeyRef s) (slotStartISO s)
    (client s) (customData s) (termsAccepted s) (location_href s)
    (navigations s) (console s).

Definition setEndDate (v : option Z) (s : State) : State :=
  mkState (step s) (availableDates s) (startDate s) v (days s) (loading s)
    (error s) (price s) (priceLoading s) (lastPriceKeyRef s) (slotStartISO s)
    (client s) (customData s) (termsAccepted s) (location_href s)
    (navigations s) (console s).

Definition setLoading (v : bool) (s : State) : State :=
  mkState (step s) (availableDates s) (startDate s) (endDate s) (days s) v
    (error s) (price s) (priceLoading s) (lastPriceKeyRef s) (slotStartISO s)
    (client s) (customData s) (termsAccepted s) (location_href s)
    (navigations s) (console s).

Definition setError (v : option string) (s : State) : State :=
  mkState (step s) (availableDates s) (startDate s) (endDate s) (days s)
    (loading s) v (price s) (priceLoading s) (lastPriceKeyRef s)
    (slotStartISO s) (client s) (customData s) (termsAccepted s)
    (location_href s) (navigations s) (console s).

Definition setPrice (v : option Price) (s : State) : State :=
  mkState (step s) (availableDates s) (startDate s) (endDate s) (days s)
    (loading s) (error s) v (priceLoading s) (lastPriceKeyRef s)
    (slotStartISO s) (client s) (customData s) (termsAccepted s)
    (location_href s) (navigations s) (console s).

Definition setPriceLoading (v : bool) (s : State) : State :=
  mkState (step s) (availableDates s) (startDate s) (endDate s) (days s)
    (loading s) (error s) (price s) v (lastPriceKeyRef s) (slotStartISO s)
    (client s) (customData s) (termsAccepted s) (location_href s)
    (navigations s) (console s).

Definition set_lastPriceKeyRef (v : option string) (s : State) : State :=
  mkState (step s) (availableDates s) (startDate s) (endDate s) (days s)
    (loading s) (error s) (price s) (priceLoading s) v (slotStartISO s)
    (client s) (customData s) (termsAccepted s) (location_href s)
    (navigations s) (console s).

Definition setSlotStartISO (v : option string) (s : State) : State :=
  mkState (step s) (availableDates s) (startDate s) (endDate s) (days s)
    (loading s) (error s) (price s) (priceLoading s) (lastPriceKeyRef s) v
    (client s) (customData s) (termsAccepted s) (location_href s)
    (navigations s) (console s).

Definition set_location_href (v : option string) (s : State) : State :=
  mkState (step s) (availableDates s) (startDate s) (endDate s) (days s)
    (loading s) (error s) (price s) (priceLoading s) (lastPriceKeyRef s)
    (slotStartISO s) (client s) (customData s) (termsAccepted s) v
    (navigations s) (console s).
(** [console.error(e)] and [console.warn(message, e)] *)
Definition console_error (err : string) (s : State) : State :=
  mkState (step s) (availableDates s) (startDate s) (endDate s) (days s)
    (loading s) (error s) (price s) (priceLoading s) (lastPriceKeyRef s)
    (slotStartISO s) (client s) (customData s) (termsAccepted s)
    (location_href s) (navigations s) (console s ++ [err])%list.

Definition console_warn (message err : string) (s : State) : State :=
  console_error (message ++ " " ++ err) s.

(** [navigate(rid, "")] *)
Definition do_navigate (rid : string) (s : State) : State :=
  mkState (step s) (availableDates s) (startDate s) (endDate s) (days s)
    (loading s) (error s) (price s) (priceLoading s) (lastPriceKeyRef s)
    (slotStartISO s) (client s) (customData s) (termsAccepted s)
    (location_href s) (navigations s ++ [rid])%list (console s).

(** A non-empty string, as a condition. *)
Definition nonempty (x : option string) : bool :=
  match x with
  | Some v => negb (String.eqb v "")
  | None => false
  end.

Section Handlers.
Context `{Host} (props : Props).

(** part_000:2559: [Math.round] of the days between the two midnights in
    weeks mode, 7 without a complete selection. *)
Definition selectedDays (s : State) : Z :=
  match lengthMode props with
  | weeks =>
      match startDate s, endDate s with
      | Some startDate, Some endDate =>
          let start := Date_setHours startDate 0 0 0 0 in
          let end_ := Date_setHours endDate 0 0 0 0 in
          let diffTime := end_ - start in
          (2 * diffTime + 1000 * 60 * 60 * 24) / (2 * (1000 * 60 * 60 * 24))
      | _, _ => 7
      end
  | in_days =>
      if 0 <? fixedLengthDays props then fixedLengthDays props else days s
  end.

(** part_000:2599 *)
Definition endBoundary (s : State) : option Z :=
  match lengthMode props with
  | weeks => endDate s
  | in_days =>
      match startDate s with
      | Some startDate => Some (addDays startDate (selectedDays s))
      | None => None
      end
  end.

(** part_000:2627 *)
Definition fetchAvailability (anchor months : Z) (s : State) : Async State :=
  let s1 := setError None (setLoading true s) in
  let first :=
    Date_local {| f_year := f_year (Date_getFields anchor);
                  f_month := f_month (Date_getFields anchor); f_date := 1;
                  f_hours := 0; f_minutes := 0; f_seconds := 0; f_ms := 0 |} in
  let last :=
    Date_local {| f_year := f_year (Date_getFields anchor);
                  f_month := f_month (Date_getFields anchor) + months;
                  f_date := 0;
                  f_hours := 0; f_minutes := 0; f_seconds := 0; f_ms := 0 |} in
  Await (services_getDates (bk_companyID props) (serviceID props)
           {| Params.from := Date_toISOString first;
              Params.to := Date_toISOString last;
              Params.duration := "P1D";
              Params.resourceIDs := Some [resourceID props] |})
    (fun settled =>
       match settled with
       | inl res => Ret (setLoading false (setAvailableDates (uniqueDates res) s1))
       | inr e =>
           Ret (setLoading false
                  (setError (Some (availabilityError (texts props)))
                     (console_error e s1)))
       end).

(** part_000:2672 *)
Definition fetchPriceAndSlot (s : State) : Async State :=
  match startDate s, endBoundary s with
  | Some start, Some endBoundary =>
      let key := fmt start ++ "|" ++ Number_toString (selectedDays s) in
      if bool_decide (lastPriceKeyRef s = Some key)
         && bool_decide (price s <> None) && nonempty (slotStartISO s)
      then Ret s
      else
        let s1 :=
          setPrice None
            (setSlotStartISO None
               (setPriceLoading true (set_lastPriceKeyRef (Some key) s))) in
        Await (services_getTimes (bk_companyID props) (serviceID props)
                 {| Params.from := Date_toISOString start;
                    Params.to := Date_toISOString endBoundary;
                    Params.duration :=
                      "P" ++ Number_toString (selectedDays s) ++ "D";
                    Params.resourceIDs := Some [resourceID props] |})
          (fun settled =>
             match settled with
             | inl res =>
                 let slots := slotsOf (resourceID props) (times res) in
                 match chosenSlot (fmt start) slots with
                 | None => Ret (setPriceLoading false s1)
                 | Some chosen =>
                     let s2 :=
                       match chosenPrice chosen with
                       | Some p => setPrice (Some p) s1
                       | None => s1
                       end in
                     if String.eqb (startTime chosen) ""
                     then Ret (setPriceLoading false s2)
                     else
                       match Date_getTime (startTime chosen) with
                       | Some t =>
                           Ret (setPriceLoading false
                                  (setSlotStartISO
                                     (Some (Date_toISOString t)) s2))
                       | None =>
                           Ret (setPriceLoading false
                                  (console_warn "Price/slot lookup failed"
                                     invalid_time_error s2))
                       end
                 end
             | inr e =>
                 Ret (setPriceLoading false
                        (console_warn "Price/slot lookup failed" e s1))
             end)
  | _, _ => Ret s
  end.

(** part_000:2767-2776: the [body] of the request *)
Definition body (slotStartISO : string) (s : State) : BookingRequest.t :=
  {| BookingRequest.companyID := bk_companyID props;
     BookingRequest.serviceID := serviceID props;
     BookingRequest.resourceID := resourceID props;
     BookingRequest.startTime := slotStartISO;
     BookingRequest.duration :=
       "P" ++ Number_toString (selectedDays s) ++ "D";
     BookingRequest.metaData :=
       if decide (customData s = ∅) then None else Some (customData s);
     BookingRequest.client :=
       Some (Some {| client_id := None;
                     client_email := email (client s);
                     client_firstName := VString (firstName (client s));
                     client_lastName := VString (lastName (client s)) |}) |}.

(** part_000:2784-2795: where a response with the given status makes
    the router go, if anywhere: [findRouteId(routes, path) ||
    findRouteId(routes, "/")] when it is not empty. *)
Definition routeFor (path : option string) : option string :=
  match path with
  | Some path =>
      if String.eqb path "" then None
      else
        let rid :=
          if String.eqb (findRouteId (routes props) path) ""
          then findRouteId (routes props) "/"
          else findRouteId (routes props) path in
        if String.eqb rid "" then None else Some rid
  | None => None
  end.

Definition navigationTarget (res : BookingResponse) : option string :=
  match navigate props, props_routes props with
  | true, Some r =>
      match (if String.eqb (status res) "confirmed"
             then routeFor (confirmed r) else None) with
      | Some rid => Some rid
      | None =>
          if String.eqb (status res) "pending" then routeFor (pending r)
          else None
      end
  | _, _ => None
  end.

(** part_000:2780-2797 *)
Definition onBookingResponse (res : BookingResponse) (s : State) : State :=
  match has_paymentURL res with
  | Some u => set_location_href (Some u) s
  | None =>
      match navigationTarget res with
      | Some rid => do_navigate rid s
      | None => setStep StepSuccess s
      end
  end.

(** part_000:2751 *)
Definition onBook (s : State) : Async State :=
  match startDate s, endBoundary s with
  | Some _, Some _ =>
      if formTexts_firstNameRequired props
         && String.eqb (firstName (client s)) ""
      then Ret (setError (Some (firstNameRequired (texts props))) s)
      else if formTexts_lastNameRequired props
              && String.eqb (lastName (client s)) ""
      then Ret (setError (Some (lastNameRequired (texts props))) s)
      else if formTexts_emailRequired props
              && String.eqb (email (client s)) ""
      then Ret (setError (Some (emailRequired (texts props))) s)
      else
        match slotStartISO s with
        | Some slotStart =>
            if String.eqb slotStart ""
            then Ret (setError (Some (noSlotFound (texts props))) s)
            else if showTerms props && negb (termsAccepted s)
            then Ret (setError
                        (Some "Please accept the terms and conditions") s)
            else
              let s1 := setError None s in
              Await (bookings_request (body slotStart s))
                (fun settled =>
                   match settled with
                   | inl res => Ret (onBookingResponse res s1)
                   | inr e =>
                       Ret (setError (Some (bookingFailed (texts props)))
                              (console_error e s1))
                   end)
        | None => Ret (setError (Some (noSlotFound (texts props))) s)
        end
  | _, _ => Ret s
  end.

(** part_000:2837 *)
Definition isWeekInSelection (weekStart weekEnd : Z) (s : State) : bool :=
  match startDate s, endDate s with
  | Some startDate, Some endDate =>
      (startDate <=? weekStart) && (weekEnd <=? endDate)
  | _, _ => false
  end.

(** part_000:2824 *)
Definition isWeekAdjacent (weekStart weekEnd : Z) (s : State) : bool :=
  match startDate s, endDate s with
  | Some startDate, Some endDate =>
      isSameDay weekStart endDate || isSameDay weekEnd startDate
  | _, _ => false
  end.

(** What every branch of [handleWeekSelect] does besides the dates. *)
Definition resetPrice (s : State) : State :=
  setError None (set_lastPriceKeyRef None (setSlotStartISO None (setPrice None s))).

(** part_000:2843 *)
Definition handleWeekSelect (weekStart weekEnd : Z) (s : State) : State :=
  match startDate s, endDate s with
  | Some start, Some end_ =>
      if isWeekInSelection weekStart weekEnd s then
        if isSameDay start weekStart && isSameDay end_ weekEnd
        then resetPrice (setEndDate None (setStartDate None s))
        else if isSameDay start weekStart
        then resetPrice (setStartDate (Some weekEnd) s)
        else if isSameDay end_ weekEnd
        then resetPrice (setEndDate (Some weekStart) s)
        else resetPrice (setEndDate None (setStartDate None s))
      else if isWeekAdjacent weekStart weekEnd s then
        let newStart := if weekStart <? start then weekStart else start in
        let newEnd := if end_ <? weekEnd then weekEnd else end_ in
        resetPrice (setEndDate (Some newEnd) (setStartDate (Some newStart) s))
      else
        resetPrice (setEndDate (Some weekEnd) (setStartDate (Some weekStart) s))
  | _, _ =>
      resetPrice (setEndDate (Some weekEnd) (setStartDate (Some weekStart) s))
  end.

End Handlers.

(** A complete selection runs forward in time, and a selection is never
    half set. *)
Definition ordered_selection (s : State) : Prop :=
  match startDate s, endDate s with
  | Some start, Some end_ => start <= end_
  | None, None => True
  | _, _ => False
  end.

End Villa.

(** ** More example data *)

Module MoreExamples.

Import Examples.

(** The flexible widget on its Form step with a form mounted. *)
Definition flexible_on_form (fv : FormView) : Flexible.State :=
  Flexible.set_formRef (Some fv)
    (Flexible.setCurrentStep Flexible.Form flexible_state).

Definition flexible_guest_props : Flexible.Props :=
  {| Flexible.guestMode := true; Flexible.customForm_fields := Some [];
     Flexible.bkla_companyID := "company"; Flexible.serviceID := "service";
     Flexible.routes_confirmed := "/thanks";
     Flexible.routes_pending := "/pending" |}.

Definition rental_guest_props : Rental.Props :=
  {| Rental.guestMode := true; Rental.customForm_fields := Some [];
     Rental.bkla_companyID := "company"; Rental.serviceID := "service";
     Rental.routes_confirmed := "/thanks";
     Rental.routes_pending := "/pending" |}.

(** A selected slot whose start time is not a date. *)
Definition flexible_unreadable_start : Flexible.State :=
  FlexibleView.setSelectedTime
    (Some {| timeSlot := slot "tomorrow"; resourceID := "room-a" |})
    flexible_state.

(** The start of June 2nd 2024 and noon of June 1st (UTC). *)
Definition june_2 : Z := 1717286400000.
Definition june_1_noon : Z := 1717243200000.

(** A host that also reads the date-only form [YYYY-MM-DD], as UTC
    midnight. *)
Definition getTime_with_dates (s : string) : option Z :=
  match UtcHost.getTime s with
  | Some t => Some t
  | None => UtcHost.getTime (s ++ "T00:00:00Z")
  end.

Definition date_host : Host := {|
  Date_getTime := getTime_with_dates;
  Date_toLocaleTimeString := UtcHost.toLocaleTimeString;
  Date_toISOString := UtcHost.toISOString;
  Date_getFields := UtcHost.getFields;
  Date_local := UtcHost.utc;
  Date_UTC := UtcHost.utc;
  Date_wallClock := UtcHost.wallClock;
  invalid_time_error := "RangeError: Invalid time value";
  invalid_zone_error := fun z => "RangeError: Invalid time zone specified: " ++ z;
  URL_canParse := UtcHost.canParse;
  isNaN_string := fun s => negb (String.eqb s "") && negb (UtcHost.is_number s);
  Array_sort_NaN_order := UtcHost.sort_NaN_order;
|}.

(** The rental widget of a service two hours east of the browser (which
    is in UTC), with the example range selected. *)
Definition rental_state_east : Rental.State :=
  {| Rental.currentStep := Rental.DateRange; Rental.loading := false;
     Rental.submiting := false; Rental.error := None;
     Rental.serviceLoaded := true; Rental.dateRange := Examples.two_days;
     Rental.availableDates := []; Rental.selectedSlot := None;
     Rental.serviceTimezone := "Etc/GMT-2"; Rental.clientData := None;
     Rental.formData := ∅; Rental.formRef := None;
     Rental.location_href := None; Rental.navigations := [];
     Rental.console_errors := [] |}.

(** One room offering 07:00 and 09:00 UTC on June 1st. *)
Definition seven_and_nine : TimesResponse :=
  {| times := [ ("room-a", [ Examples.slot "2024-06-01T07:00:00Z";
                             Examples.slot "2024-06-01T09:00:00Z" ]) ] |}.

(** An SDK whose [getDates] resolves to [response] and whose other calls
    reject. *)
Definition sdk_dates (response : DatesResponse) : Sdk :=
  fun R call =>
    match call in ApiCall R return R + string with
    | services_getDates _ _ _ => inl response
    | services_getTimes _ _ _ => inr "Error: not available"
    | bookings_request _ => inr "Error: not available"
    end.

(** Two rooms sharing a day, the days of the first not in order. *)
Definition room_days : DatesResponse :=
  {| dates := [ ("room-a", ["2024-06-03"; "2024-06-01"]);
                ("room-b", ["2024-06-01"; "2024-06-02"]) ] |}.

(** The villa widget in weeks mode with the week from June 1st selected,
    a slot found and the guest's details filled in; no router. *)
Definition villa_texts : Villa.Texts :=
  {| Villa.availabilityError := "Failed to load availability.";
     Villa.firstNameRequired := "Please enter your first name.";
     Villa.lastNameRequired := "Please enter your last name.";
     Villa.emailRequired := "Please enter your email.";
     Villa.noSlotFound := "No available slot found for the selected dates.";
     Villa.bookingFailed :=
       "Booking failed. Please try a different date or contact support." |}.

Definition villa_props : Villa.Props :=
  {| Villa.bk_companyID := "company"; Villa.serviceID := "service";
     Villa.resourceID := "villa"; Villa.lengthMode := Villa.weeks;
     Villa.fixedLengthDays := 0;
     Villa.formTexts_firstNameRequired := true;
     Villa.formTexts_lastNameRequired := false;
     Villa.formTexts_emailRequired := true;
     Villa.showTerms := false; Villa.texts := villa_texts;
     Villa.navigate := false; Villa.routes := None;
     Villa.props_routes := None |}.

Definition june_8 : Z := 1717804800000.

Definition villa_state : Villa.State :=
  {| Villa.step := Villa.StepForm; Villa.availableDates := [];
     Villa.startDate := Some Examples.june_1; Villa.endDate := Some june_8;
     Villa.days := 7; Villa.loading := false; Villa.error := None;
     Villa.price := None; Villa.priceLoading := false;
     Villa.lastPriceKeyRef := None;
     Villa.slotStartISO := Some "2024-06-01T15:00:00.000Z";
     Villa.client := {| Villa.firstName := "Ada"; Villa.lastName := "";
                        Villa.email := "ada@example.org" |};
     Villa.customData := ∅; Villa.termsAccepted := false;
     Villa.location_href := None; Villa.navigations := [];
     Villa.console := [] |}.

(** The villa has no slot on June 1st; its first slot is on June 2nd. *)
Definition villa_times : TimesResponse :=
  {| times := [ ("cottage", [ Examples.slot "2024-06-01T15:00:00Z" ]);
                ("villa", [ Examples.slot "2024-06-02T15:00:00Z";
                            Examples.slot "2024-06-03T15:00:00Z" ]) ] |}.

End MoreExamples.
(** ** Round trip of the duration strings *)

Lemma all_digits_string_of_uint (u : Decimal.uint) :
  all_digits (NilEmpty.string_of_uint u) = true.
Proof. induction u; simpl; auto. Qed.

Lemma Number_toString_nonneg (n : Z) :
  0 <= n ->
  exists u, Number_toString n = NilEmpty.string_of_uint u /\
            u <> Decimal.Nil /\ Z.of_uint u = n.
Proof.
  intros Hn. destruct n as [|p|p]; [| |lia].
  - exists (Decimal.D0 Decimal.Nil). repeat split; discriminate.
  - exists (Pos.to_uint p). unfold Number_toString, Z.to_int.
    pose proof (DecimalPos.Unsigned.to_uint_nonnil p) as Hnil.
    repeat split; auto.
    + unfold NilZero.string_of_int, NilZero.string_of_uint.
      destruct (Pos.to_uint p); congruence.
    + unfold Z.of_uint. rewrite DecimalPos.Unsigned.of_to. reflexivity.
Qed.

Lemma digits_to_Z_Number_toString (n : Z) :
  0 <= n -> digits_to_Z (Number_toString n) = Some n.
Proof.
  intros Hn. destruct (Number_toString_nonneg n Hn) as (u & -> & Hnil & Hu).
  unfold digits_to_Z. rewrite NilEmpty.usu, Hu.
  destruct u; simpl; congruence.
Qed.

Lemma all_digits_Number_toString (n : Z) :
  0 <= n -> all_digits (Number_toString n) = true.
Proof.
  intros Hn. destruct (Number_toString_nonneg n Hn) as (u & -> & _ & _).
  apply all_digits_string_of_uint.
Qed.

Lemma split_at_char_digits (c : ascii) (ds rest : string) :
  is_digit c = false -> all_digits ds = true ->
  split_at_char c (ds ++ String c rest) = Some (ds, rest).
Proof.
  intros Hc. induction ds as [|a ds IH]; simpl.
  - rewrite Ascii.eqb_refl. reflexivity.
  - intros [Ha Hds]%andb_prop.
    destruct (Ascii.eqb_spec a c) as [->|_]; [congruence|].
    rewrite (IH Hds). reflexivity.
Qed.

Lemma iso_duration_minutes_print (h m : Z) :
  0 <= h -> 0 <= m ->
  iso_duration_minutes
    ("PT" ++ Number_toString h ++ "H" ++ Number_toString m ++ "M")
  = Some (h * 60 + m).
Proof.
  intros Hh Hm.
  change ("PT" ++ Number_toString h ++ "H" ++ Number_toString m ++ "M")
    with (String "P" (String "T"
            (Number_toString h ++ String "H"
               (Number_toString m ++ String "M" "")))).
  unfold iso_duration_minutes.
  rewrite split_at_char_digits by (auto using all_digits_Number_toString).
  rewrite split_at_char_digits by (auto using all_digits_Number_toString).
  rewrite !digits_to_Z_Number_toString by assumption.
  reflexivity.
Qed.

(** C4. For every valid duration, the string written by [durationToISO]
    reads back as the total minutes it was computed from: hours * 60 +
    minutes in the flexible widget (whose [days] is 0 in every duration
    it builds and plays no part in the string), (days * 24 + hours) * 60
    + minutes in the rental widget.  So the round trip gives back the
    total the duration picker splits with [convertToHoursAndMinutes], and
    the whole minutes of the range that [calculateDuration] splits.
    [{hours: 1, minutes: 30}] is written [PT1H30M] by both. *)
Theorem durationToISO_round_trip (d : Duration) :
  valid_duration d ->
  iso_duration_minutes (Flexible_Duration.durationToISO d)
    = Some (Flexible_Duration.convertToMinutes d) /\
  iso_duration_minutes (Rental_Duration.durationToISO d)
    = Some (Rental_Duration.totalMinutes d) /\
  (forall total, 0 <= total ->
     iso_duration_minutes
       (Flexible_Duration.durationToISO
          (Flexible_Duration.convertToHoursAndMinutes total)) = Some total) /\
  (forall diffMs, 0 <= diffMs ->
     iso_duration_minutes
       (Rental_Duration.durationToISO
          (Rental_Duration.calculateDuration diffMs))
     = Some (diffMs / 60000)) /\
  Flexible_Duration.durationToISO {| days := 0; hours := 1; minutes := 30 |}
    = "PT1H30M" /\
  Rental_Duration.durationToISO {| days := 0; hours := 1; minutes := 30 |}
    = "PT1H30M".
Proof.
  intros (Hd & Hh & Hm & _ & _).
  unfold Flexible_Duration.durationToISO, Rental_Duration.durationToISO,
    Flexible_Duration.convertToMinutes, Rental_Duration.totalMinutes.
  split; [|split; [|split; [|split; [|split]]]]; try reflexivity.
  - apply iso_duration_minutes_print; assumption.
  - apply iso_duration_minutes_print; lia.
  - intros total Ht.
    unfold Flexible_Duration.convertToHoursAndMinutes. cbn [hours minutes].
    assert (0 <= total / 60) by (apply Z.div_pos; lia).
    rewrite Z.rem_mod_nonneg by lia.
    pose proof (Z.mod_pos_bound total 60).
    rewrite iso_duration_minutes_print by lia.
    f_equal. pose proof (Z_div_mod_eq_full total 60). lia.
  - intros diffMs Hdiff.
    unfold Rental_Duration.calculateDuration. cbn [days hours minutes].
    change (1000 * 60) with 60000.
    set (tm := diffMs / 60000).
    assert (0 <= tm) by (apply Z.div_pos; lia).
    assert (0 <= tm / 60) by (apply Z.div_pos; lia).
    assert (0 <= tm / 60 / 24) by (apply Z.div_pos; lia).
    rewrite !Z.rem_mod_nonneg by lia.
    pose proof (Z.mod_pos_bound tm 60).
    pose proof (Z.mod_pos_bound (tm / 60) 24).
    rewrite iso_duration_minutes_print by lia.
    f_equal. pose proof (Z_div_mod_eq_full tm 60).
    pose proof (Z_div_mod_eq_full (tm / 60) 24). lia.
Qed.

Lemma durationToISO_round_trip_witness :
  valid_duration {| days := 2; hours := 3; minutes := 45 |} /\
  iso_duration_minutes
    (Rental_Duration.durationToISO {| days := 2; hours := 3; minutes := 45 |})
  = Some 3105.
Proof.
  assert (Hvalid : valid_duration {| days := 2; hours := 3; minutes := 45 |}).
  { unfold valid_duration, MAX_SAFE_INTEGER; simpl; lia. }
  split; [exact Hvalid|].
  apply (durationToISO_round_trip {| days := 2; hours := 3; minutes := 45 |}
           Hvalid).
Defined.

Example rental_two_days :
  Rental_Duration.durationToISO (Rental_Duration.calculateDuration 172800000)
  = "PT48H0M".
Proof. reflexivity. Qed.

Example rental_end_before_start :
  Rental_Duration.calculateDuration (-3600000)
  = {| days := -1; hours := -1; minutes := 0 |}.
Proof. reflexivity. Qed.

Example iso_duration_minutes_rejects :
  iso_duration_minutes "PT-1H30M" = None /\ iso_duration_minutes "PT1H" = None.
Proof. split; reflexivity. Qed.

(** ** Arrays: sorting and the index filter *)

Local Open Scope list_scope.

Section ArrayFacts.
Context {A : Type}.
Implicit Types (l : list A) (a : A).

Lemma sort_insert_Permutation (cmp : A -> A -> option Z) a l :
  sort_insert cmp a l ≡ₚ a :: l.
Proof.
  induction l as [|b l IH]; simpl; [done|].
  destruct (goes_before cmp a b); [done|].
  rewrite IH. apply Permutation_swap.
Qed.

Lemma Array_sort_Permutation (cmp : A -> A -> option Z) l :
  Array_sort cmp l ≡ₚ l.
Proof.
  induction l as [|a l IH]; simpl; [done|].
  fold (Array_sort cmp l). by rewrite sort_insert_Permutation, IH.
Qed.

(** Sorting by a key: when the comparator is the difference of a key
    defined on every element, the result is ordered by the key. *)
Lemma sort_insert_sorted (cmp : A -> A -> option Z) (key : A -> Z) a l :
  (forall x y, x ∈ a :: l -> y ∈ a :: l -> cmp x y = Some (key x - key y)) ->
  StronglySorted (fun x y => key x <= key y) l ->
  StronglySorted (fun x y => key x <= key y) (sort_insert cmp a l).
Proof.
  intros Hcmp. induction l as [|b l IH]; intros Hs; simpl.
  - repeat constructor.
  - unfold goes_before. rewrite (Hcmp a b) by set_solver.
    apply StronglySorted_cons in Hs as [Hb Hl].
    destruct (Z.leb_spec (key a - key b) 0) as [Hle|Hgt].
    + apply StronglySorted_cons. split.
      * constructor; [lia|].
        eapply Forall_impl; [exact Hb|]. intros y Hy; simpl in *. lia.
      * apply StronglySorted_cons. done.
    + apply StronglySorted_cons. split.
      * rewrite sort_insert_Permutation. constructor; [lia|done].
      * apply IH; [|done]. intros x y Hx Hy.
        apply elem_of_cons in Hx, Hy.
        apply Hcmp; rewrite !elem_of_cons; tauto.
Qed.

Lemma Array_sort_sorted (cmp : A -> A -> option Z) (key : A -> Z) l :
  (forall x y, x ∈ l -> y ∈ l -> cmp x y = Some (key x - key y)) ->
  StronglySorted (fun x y => key x <= key y) (Array_sort cmp l).
Proof.
  induction l as [|a l IH]; intros Hcmp; simpl; [constructor|].
  fold (Array_sort cmp l). apply sort_insert_sorted.
  - intros x y Hx Hy.
    assert (Hin : forall z, z ∈ a :: Array_sort cmp l -> z ∈ a :: l).
    { intros z. by rewrite Array_sort_Permutation. }
    apply Hcmp; auto.
  - apply IH. intros x y Hx Hy. apply Hcmp; set_solver.
Qed.

Lemma StronglySorted_sublist (R : A -> A -> Prop) l k :
  k `sublist_of` l -> StronglySorted R l -> StronglySorted R k.
Proof.
  induction 1 as [|x k l Hsub IH|x k l Hsub IH]; intros Hs; [done| |].
  - apply StronglySorted_cons in Hs as [Hx Hl].
    apply StronglySorted_cons. split; [|auto].
    apply Forall_forall. intros y Hy.
    eapply Forall_forall in Hx; [exact Hx|]. by eapply sublist_subseteq.
  - apply StronglySorted_cons in Hs as [_ Hl]. auto.
Qed.

Lemma findIndex_from_range (p : A -> bool) i l :
  existsb p l = true ->
  i <= findIndex_from p i l < i + Z.of_nat (length l).
Proof.
  revert i. induction l as [|a l IH]; intros i; simpl; [done|].
  destruct (p a); simpl; [lia|].
  intros Hex. specialize (IH (i + 1) Hex). lia.
Qed.

Lemma findIndex_from_app (p : A -> bool) i l1 l2 :
  findIndex_from p i (l1 ++ l2) =
  if existsb p l1 then findIndex_from p i l1
  else findIndex_from p (i + Z.of_nat (length l1)) l2.
Proof.
  revert i. induction l1 as [|a l1 IH]; intros i; simpl.
  - f_equal. lia.
  - destruct (p a); simpl; [done|]. rewrite IH.
    destruct (existsb p l1); [done|]. f_equal. lia.
Qed.

Context {K : Type} `{EqDecision K} (key : A -> K).

Lemma existsb_same_key a l :
  existsb (fun t => bool_decide (key t = key a)) l = true <-> key a ∈ key <$> l.
Proof.
  rewrite existsb_exists, list_elem_of_fmap. split.
  - intros (x & Hx & Hk). apply bool_decide_eq_true in Hk.
    exists x. split; [done|]. by apply list_elem_of_In.
  - intros (x & Hk & Hx). exists x. split; [by apply list_elem_of_In|].
    by apply bool_decide_eq_true.
Qed.

(** The index test keeps the first element of each key. *)
Lemma filter_first_index_keep_first (pre l : list A) :
  filter_from
    (fun a index =>
       index =? findIndex_from (fun t => bool_decide (key t = key a)) 0
                  (pre ++ l))
    (Z.of_nat (length pre)) l
  = keep_first key (key <$> pre) l.
Proof.
  revert pre. induction l as [|a l IH]; intros pre; simpl; [done|].
  assert (Hstep :
    filter_from
      (fun a0 index =>
         index =? findIndex_from (fun t => bool_decide (key t = key a0)) 0
                    (pre ++ a :: l))
      (Z.of_nat (length pre) + 1) l
    = keep_first key ((key <$> pre) ++ [key a]) l).
  { specialize (IH (pre ++ [a])).
    rewrite <- (assoc_L (++)), length_app, fmap_app in IH. simpl in IH.
    rewrite <- IH. f_equal. lia. }
  rewrite Hstep, findIndex_from_app.
  destruct (decide (key a ∈ key <$> pre)) as [Hin|Hnin].
  - apply existsb_same_key in Hin as Hex. rewrite Hex.
    pose proof (findIndex_from_range _ 0 _ Hex) as Hr.
    destruct (Z.eqb_spec (Z.of_nat (length pre))
                (findIndex_from (fun t => bool_decide (key t = key a)) 0 pre));
      [lia|done].
  - destruct (existsb _ pre) eqn:Hex.
    { apply existsb_same_key in Hex. done. }
    simpl. rewrite bool_decide_eq_true_2 by done.
    replace (0 + Z.of_nat (length pre)) with (Z.of_nat (length pre)) by lia.
    by rewrite Z.eqb_refl.
Qed.

End ArrayFacts.

Section KeepFirst.
Context {A K : Type} `{EqDecision K} (key : A -> K).
Implicit Types (l : list A) (seen : list K).

Lemma filter_from_ext (p q : A -> Z -> bool) i l :
  (forall a j, p a j = q a j) -> filter_from p i l = filter_from q i l.
Proof.
  intros Hpq. revert i. induction l as [|a l IH]; intros i; simpl; [done|].
  by rewrite Hpq, IH.
Qed.

Lemma findIndex_from_ext (p q : A -> bool) i l :
  (forall a, p a = q a) -> findIndex_from p i l = findIndex_from q i l.
Proof.
  intros Hpq. revert i. induction l as [|a l IH]; intros i; simpl; [done|].
  by rewrite Hpq, IH.
Qed.

Lemma keep_first_sublist seen l : keep_first key seen l `sublist_of` l.
Proof.
  revert seen. induction l as [|a l IH]; intros seen; simpl; [done|].
  destruct (decide (key a ∈ seen)).
  - by apply sublist_cons.
  - by apply sublist_skip.
Qed.

Lemma keep_first_fresh seen l y :
  y ∈ keep_first key seen l -> key y ∉ seen.
Proof.
  revert seen. induction l as [|a l IH]; intros seen; simpl.
  - by intros ?%elem_of_nil.
  - destruct (decide (key a ∈ seen)) as [Hin|Hnin].
    + intros Hy%IH. rewrite elem_of_app in Hy. tauto.
    + intros [->|Hy%IH]%elem_of_cons; [done|].
      rewrite elem_of_app in Hy. tauto.
Qed.

Lemma keep_first_NoDup seen l : NoDup (key <$> keep_first key seen l).
Proof.
  revert seen. induction l as [|a l IH]; intros seen; simpl.
  - constructor.
  - destruct (decide (key a ∈ seen)) as [Hin|Hnin]; [apply IH|].
    rewrite fmap_cons. constructor; [|apply IH].
    intros (y & Hk & Hy%keep_first_fresh)%list_elem_of_fmap.
    apply Hy. rewrite elem_of_app, Hk, list_elem_of_singleton. by right.
Qed.

Lemma keep_first_covers seen l x :
  x ∈ l -> key x ∉ seen ->
  exists y, y ∈ keep_first key seen l /\ key y = key x.
Proof.
  revert seen. induction l as [|a l IH]; intros seen; simpl.
  - by intros ?%elem_of_nil.
  - intros Hx Hseen. destruct (decide (key a ∈ seen)) as [Hin|Hnin].
    + apply elem_of_cons in Hx as [->|Hx]; [done|].
      apply IH; [done|]. rewrite elem_of_app, list_elem_of_singleton.
      intros [?|Heq]; [done|]. by rewrite Heq in Hseen.
    + destruct (decide (key x = key a)) as [Heq|Hne].
      * exists a. split; [apply elem_of_cons; by left|done].
      * apply elem_of_cons in Hx as [->|Hx]; [done|].
        destruct (IH (seen ++ [key a]) Hx) as (y & Hy & Hk).
        { rewrite elem_of_app, list_elem_of_singleton. tauto. }
        exists y. split; [apply elem_of_cons; by right|done].
Qed.

Lemma keep_first_is_first seen l y :
  y ∈ keep_first key seen l ->
  exists i, l !! i = Some y /\
    forall j z, (j < i)%nat -> l !! j = Some z -> key z <> key y.
Proof.
  revert seen. induction l as [|a l IH]; intros seen; simpl.
  - by intros ?%elem_of_nil.
  - assert (Hrest : y ∈ keep_first key (seen ++ [key a]) l ->
      exists i, (a :: l) !! i = Some y /\
        forall j z, (j < i)%nat -> (a :: l) !! j = Some z -> key z <> key y).
    { intros Hy. destruct (IH _ Hy) as (i & Hi & Hfirst).
      apply keep_first_fresh in Hy.
      exists (S i). split; [done|]. intros [|j] z Hj; simpl.
      - intros [= ->] Heq. apply Hy.
        rewrite elem_of_app, list_elem_of_singleton. by right.
      - apply Hfirst. lia. }
    destruct (decide (key a ∈ seen)) as [Hin|Hnin]; [done|].
    intros [->|Hy]%elem_of_cons; [|auto].
    exists O. split; [done|]. intros j z Hj. lia.
Qed.

End KeepFirst.

(** ** formatSlots *)

Section FormatSlots.
Context `{Host}.

Lemma formatSlots_keep_first (response : TimesResponse) :
  formatSlots response = keep_first localTime [] (sortedSlots response).
Proof.
  unfold formatSlots, Array_filter, Array_findIndex.
  rewrite <- (filter_first_index_keep_first localTime [] (sortedSlots response)).
  apply filter_from_ext. intros a j. simpl. f_equal.
  apply findIndex_from_ext. intros t.
  destruct (String.eqb_spec (localTime t) (localTime a)) as [Heq|Hne].
  - by rewrite bool_decide_eq_true_2.
  - by rewrite bool_decide_eq_false_2.
Qed.

(** The slots of the flattened array are the slots of the response, each
    with the id of its resource. *)
Lemma allSlots_elem_of (response : TimesResponse) (x : TimeSlotWithResource) :
  x ∈ allSlots response <->
  exists rid slots,
    (rid, slots) ∈ times response /\ timeSlot x ∈ slots /\ resourceID x = rid.
Proof.
  unfold allSlots. rewrite list_elem_of_In, in_flat_map. split.
  - intros ([rid slots] & Hentry & Hx).
    apply in_map_iff in Hx as (slot & <- & Hslot).
    exists rid, slots. by rewrite !list_elem_of_In.
  - intros (rid & slots & Hentry & Hslot & Hrid).
    exists (rid, slots). split; [by apply list_elem_of_In|].
    apply in_map_iff. exists (timeSlot x).
    split; [destruct x; simpl in *; by subst|by apply list_elem_of_In].
Qed.

Lemma readable_valid_starts (response : TimesResponse) :
  (forall rid slots slot,
     (rid, slots) ∈ times response -> slot ∈ slots ->
     is_Some (Date_getTime (startTime slot))) ->
  valid_starts response.
Proof.
  intros Hreadable. apply Forall_forall. intros x Hx.
  apply allSlots_elem_of in Hx as (rid & slots & Hentry & Hslot & _).
  by apply (Hreadable rid slots).
Qed.

Lemma sortedSlots_readable (response : TimesResponse) :
  valid_starts response ->
  sortedSlots response = Array_sort compareStart (allSlots response).
Proof.
  intros Hvalid. unfold sortedSlots.
  assert (Hall : forallb readable_start (allSlots response) = true).
  { apply forallb_forall. intros x Hx%list_elem_of_In.
    unfold valid_starts in Hvalid. rewrite Forall_forall in Hvalid.
    unfold readable_start. by destruct (Hvalid x Hx) as [t ->]. }
  by rewrite Hall.
Qed.

Lemma sortedSlots_sorted (response : TimesResponse) :
  valid_starts response ->
  StronglySorted starts_no_later (sortedSlots response).
Proof.
  intros Hvalid. rewrite (sortedSlots_readable response Hvalid).
  assert (Hin : forall x, x ∈ Array_sort compareStart (allSlots response) ->
                          is_Some (startMs x)).
  { intros x Hx. rewrite Array_sort_Permutation in Hx.
    unfold valid_starts in Hvalid. rewrite Forall_forall in Hvalid. auto. }
  pose proof (Array_sort_sorted compareStart
                (fun x => default 0 (startMs x)) (allSlots response)) as Hs.
  eapply (Sorted.StronglySorted_ind
            (fun l => (forall x, x ∈ l -> is_Some (startMs x)) ->
                      StronglySorted starts_no_later l)); [| |apply Hs|exact Hin].
  - constructor.
  - intros a l Hl IH Ha Hall. constructor.
    + apply IH. intros x Hx. apply Hall, elem_of_cons. by right.
    + apply Forall_forall. intros y Hy.
      destruct (Hall a) as [ta Hta]; [apply elem_of_cons; by left|].
      destruct (Hall y) as [ty Hty]; [apply elem_of_cons; by right|].
      exists ta, ty. repeat split; [done..|].
      eapply Forall_forall in Ha; [|exact Hy].
      by rewrite Hta, Hty in Ha.
  - intros x y Hx Hy. unfold compareStart.
    unfold valid_starts in Hvalid. rewrite Forall_forall in Hvalid.
    destruct (Hvalid x Hx) as [tx ->], (Hvalid y Hy) as [ty ->]. done.
Qed.

Lemma StronglySorted_lookup_lt {A : Type} (R : A -> A -> Prop) (l : list A)
    (i j : nat) (a b : A) :
  StronglySorted R l -> l !! i = Some a -> l !! j = Some b -> (i < j)%nat ->
  R a b.
Proof.
  intros Hsorted. revert i j.
  induction Hsorted as [|x l Hl IH Hx]; intros i j Hi Hj Hlt; [done|].
  destruct j as [|j]; [lia|]. destruct i as [|i]; simpl in *.
  - injection Hi as <-. rewrite Forall_forall in Hx.
    apply Hx. by eapply list_elem_of_lookup_2.
  - apply (IH i j); [done..|lia].
Qed.

(** With readable start times, the slot kept for a local time starts no
    later than any slot of the response with that local time. *)
Lemma formatSlots_represents (response : TimesResponse)
    (x : TimeSlotWithResource) :
  valid_starts response -> x ∈ allSlots response ->
  exists y, y ∈ formatSlots response /\ localTime y = localTime x /\
            starts_no_later y x.
Proof.
  intros Hvalid Hx.
  pose proof (sortedSlots_sorted response Hvalid) as Hsorted.
  assert (Hxs : x ∈ sortedSlots response).
  { rewrite (sortedSlots_readable response Hvalid).
    by rewrite Array_sort_Permutation. }
  rewrite formatSlots_keep_first.
  destruct (keep_first_covers localTime [] (sortedSlots response) x Hxs)
    as (y & Hy & Hkey); [by intros ?%elem_of_nil|].
  exists y. split; [done|]. split; [done|].
  destruct (keep_first_is_first localTime [] _ y Hy) as (i & Hi & Hfirst).
  apply list_elem_of_lookup in Hxs as [j Hj].
  destruct (Nat.lt_trichotomy i j) as [Hlt|[->|Hgt]].
  - by eapply StronglySorted_lookup_lt.
  - assert (y = x) as -> by congruence.
    unfold valid_starts in Hvalid. rewrite Forall_forall in Hvalid.
    destruct (Hvalid x Hx) as [t Ht]. exists t, t. repeat split; (done || lia).
  - by destruct (Hfirst j x Hgt Hj).
Qed.

Lemma omap_lookup_seq {A : Type} (l : list A) :
  omap (fun i => l !! i) (seq 0 (length l)) = l.
Proof.
  induction l as [|a l IH]; [done|].
  cbn. f_equal. rewrite <- fmap_S_seq.
  rewrite <- IH at 2. generalize (seq 0 (length l)). intros indices.
  induction indices as [|i indices IHi]; [done|].
  cbn. by rewrite IHi.
Qed.

(** On an engine whose sort rearranges the array, whatever the
    comparator, the sorted array holds the slots of the response. *)
Lemma sortedSlots_Permutation (response : TimesResponse) :
  (forall keys, Array_sort_NaN_order keys ≡ₚ seq 0 (length keys)) ->
  sortedSlots response ≡ₚ allSlots response.
Proof.
  intros Hrearranges. unfold sortedSlots.
  destruct (_ || _); [apply Array_sort_Permutation|].
  rewrite Hrearranges, length_map. by rewrite omap_lookup_seq.
Qed.

End FormatSlots.

(** The small-array sort of the example host rearranges the indices. *)
Lemma binary_insert_Permutation (compare : nat -> nat -> Z)
    (sorted : list nat) (pivot : nat) :
  UtcHost.binary_insert compare sorted pivot ≡ₚ pivot :: sorted.
Proof.
  unfold UtcHost.binary_insert.
  by rewrite <- Permutation_middle, take_drop.
Qed.

Lemma count_run_Permutation (compare : nat -> nat -> Z) (descending : bool)
    (rest : list nat) :
  forall previous run_reversed,
    let '(run, remaining) :=
      UtcHost.count_run compare descending previous run_reversed rest in
    run ++ remaining ≡ₚ run_reversed ++ rest.
Proof.
  induction rest as [|current rest IH]; intros previous run_reversed; simpl.
  - done.
  - destruct (if descending then _ else _); [done|].
    specialize (IH current (current :: run_reversed)).
    destruct (UtcHost.count_run _ _ _ _ _) as [run remaining].
    rewrite IH. simpl. by rewrite Permutation_middle.
Qed.

Lemma sort_NaN_order_Permutation (keys : list (option Z)) :
  UtcHost.sort_NaN_order keys ≡ₚ seq 0 (length keys).
Proof.
  unfold UtcHost.sort_NaN_order.
  destruct (seq 0 (length keys)) as [|low [|high rest]]; [done..|].
  pose proof (count_run_Permutation (UtcHost.key_compare keys)
                (UtcHost.key_compare keys high low <? 0) rest high
                [high; low]) as Hrun.
  destruct (UtcHost.count_run _ _ _ _ _) as [run remaining].
  assert (Hfold : forall start, foldl (UtcHost.binary_insert
                                         (UtcHost.key_compare keys)) start remaining
                                ≡ₚ start ++ remaining).
  { clear Hrun. induction remaining as [|pivot remaining IH]; intros start; simpl.
    - by rewrite app_nil_r.
    - rewrite IH, binary_insert_Permutation. simpl. apply Permutation_middle. }
  rewrite Hfold.
  assert (Hsame : (if UtcHost.key_compare keys high low <? 0
                   then run else rev run) ≡ₚ run).
  { destruct (_ <? _); [done|]. symmetry. apply Permutation_rev. }
  rewrite Hsame, Hrun. simpl. apply perm_swap.
Qed.

(** C10 (amended). For every times response, [formatSlots] returns a
    list with at most one slot per local time-of-day string: no two of
    its slots have the same [toLocaleTimeString], and each slot kept is
    the first one of the array after the sort with its local time (the
    later ones, on any resource, are dropped, and every local time of
    the sorted array is kept once).  For every response whose start times
    are all dates, the sorted array holds exactly the slots of the
    response, each with its resource id, in ascending order of start
    time; so does the result; and every slot of the response is stood
    for by a kept slot of the same local time that starts no later.  On
    every engine whose sort rearranges the array also under a comparator
    that is not an order, the slots kept are slots of the response,
    with their resource ids, and every slot of the response is stood
    for by a kept slot of its local time, readable start times or
    not. *)
Theorem formatSlots_sorted_one_per_local_time `{Host}
    (response : TimesResponse) :
  NoDup (localTime <$> formatSlots response) /\
  formatSlots response `sublist_of` sortedSlots response /\
  (forall x, x ∈ sortedSlots response ->
     exists y, y ∈ formatSlots response /\ localTime y = localTime x) /\
  (forall y, y ∈ formatSlots response ->
     exists i, sortedSlots response !! i = Some y /\
       forall j z, (j < i)%nat -> sortedSlots response !! j = Some z ->
                   localTime z <> localTime y) /\
  ((forall rid slots slot,
      (rid, slots) ∈ times response -> slot ∈ slots ->
      is_Some (Date_getTime (startTime slot))) ->
   sortedSlots response ≡ₚ allSlots response /\
   (forall x, x ∈ sortedSlots response <->
      exists rid slots,
        (rid, slots) ∈ times response /\ timeSlot x ∈ slots /\
        resourceID x = rid) /\
   StronglySorted starts_no_later (sortedSlots response) /\
   StronglySorted starts_no_later (formatSlots response) /\
   (forall rid slots slot,
      (rid, slots) ∈ times response -> slot ∈ slots ->
      exists y,
        y ∈ formatSlots response /\
        localTime y = localTime {| timeSlot := slot; resourceID := rid |} /\
        starts_no_later y {| timeSlot := slot; resourceID := rid |})) /\
  ((forall keys, Array_sort_NaN_order keys ≡ₚ seq 0 (length keys)) ->
   (forall y, y ∈ formatSlots response ->
      exists rid slots,
        (rid, slots) ∈ times response /\ timeSlot y ∈ slots /\
        resourceID y = rid) /\
   (forall rid slots slot,
      (rid, slots) ∈ times response -> slot ∈ slots ->
      exists y,
        y ∈ formatSlots response /\
        localTime y = localTime {| timeSlot := slot; resourceID := rid |})).
Proof.
  pose proof (keep_first_sublist localTime [] (sortedSlots response)) as Hsub.
  split; [|split; [|split; [|split; [|split]]]].
  - rewrite formatSlots_keep_first. apply keep_first_NoDup.
  - by rewrite formatSlots_keep_first.
  - intros x Hx. rewrite formatSlots_keep_first.
    apply keep_first_covers; [done|]. by intros ?%elem_of_nil.
  - intros y Hy. rewrite formatSlots_keep_first in Hy.
    by eapply keep_first_is_first.
  - intros Hreadable.
    pose proof (readable_valid_starts response Hreadable) as Hvalid.
    pose proof (sortedSlots_sorted response Hvalid) as Hsorted.
    assert (Hperm : sortedSlots response ≡ₚ allSlots response).
    { rewrite (sortedSlots_readable response Hvalid).
      apply Array_sort_Permutation. }
    split; [done|]. split; [|split; [done|split]].
    + intros x. rewrite Hperm. apply allSlots_elem_of.
    + rewrite formatSlots_keep_first. by eapply StronglySorted_sublist.
    + intros rid slots slot Hentry Hslot.
      apply formatSlots_represents; [done|].
      apply allSlots_elem_of. exists rid, slots. by simpl.
  - intros Hrearranges.
    pose proof (sortedSlots_Permutation response Hrearranges) as Hperm.
    split.
    + intros y Hy. apply allSlots_elem_of. rewrite <- Hperm.
      rewrite formatSlots_keep_first in Hy.
      eapply elem_of_sublist; [exact Hy|exact Hsub].
    + intros rid slots slot Hentry Hslot. rewrite formatSlots_keep_first.
      apply keep_first_covers; [|by intros ?%elem_of_nil].
      rewrite Hperm. apply allSlots_elem_of. exists rid, slots. by simpl.
Qed.

Example formatSlots_two_rooms :
  formatSlots (H := UtcHost.host) Examples.two_rooms =
  [ {| timeSlot := Examples.slot "2024-06-01T08:00:00Z"; resourceID := "room-a" |};
    {| timeSlot := Examples.slot "2024-06-01T09:00:00Z"; resourceID := "room-a" |} ].
Proof. vm_compute. reflexivity. Qed.

Lemma formatSlots_sorted_one_per_local_time_witness :
  (exists y,
     y ∈ formatSlots (H := UtcHost.host) Examples.two_rooms /\
     localTime (H := UtcHost.host) y
     = localTime (H := UtcHost.host)
         {| timeSlot := Examples.slot "2024-06-02T08:00:00Z";
            resourceID := "room-b" |} /\
     starts_no_later (H := UtcHost.host) y
       {| timeSlot := Examples.slot "2024-06-02T08:00:00Z";
          resourceID := "room-b" |}) /\
  (exists y,
     y ∈ formatSlots (H := UtcHost.host)
           {| times := [ ("room-a", [ Examples.slot "2024-06-01T10:00:00Z";
                                      Examples.slot "soon" ]) ] |} /\
     localTime (H := UtcHost.host) y
     = localTime (H := UtcHost.host)
         {| timeSlot := Examples.slot "soon"; resourceID := "room-a" |}).
Proof.
  split.
  - destruct (formatSlots_sorted_one_per_local_time (H := UtcHost.host)
                Examples.two_rooms) as (_ & _ & _ & _ & Hreadable & _).
    destruct Hreadable as (_ & _ & _ & _ & Hrepresented).
    + intros rid slots slot Hentry Hslot. cbn in Hentry.
      apply elem_of_cons in Hentry as [[= -> ->]|Hentry].
      { apply elem_of_cons in Hslot as [->|Hslot]; [by eexists|].
        apply list_elem_of_singleton in Hslot as ->. by eexists. }
      apply list_elem_of_singleton in Hentry as [= -> ->].
      apply elem_of_cons in Hslot as [->|Hslot]; [by eexists|].
      apply list_elem_of_singleton in Hslot as ->. by eexists.
    + apply (Hrepresented "room-b"
               [Examples.slot "2024-06-01T09:00:00Z";
                Examples.slot "2024-06-02T08:00:00Z"]).
      * apply list_elem_of_further, list_elem_of_here.
      * apply list_elem_of_further, list_elem_of_here.
  - destruct (formatSlots_sorted_one_per_local_time (H := UtcHost.host)
                {| times := [ ("room-a",
                               [ Examples.slot "2024-06-01T10:00:00Z";
                                 Examples.slot "soon" ]) ] |})
      as (_ & _ & _ & _ & _ & Hengine).
    destruct Hengine as [_ Hrepresented];
      [exact sort_NaN_order_Permutation|].
    apply (Hrepresented "room-a"
             [Examples.slot "2024-06-01T10:00:00Z"; Examples.slot "soon"]).
    + apply list_elem_of_here.
    + apply list_elem_of_further, list_elem_of_here.
Defined.

(** C10 as stated fails: a response with a start time that is not a date
    is not returned in ascending order of start time.  The comparator is
    NaN on every pair with the unreadable slot, the engine leaves the
    array as it is, and the slot of 10:00 stays before the slot of
    08:00. *)
Lemma formatSlots_unreadable_start_unsorted :
  let response :=
    {| times := [ ("room-a", [ Examples.slot "2024-06-01T10:00:00Z";
                               Examples.slot "soon";
                               Examples.slot "2024-06-01T08:00:00Z" ]) ] |} in
  formatSlots (H := UtcHost.host) response
  = [ {| timeSlot := Examples.slot "2024-06-01T10:00:00Z";
         resourceID := "room-a" |};
      {| timeSlot := Examples.slot "soon"; resourceID := "room-a" |};
      {| timeSlot := Examples.slot "2024-06-01T08:00:00Z";
         resourceID := "room-a" |} ] /\
  Date_getTime (Host := UtcHost.host) "2024-06-01T10:00:00Z"
  = Some 1717236000000 /\
  Date_getTime (Host := UtcHost.host) "2024-06-01T08:00:00Z"
  = Some 1717228800000 /\
  Date_getTime (Host := UtcHost.host) "soon" = None /\
  ~ StronglySorted (starts_no_later (H := UtcHost.host))
      (formatSlots (H := UtcHost.host) response).
Proof.
  intros response.
  assert (Hresult : formatSlots (H := UtcHost.host) response
    = [ {| timeSlot := Examples.slot "2024-06-01T10:00:00Z";
           resourceID := "room-a" |};
        {| timeSlot := Examples.slot "soon"; resourceID := "room-a" |};
        {| timeSlot := Examples.slot "2024-06-01T08:00:00Z";
           resourceID := "room-a" |} ]) by (vm_compute; reflexivity).
  split; [exact Hresult|]. repeat split; [vm_compute; reflexivity..|].
  rewrite Hresult. intros Hsorted.
  apply StronglySorted_cons in Hsorted as [Hfirst _].
  apply Forall_cons in Hfirst as [(ta & tb & _ & Hb & _) _].
  vm_compute in Hb. discriminate Hb.
Qed.

(** The same engine on a longer array: the run at the head is reversed
    and the rest inserted, so the readable slots come out in order and
    the unreadable one last. *)
Example formatSlots_unreadable_start_reordered :
  map (fun x => startTime (timeSlot x))
    (formatSlots (H := UtcHost.host)
       {| times := [ ("room-a", [ Examples.slot "2024-06-01T10:00:00Z";
                                  Examples.slot "2024-06-01T09:00:00Z";
                                  Examples.slot "soon";
                                  Examples.slot "2024-06-01T08:00:00Z" ]) ] |})
  = [ "2024-06-01T08:00:00Z"; "2024-06-01T09:00:00Z";
      "2024-06-01T10:00:00Z"; "soon" ].
Proof. vm_compute. reflexivity. Qed.

(** ** The rental widget: the 24-hour gate *)

Section RentalGate.
Import Rental.

Lemma calculateDuration_valid (diffMs : Z) :
  0 <= diffMs <= MAX_SAFE_INTEGER ->
  valid_duration (calculateDuration diffMs).
Proof.
  intros [Hd Hmax].
  unfold valid_duration, calculateDuration, MAX_SAFE_INTEGER in *. simpl.
  change (1000 * 60) with 60000. set (tm := diffMs / 60000).
  assert (0 <= tm) by (apply Z.div_pos; lia).
  assert (tm <= diffMs) by (apply Z.div_le_upper_bound; lia).
  assert (0 <= tm / 60) by (apply Z.div_pos; lia).
  assert (tm / 60 <= tm) by (apply Z.div_le_upper_bound; lia).
  assert (0 <= tm / 60 / 24) by (apply Z.div_pos; lia).
  rewrite !Z.rem_mod_nonneg by lia.
  pose proof (Z.mod_pos_bound tm 60).
  pose proof (Z.mod_pos_bound (tm / 60) 24).
  pose proof (Z_div_mod_eq_full (tm / 60) 24).
  lia.
Qed.

(** The total of a computed duration, in minutes, is the whole minutes of
    the difference when that is not negative, and negative otherwise. *)
Lemma calculateDuration_minutes (diffMs : Z) :
  let d := calculateDuration diffMs in
  (0 <= diffMs -> totalMinutes d = diffMs / 60000) /\
  (diffMs < 0 -> totalMinutes d < 0).
Proof.
  unfold totalMinutes, calculateDuration. simpl.
  change (1000 * 60) with 60000.
  set (tm := diffMs / 60000). split; intros Hd.
  - assert (0 <= tm) by (apply Z.div_pos; lia).
    assert (0 <= tm / 60) by (apply Z.div_pos; lia).
    rewrite !Z.rem_mod_nonneg by lia.
    pose proof (Z_div_mod_eq_full tm 60). pose proof (Z_div_mod_eq_full (tm / 60) 24).
    lia.
  - assert (tm < 0) by (apply Z.div_lt_upper_bound; lia).
    assert (tm / 60 < 0) by (apply Z.div_lt_upper_bound; lia).
    assert (tm / 60 / 24 < 0) by (apply Z.div_lt_upper_bound; lia).
    pose proof (Z.rem_bound_pos_neg tm 60).
    pose proof (Z.rem_bound_pos_neg (tm / 60) 24).
    lia.
Qed.

Lemma below_24h_minutes (d : Duration) :
  below_24h d = true <-> totalMinutes d < 1440.
Proof.
  unfold below_24h, totalHours, totalMinutes.
  rewrite negb_true_iff, <- not_true_iff_false, Qle_bool_iff.
  unfold Qle, Qplus, inject_Z. simpl. lia.
Qed.

(** The gate fires exactly on ranges shorter than 24 hours. *)
Lemma below_24h_calculateDuration (diffMs : Z) :
  below_24h (calculateDuration diffMs) = true <-> diffMs < 24 * 60 * 60 * 1000.
Proof.
  rewrite below_24h_minutes.
  destruct (calculateDuration_minutes diffMs) as [Hpos Hneg].
  destruct (Z_lt_le_dec diffMs 0) as [Hlt|Hge].
  - specialize (Hneg Hlt). lia.
  - rewrite (Hpos Hge). split; intros Hd.
    + apply Z.nle_gt. intros Hle.
      assert (1440 <= diffMs / 60000) by (apply Z.div_le_lower_bound; lia).
      lia.
    + apply Z.div_lt_upper_bound; lia.
Qed.

End RentalGate.

(** ** The rental widget: the slot matcher *)

Section RentalMatcher.
Import Rental.
Context `{Host} (props : Props).

(** C9. In the rental widget, when the selected range (the end day at the
    end time minus the start day at the start time) is shorter than 24
    hours, [checkSlotAvailability] sets the selected slot to null and
    returns: whatever the SDK, no call is made; and with no slot
    selected [makeBooking] returns at once, so nothing can be booked. *)
Theorem checkSlotAvailability_minimum_duration_gate
    (s : State) (start end_ : Z) :
  startDate (dateRange s) = Some start ->
  endDate (dateRange s) = Some end_ ->
  dateTime end_ (range_endTime (dateRange s))
    - dateTime start (range_startTime (dateRange s)) < 24 * 60 * 60 * 1000 ->
  checkSlotAvailability props s = Ret (setSelectedSlot None s) /\
  (forall sdk : Sdk,
     calls sdk (checkSlotAvailability props s) = O /\
     selectedSlot (run sdk (checkSlotAvailability props s)) = None) /\
  isDurationValid s = false /\
  makeBooking props (setSelectedSlot None s) = Ret (setSelectedSlot None s).
Proof.
  intros Hstart Hend Hshort.
  apply below_24h_calculateDuration in Hshort.
  assert (Hret : checkSlotAvailability props s = Ret (setSelectedSlot None s)).
  { unfold checkSlotAvailability. rewrite Hstart, Hend.
    destruct (_ || _); [done|]. by rewrite Hshort. }
  split; [done|]. split; [|split].
  - intros sdk. by rewrite Hret.
  - unfold isDurationValid. rewrite Hstart, Hend.
    unfold below_24h in Hshort. by apply negb_true_iff in Hshort.
  - done.
Qed.

End RentalMatcher.

Lemma checkSlotAvailability_minimum_duration_gate_witness :
  Rental.selectedSlot
    (run (Examples.sdk_times Examples.two_rooms)
       (Rental.checkSlotAvailability (H := UtcHost.host) Examples.rental_props
          (Examples.rental_state Examples.eight_hours))) = None.
Proof.
  apply (checkSlotAvailability_minimum_duration_gate (H := UtcHost.host)
           Examples.rental_props (Examples.rental_state Examples.eight_hours)
           Examples.june_1 Examples.june_1);
    [reflexivity | reflexivity | vm_compute; reflexivity].
Defined.

Section RentalScan.
Import Rental.
Context `{Host}.






End RentalScan.




(** The requested start of the example range: June 1st 2024, 09:00 UTC. *)
Example requested_start_of_two_days :
  Rental.dateTime (H := UtcHost.host) Examples.june_1 Examples.nine
  = 1717232400000 /\
  Date_getTime (Host := UtcHost.host) "2024-06-01T09:00:00Z"
  = Some 1717232400000.
Proof. split; reflexivity. Qed.



(** Where the service's zone is not the browser's, the matcher compares
    with the start in the browser's zone, not with the instant it has
    asked for: for a service two hours east of a browser in UTC the
    request runs from 07:00 UTC, the slot at 07:00 UTC is passed over and
    the slot at 09:00 UTC is selected. *)
Example checkSlotAvailability_compares_browser_time :
  Rental.convertToUTC (H := UtcHost.host)
    (Rental.dateTime (H := UtcHost.host) Examples.june_1 Examples.nine)
    "Etc/GMT-2"
  = Date_getTime (Host := UtcHost.host) "2024-06-01T07:00:00Z" /\
  Rental.selectedSlot
    (run (Examples.sdk_times MoreExamples.seven_and_nine)
       (Rental.checkSlotAvailability (H := UtcHost.host) Examples.rental_props
          MoreExamples.rental_state_east))
  = Some {| timeSlot := Examples.slot "2024-06-01T09:00:00Z";
            resourceID := "room-a" |}.
Proof. split; vm_compute; reflexivity. Qed.

(** ** The form validator *)

Section Validator.
Context `{Host}.

Lemma is_empty_false_truthy (value : FormValue) :
  is_empty value = false -> truthy value = true.
Proof.
  unfold is_empty. intros [Ht _]%orb_false_elim.
  by apply negb_false_iff in Ht.
Qed.

Lemma validateField_required_empty (field : CustomFormField) (value : FormValue) :
  required field = true -> is_empty value = true ->
  validateField field value =
  Some (if String.eqb (errorText field) "" then "This field is required"
        else errorText field).
Proof. intros Hr He. unfold validateField. by rewrite Hr, He. Qed.

Lemma validateField_optional (field : CustomFormField) (value : FormValue) :
  required field = false -> validateField field value = None.
Proof. intros Hr. unfold validateField. by rewrite Hr. Qed.

Lemma validateField_required_filled (field : CustomFormField) (value : FormValue) :
  required field = true -> is_empty value = false ->
  validateField field value =
  match type field with
  | url => if URL_canParse (ToString value) then None
           else Some "Please enter a valid URL"
  | number => if isNaN value then Some "Please enter a valid number" else None
  | phone => if phone_pattern_test (ToString value) then None
             else Some "Please enter a valid phone number"
  | _ => None
  end.
Proof.
  intros Hr He. unfold validateField.
  rewrite Hr, He, (is_empty_false_truthy _ He). simpl.
  destruct (type field); try done.
  by destruct (phone_pattern_test _).
Qed.

Lemma validateField_message_nonempty (field : CustomFormField)
    (value : FormValue) (e : string) :
  validateField field value = Some e -> String.eqb e "" = false.
Proof.
  unfold validateField.
  destruct (required field && is_empty value).
  - destruct (String.eqb (errorText field) "") eqn:He; by intros [= <-].
  - destruct (negb (required field)); [done|].
    destruct (type field); try done.
    + destruct (_ && _); [|done]. by intros [= <-].
    + destruct (_ && _); [|done]. by intros [= <-].
    + destruct (URL_canParse _); [done|]. by intros [= <-].
Qed.

(** The [forEach] of [validateForm], from any accumulator. *)
Lemma validateForm_fold_errors (fv : FormView) (l : list CustomFormField)
    (acc : gmap string string * bool) (label e : string) :
  fst (foldl (validateForm_step fv) acc l) !! label = Some e ->
  fst acc !! label = Some e \/
  exists field, field ∈ l /\ labelText field = label /\
                validateField field (fieldValue fv field) = Some e.
Proof.
  revert acc. induction l as [|field l IH]; intros acc; simpl; [by left|].
  intros [Hacc|(f & Hf & Hl & Hv)]%IH.
  - unfold validateForm_step in Hacc.
    destruct (validateField field (fieldValue fv field)) as [e'|] eqn:Hv;
      [|by left].
    rewrite (validateField_message_nonempty _ _ _ Hv) in Hacc. simpl in Hacc.
    destruct (decide (labelText field = label)) as [Heq|Hne].
    + rewrite Heq, lookup_insert_eq in Hacc. injection Hacc as ->.
      right. exists field. split; [apply elem_of_cons; by left|done].
    + rewrite lookup_insert_ne in Hacc by done. by left.
  - right. exists f. split; [apply elem_of_cons; by right|done].
Qed.

Lemma validateForm_fold_keeps (fv : FormView) (l : list CustomFormField)
    (acc : gmap string string * bool) (label : string) :
  is_Some (fst acc !! label) ->
  is_Some (fst (foldl (validateForm_step fv) acc l) !! label).
Proof.
  revert acc. induction l as [|field l IH]; intros acc Hacc; simpl; [done|].
  apply IH. unfold validateForm_step.
  destruct (validateField field (fieldValue fv field)) as [e'|]; [|done].
  destruct (String.eqb e' ""); [done|]. simpl.
  destruct (decide (labelText field = label)) as [->|Hne].
  - rewrite lookup_insert_eq. by eexists.
  - by rewrite lookup_insert_ne.
Qed.

Lemma validateForm_fold_invalid (fv : FormView) (l : list CustomFormField)
    (acc : gmap string string * bool) :
  snd acc = false -> snd (foldl (validateForm_step fv) acc l) = false.
Proof.
  revert acc. induction l as [|field l IH]; intros acc Hacc; simpl; [done|].
  apply IH. unfold validateForm_step.
  destruct (validateField field (fieldValue fv field)) as [e'|]; [|done].
  by destruct (String.eqb e' "").
Qed.

Lemma validateForm_fold_reports (fv : FormView) (l : list CustomFormField)
    (acc : gmap string string * bool) (field : CustomFormField) :
  field ∈ l -> is_Some (validateField field (fieldValue fv field)) ->
  is_Some (fst (foldl (validateForm_step fv) acc l) !! labelText field) /\
  snd (foldl (validateForm_step fv) acc l) = false.
Proof.
  revert acc. induction l as [|f l IH]; intros acc; simpl.
  - by intros ?%elem_of_nil.
  - intros [->|Hin]%elem_of_cons Herr; [|by apply IH].
    destruct Herr as [e He].
    assert (Hstep : validateForm_step fv acc f
                    = (<[labelText f := e]> (fst acc), false)).
    { unfold validateForm_step.
      by rewrite He, (validateField_message_nonempty _ _ _ He). }
    rewrite Hstep. split.
    + apply validateForm_fold_keeps. simpl. rewrite lookup_insert_eq.
      by eexists.
    + by apply validateForm_fold_invalid.
Qed.

Lemma validateForm_fold_valid (fv : FormView) (l : list CustomFormField)
    (acc : gmap string string * bool) :
  (forall field, field ∈ l ->
     validateField field (fieldValue fv field) = None) ->
  foldl (validateForm_step fv) acc l = acc.
Proof.
  revert acc. induction l as [|f l IH]; intros acc Hall; simpl; [done|].
  unfold validateForm_step at 2.
  rewrite (Hall f) by (apply elem_of_cons; by left).
  apply IH. intros field Hin. apply Hall, elem_of_cons. by right.
Qed.

End Validator.

(** C2 (amended). [validateField] returns an error when the field is
    required and its value is empty (the field's [errorText], or "This
    field is required" when that is empty); for a field that is not
    required it returns no error whatever the value, so the type rules
    are never applied to optional fields; for a required field with a
    non-empty value the type rules decide: a [url] value that does not
    parse as a URL, a [number] value that is NaN and a [phone] value that
    fails the pattern give an error, every other value passes.
    [validateForm] records the error of a field under the field's label
    and is invalid as soon as one field has an error; every recorded
    error is the error of a field with that label; with no field in error
    it is valid with no errors. *)
Theorem validateField_rules `{Host} (fv : FormView) (field : CustomFormField) :
  (forall value, required field = true -> is_empty value = true ->
     validateField field value =
     Some (if String.eqb (errorText field) "" then "This field is required"
           else errorText field)) /\
  (forall value, required field = false -> validateField field value = None) /\
  (forall value, required field = true -> is_empty value = false ->
     validateField field value =
     match type field with
     | url => if URL_canParse (ToString value) then None
              else Some "Please enter a valid URL"
     | number => if isNaN value then Some "Please enter a valid number"
                 else None
     | phone => if phone_pattern_test (ToString value) then None
                else Some "Please enter a valid phone number"
     | _ => None
     end) /\
  (field ∈ allFields fv ->
   is_Some (validateField field (fieldValue fv field)) ->
   is_Some (errors (fst (validateForm fv)) !! labelText field) /\
   isValid (fst (validateForm fv)) = false) /\
  (forall label e,
     errors (fst (validateForm fv)) !! label = Some e ->
     exists f, f ∈ allFields fv /\ labelText f = label /\
               validateField f (fieldValue fv f) = Some e) /\
  ((forall f, f ∈ allFields fv ->
      validateField f (fieldValue fv f) = None) ->
   isValid (fst (validateForm fv)) = true /\
   errors (fst (validateForm fv)) = ∅) /\
  formErrors (snd (validateForm fv)) = errors (fst (validateForm fv)).
Proof.
  split; [|split; [|split]].
  - intros value. apply validateField_required_empty.
  - intros value. apply validateField_optional.
  - intros value. apply validateField_required_filled.
  - unfold validateForm.
    destruct (foldl (validateForm_step fv) (∅, true) (allFields fv))
      as [errs valid] eqn:Hfold. simpl.
    split; [|split; [|split]].
    + intros Hin Herr.
      pose proof (validateForm_fold_reports fv (allFields fv) (∅, true)
                    field Hin Herr) as Hrep.
      by rewrite Hfold in Hrep.
    + intros label e He.
      pose proof (validateForm_fold_errors fv (allFields fv) (∅, true)
                    label e) as Herrs.
      rewrite Hfold in Herrs. destruct (Herrs He) as [Hempty|Hfield]; [|done].
      simpl in Hempty. by rewrite lookup_empty in Hempty.
    + intros Hall.
      rewrite (validateForm_fold_valid fv _ _ Hall) in Hfold.
      by injection Hfold as <- <-.
    + done.
Qed.

Lemma validateField_rules_witness :
  isValid (fst (validateForm (H := UtcHost.host)
                  (Examples.form_with (Examples.required_field phone)
                     (VString "abc")))) = false.
Proof.
  destruct (validateField_rules (H := UtcHost.host)
              (Examples.form_with (Examples.required_field phone)
                 (VString "abc"))
              (Examples.required_field phone))
    as (_ & _ & _ & Hform & _).
  apply Hform.
  - apply list_elem_of_singleton. reflexivity.
  - vm_compute. eexists. reflexivity.
Defined.

(** C2 as stated fails: on a field that is not required the type rules
    are skipped.  An optional [phone] field holding "abc", an optional
    [url] field holding "not a url" and an optional [number] field
    holding "abc" all validate without an error, and the form is valid
    with no error under the label. *)
Lemma validateField_optional_skips_type_rules :
  phone_pattern_test "abc" = false /\
  validateField (H := UtcHost.host) (Examples.optional_field phone)
    (VString "abc") = None /\
  URL_canParse (Host := UtcHost.host) "not a url" = false /\
  validateField (H := UtcHost.host) (Examples.optional_field url)
    (VString "not a url") = None /\
  isNaN (H := UtcHost.host) (VString "abc") = true /\
  validateField (H := UtcHost.host) (Examples.optional_field number)
    (VString "abc") = None /\
  errors (fst (validateForm (H := UtcHost.host)
                 (Examples.form_with (Examples.optional_field phone)
                    (VString "abc")))) !! "contact" = None /\
  isValid (fst (validateForm (H := UtcHost.host)
                  (Examples.form_with (Examples.optional_field phone)
                     (VString "abc")))) = true.
Proof. repeat split; vm_compute; reflexivity. Qed.

(** ** The booking submitter *)

Lemma has_paymentURL_Some (response : BookingResponse) (u : string) :
  has_paymentURL response = Some u <-> paymentURL response = Some u /\ u <> "".
Proof.
  unfold has_paymentURL. destruct (paymentURL response) as [v|].
  - destruct (String.eqb_spec v "") as [->|Hne].
    + split; [done|]. by intros [[= <-] ?].
    + split; [by intros [= ->]|]. by intros [[= ->] _].
  - split; [done|]. by intros [? _].
Qed.

Lemma has_paymentURL_None (response : BookingResponse) :
  has_paymentURL response = None <->
  paymentURL response = None \/ paymentURL response = Some "".
Proof.
  unfold has_paymentURL. destruct (paymentURL response) as [v|].
  - destruct (String.eqb_spec v "") as [->|Hne].
    + split; [by right|done].
    + split; [done|]. intros [?|[= ?]]; done.
  - split; [by left|done].
Qed.

(** The case analysis shared by the two copies of the response handler:
    [on] is [onBookingResponse] read through the step and the page
    address. *)
Ltac response_cases response :=
  let u := fresh "u" in
  let Hu := fresh "Hu" in
  let Hc := fresh "Hc" in
  let Hp := fresh "Hp" in
  destruct (has_paymentURL response) as [u|] eqn:Hu;
  [ apply has_paymentURL_Some in Hu as [Hu ?]
  | apply has_paymentURL_None in Hu;
    destruct (String.eqb_spec (status response) "confirmed") as [Hc|Hc];
    [ | destruct (String.eqb_spec (status response) "pending") as [Hp|Hp] ] ];
  simpl;
  (split; [intros ? ? ? | intros [?|?]]; simplify_eq; intuition congruence).

Section FlexibleSubmitter.
Import Flexible.
Context `{Host} (props : Props).

Lemma Flexible_onBookingResponse_outcome (response : BookingResponse)
    (s : State) :
  response_outcome Success Pending response
    (currentStep s) (currentStep (onBookingResponse response s))
    (location_href s) (location_href (onBookingResponse response s)).
Proof.
  unfold response_outcome, onBookingResponse. response_cases response.
Qed.

(** What [makeBooking] leaves when it makes the request and the request
    settles. *)
Lemma Flexible_makeBooking_run (s : State) (sdk : Sdk)
    (settled : BookingResponse + string) :
  calls sdk (makeBooking props s) <> O ->
  (forall data, sdk _ (bookings_request data) = settled) ->
  run sdk (makeBooking props s) =
  let s1 := setError None (setSubmiting true s) in
  setSubmiting false
    match settled with
    | inl response => onBookingResponse response s1
    | inr err => setError (Some ("Failed to request booking: " +:+ err)) s1
    end.
Proof.
  unfold makeBooking. intros Hcalls Hsdk.
  destruct (selectedTime s) as [selected|]; [|done].
  destruct (bookingData props selected _) as [data|err]; [|done].
  simpl. rewrite Hsdk. by destruct settled.
Qed.

(** With a time selected whose start is a date, [makeBooking] makes the
    request, once. *)
Lemma Flexible_makeBooking_requests (s : State) (sdk : Sdk)
    (selected : TimeSlotWithResource) (t : Z) :
  selectedTime s = Some selected ->
  Date_getTime (startTime (timeSlot selected)) = Some t ->
  calls sdk (makeBooking props s) = 1%nat.
Proof.
  intros Hselected Hstart. unfold makeBooking, bookingData.
  rewrite Hselected, Hstart. simpl. by destruct (sdk _ _).
Qed.

End FlexibleSubmitter.

Section RentalSubmitter.
Import Rental.
Context `{Host} (props : Props).

Lemma Rental_onBookingResponse_outcome (response : BookingResponse)
    (s : State) :
  response_outcome Success Pending response
    (currentStep s) (currentStep (onBookingResponse response s))
    (location_href s) (location_href (onBookingResponse response s)).
Proof.
  unfold response_outcome, onBookingResponse. response_cases response.
Qed.

Lemma Rental_makeBooking_run (s : State) (sdk : Sdk)
    (settled : BookingResponse + string) :
  calls sdk (makeBooking props s) <> O ->
  (forall data, sdk _ (bookings_request data) = settled) ->
  run sdk (makeBooking props s) =
  let s1 := setError None (setSubmiting true s) in
  setSubmiting false
    match settled with
    | inl response => onBookingResponse response s1
    | inr err => setError (Some ("Failed to request booking: " +:+ err)) s1
    end.
Proof.
  unfold makeBooking. intros Hcalls Hsdk.
  destruct (selectedSlot s) as [selected|]; [|done].
  destruct (startDate (dateRange s)) as [start|]; [|done].
  destruct (endDate (dateRange s)) as [end_|]; [|done].
  destruct (String.eqb (serviceTimezone s) ""); [done|].
  destruct (bookingData props selected _ _ _) as [data|err]; [|done].
  simpl. rewrite Hsdk. by destruct settled.
Qed.

(** With a slot selected, both days chosen and a service time zone the
    host knows, [makeBooking] makes the request, once. *)
Lemma Rental_makeBooking_requests (s : State) (sdk : Sdk)
    (selected : TimeSlotWithResource) (start end_ startUTC : Z) :
  selectedSlot s = Some selected ->
  startDate (dateRange s) = Some start ->
  endDate (dateRange s) = Some end_ ->
  serviceTimezone s <> "" ->
  convertToUTC (dateTime start (range_startTime (dateRange s)))
    (serviceTimezone s) = Some startUTC ->
  calls sdk (makeBooking props s) = 1%nat.
Proof.
  intros Hselected Hstart Hend Hzone Hutc. unfold makeBooking, bookingData.
  rewrite Hselected, Hstart, Hend.
  destruct (String.eqb_spec (serviceTimezone s) ""); [done|].
  simpl. rewrite Hutc. simpl. by destruct (sdk _ _).
Qed.

End RentalSubmitter.
(** C3. With a selection that can be booked (a selected time whose start
    is a date; in the rental widget a selected slot, both days and a
    service time zone the host knows), [makeBooking] makes the booking
    request, and when it resolves it branches in this order: a non-empty
    [paymentURL] is assigned to [window.location.href] and the step
    stays as it was; otherwise the status "confirmed" sets the step to
    Success; otherwise the status "pending" sets the step to Pending; any
    other status leaves step and page alone.  [makeBooking] itself never
    navigates.  This holds in both widgets. *)
Theorem makeBooking_response_branches `{Host}
    (sdk : Sdk) (response : BookingResponse) :
  (forall data, sdk _ (bookings_request data) = inl response) ->
  (forall props s selected t,
     Flexible.selectedTime s = Some selected ->
     Date_getTime (startTime (timeSlot selected)) = Some t ->
     calls sdk (Flexible.makeBooking props s) = 1%nat /\
     response_outcome Flexible.Success Flexible.Pending response
       (Flexible.currentStep s)
       (Flexible.currentStep (run sdk (Flexible.makeBooking props s)))
       (Flexible.location_href s)
       (Flexible.location_href (run sdk (Flexible.makeBooking props s))) /\
     Flexible.navigations (run sdk (Flexible.makeBooking props s))
     = Flexible.navigations s) /\
  (forall props s selected start end_ startUTC,
     Rental.selectedSlot s = Some selected ->
     Rental.startDate (Rental.dateRange s) = Some start ->
     Rental.endDate (Rental.dateRange s) = Some end_ ->
     Rental.serviceTimezone s <> "" ->
     Rental.convertToUTC
       (Rental.dateTime start (Rental.range_startTime (Rental.dateRange s)))
       (Rental.serviceTimezone s) = Some startUTC ->
     calls sdk (Rental.makeBooking props s) = 1%nat /\
     response_outcome Rental.Success Rental.Pending response
       (Rental.currentStep s)
       (Rental.currentStep (run sdk (Rental.makeBooking props s)))
       (Rental.location_href s)
       (Rental.location_href (run sdk (Rental.makeBooking props s))) /\
     Rental.navigations (run sdk (Rental.makeBooking props s))
     = Rental.navigations s).
Proof.
  intros Hsdk. split.
  - intros props s selected t Hselected Hstart.
    pose proof (Flexible_makeBooking_requests props s sdk selected t
                  Hselected Hstart) as Hone.
    assert (Hcalls : calls sdk (Flexible.makeBooking props s) <> O)
      by (rewrite Hone; discriminate).
    split; [done|].
    rewrite (Flexible_makeBooking_run props s sdk (inl response) Hcalls Hsdk).
    simpl. split.
    + apply (Flexible_onBookingResponse_outcome response
               (Flexible.setError None (Flexible.setSubmiting true s))).
    + unfold Flexible.onBookingResponse.
      destruct (has_paymentURL response); [done|].
      destruct (String.eqb _ _); [done|]. by destruct (String.eqb _ _).
  - intros props s selected start end_ startUTC Hselected Hstart Hend Hzone
      Hutc.
    pose proof (Rental_makeBooking_requests props s sdk selected start end_
                  startUTC Hselected Hstart Hend Hzone Hutc) as Hone.
    assert (Hcalls : calls sdk (Rental.makeBooking props s) <> O)
      by (rewrite Hone; discriminate).
    split; [done|].
    rewrite (Rental_makeBooking_run props s sdk (inl response) Hcalls Hsdk).
    simpl. split.
    + apply (Rental_onBookingResponse_outcome response
               (Rental.setError None (Rental.setSubmiting true s))).
    + unfold Rental.onBookingResponse.
      destruct (has_paymentURL response); [done|].
      destruct (String.eqb _ _); [done|]. by destruct (String.eqb _ _).
Qed.

(** In the flexible widget a response that is both payable and pending:
    the redirect wins and the step stays on the first one.  In the rental
    widget a pending response without payment address: the step becomes
    Pending. *)
Lemma makeBooking_response_branches_witness :
  let payable := {| paymentURL := Some "https://pay.example/1";
                    status := "pending" |} in
  let pending := {| paymentURL := None; status := "pending" |} in
  let s' := run (Examples.sdk_booking (inl payable))
              (Flexible.makeBooking (H := UtcHost.host)
                 Examples.flexible_props Examples.flexible_state) in
  let r' := run (Examples.sdk_booking (inl pending))
              (Rental.makeBooking (H := UtcHost.host)
                 Examples.rental_props Examples.rental_selected) in
  (Flexible.location_href s' = Some "https://pay.example/1" /\
   Flexible.currentStep s' = Flexible.Date) /\
  (calls (Examples.sdk_booking (inl pending))
     (Rental.makeBooking (H := UtcHost.host)
        Examples.rental_props Examples.rental_selected) = 1%nat /\
   Rental.currentStep r' = Rental.Pending).
Proof.
  intros payable pending s' r'. split.
  - destruct (makeBooking_response_branches (H := UtcHost.host)
                (Examples.sdk_booking (inl payable)) payable)
      as [Hflexible _].
    { intros data. reflexivity. }
    destruct (Hflexible Examples.flexible_props Examples.flexible_state
                {| timeSlot := Examples.slot "2024-06-01T09:00:00Z";
                   resourceID := "room-a" |} 1717232400000)
      as (_ & [Hredirect _] & _); [reflexivity | reflexivity |].
    apply (Hredirect "https://pay.example/1"); [reflexivity | discriminate].
  - destruct (makeBooking_response_branches (H := UtcHost.host)
                (Examples.sdk_booking (inl pending)) pending)
      as [_ Hrental].
    { intros data. reflexivity. }
    destruct (Hrental Examples.rental_props Examples.rental_selected
                {| timeSlot := Examples.slot "2024-06-01T09:00:00Z";
                   resourceID := "room-a" |}
                Examples.june_1 Examples.june_3 1717232400000)
      as (Hcalls & [_ Hplain] & _);
      [reflexivity | reflexivity | reflexivity | discriminate
      | vm_compute; reflexivity |].
    split; [exact Hcalls|].
    destruct (Hplain (or_introl eq_refl)) as (_ & Hpending & _).
    apply Hpending; [discriminate | reflexivity].
Defined.

(** C5. When the booking request of a selection that can be booked is
    rejected, [makeBooking] (in both widgets) has made the request once
    and catches the failure: the error state holds "Failed to request
    booking: " followed by the failure, the step is the one it was, the
    page address is untouched and nothing is navigated, also after the
    effect on the step has had its turn. *)
Theorem makeBooking_failure_retained `{Host} (sdk : Sdk) (err : string) :
  (forall data, sdk _ (bookings_request data) = inr err) ->
  (forall props s selected t,
     Flexible.selectedTime s = Some selected ->
     Date_getTime (startTime (timeSlot selected)) = Some t ->
     let s' := run sdk (Flexible.makeBooking props s) in
     calls sdk (Flexible.makeBooking props s) = 1%nat /\
     Flexible.error s' = Some ("Failed to request booking: " +:+ err) /\
     Flexible.currentStep s' = Flexible.currentStep s /\
     Flexible.location_href s' = Flexible.location_href s /\
     Flexible.navigations s' = Flexible.navigations s /\
     forall routes,
       Flexible.dispatch props routes sdk (Flexible.makeBooking props) s = s') /\
  (forall props s selected start end_ startUTC,
     Rental.selectedSlot s = Some selected ->
     Rental.startDate (Rental.dateRange s) = Some start ->
     Rental.endDate (Rental.dateRange s) = Some end_ ->
     Rental.serviceTimezone s <> "" ->
     Rental.convertToUTC
       (Rental.dateTime start (Rental.range_startTime (Rental.dateRange s)))
       (Rental.serviceTimezone s) = Some startUTC ->
     let s' := run sdk (Rental.makeBooking props s) in
     calls sdk (Rental.makeBooking props s) = 1%nat /\
     Rental.error s' = Some ("Failed to request booking: " +:+ err) /\
     Rental.currentStep s' = Rental.currentStep s /\
     Rental.location_href s' = Rental.location_href s /\
     Rental.navigations s' = Rental.navigations s /\
     forall routes,
       Rental.dispatch props routes sdk (Rental.makeBooking props) s = s').
Proof.
  intros Hsdk. split.
  - intros props s selected t Hselected Hstart s'. subst s'.
    pose proof (Flexible_makeBooking_requests props s sdk selected t
                  Hselected Hstart) as Hone.
    assert (Hcalls : calls sdk (Flexible.makeBooking props s) <> O)
      by (rewrite Hone; discriminate).
    split; [done|]. unfold Flexible.dispatch.
    rewrite (Flexible_makeBooking_run props s sdk (inr err) Hcalls Hsdk).
    simpl. repeat split. intros routes. by rewrite decide_True.
  - intros props s selected start end_ startUTC Hselected Hstart Hend Hzone
      Hutc s'. subst s'.
    pose proof (Rental_makeBooking_requests props s sdk selected start end_
                  startUTC Hselected Hstart Hend Hzone Hutc) as Hone.
    assert (Hcalls : calls sdk (Rental.makeBooking props s) <> O)
      by (rewrite Hone; discriminate).
    split; [done|]. unfold Rental.dispatch.
    rewrite (Rental_makeBooking_run props s sdk (inr err) Hcalls Hsdk).
    simpl. repeat split. intros routes. by rewrite decide_True.
Qed.

Lemma makeBooking_failure_retained_witness :
  let sdk := Examples.sdk_booking (inr "Error: Network Error") in
  let s' := run sdk (Flexible.makeBooking (H := UtcHost.host)
                       Examples.flexible_props Examples.flexible_state) in
  let r' := run sdk (Rental.makeBooking (H := UtcHost.host)
                       Examples.rental_props Examples.rental_selected) in
  (calls sdk (Flexible.makeBooking (H := UtcHost.host)
                Examples.flexible_props Examples.flexible_state) = 1%nat /\
   Flexible.error s' = Some "Failed to request booking: Error: Network Error" /\
   Flexible.currentStep s' = Flexible.Date) /\
  (calls sdk (Rental.makeBooking (H := UtcHost.host)
                Examples.rental_props Examples.rental_selected) = 1%nat /\
   Rental.error r' = Some "Failed to request booking: Error: Network Error" /\
   Rental.currentStep r' = Rental.DateRange).
Proof.
  intros sdk s' r'.
  destruct (makeBooking_failure_retained (H := UtcHost.host) sdk
              "Error: Network Error") as [Hflexible Hrental].
  { intros data. reflexivity. }
  split.
  - destruct (Hflexible Examples.flexible_props Examples.flexible_state
                {| timeSlot := Examples.slot "2024-06-01T09:00:00Z";
                   resourceID := "room-a" |} 1717232400000)
      as (Hcalls & Herror & Hstep & _); [reflexivity | reflexivity |].
    split; [exact Hcalls|]. split; [exact Herror | exact Hstep].
  - destruct (Hrental Examples.rental_props Examples.rental_selected
                {| timeSlot := Examples.slot "2024-06-01T09:00:00Z";
                   resourceID := "room-a" |}
                Examples.june_1 Examples.june_3 1717232400000)
      as (Hcalls & Herror & Hstep & _);
      [reflexivity | reflexivity | reflexivity | discriminate
      | vm_compute; reflexivity |].
    split; [exact Hcalls|]. split; [exact Herror | exact Hstep].
Defined.

(** ** The availability fetcher *)

(** C6 (amended). When the ids are configured and the service is loaded
    (in the rental widget also: with a service time zone the host can
    convert), [fetchAvailableDates] makes the dates request, and when it
    is rejected it catches the failure, writes it to the console and
    resets the available dates to the empty list; the error state is
    left as it was (no error string is set), and so are the step and
    the loading flag: the calendar stays.  In the rental widget no day is
    then available and a click on a day does nothing; the date strip of
    the flexible widget takes the empty list for "no restriction" and
    every day stays available. *)
Theorem fetchAvailableDates_rejection `{Host} (sdk : Sdk) (err : string) :
  (forall company service params,
     sdk _ (services_getDates company service params) = inr err) ->
  (forall props now s,
     Flexible.bkla_companyID props <> "" ->
     Flexible.serviceID props <> "" ->
     Flexible.serviceLoaded s = true ->
     let s' := run sdk (Flexible.fetchAvailableDates props now s) in
     calls sdk (Flexible.fetchAvailableDates props now s) = 1%nat /\
     s' = Flexible.setAvailableDates []
            (Flexible.console_error "Failed to load available dates:" err s) /\
     Flexible.availableDates s' = [] /\
     Flexible.error s' = Flexible.error s /\
     Flexible.console_errors s'
     = Flexible.console_errors s
       ++ ["Failed to load available dates: " +:+ err] /\
     Flexible.currentStep s' = Flexible.currentStep s /\
     Flexible.loading s' = Flexible.loading s /\
     forall date,
       DatePicker.isDateAvailable (Flexible.availableDates s') date = true) /\
  (forall props year month s,
     Rental.bkla_companyID props <> "" ->
     Rental.serviceID props <> "" ->
     Rental.serviceLoaded s = true ->
     Rental.serviceTimezone s <> "" ->
     (forall t, is_Some (Rental.convertToUTC t (Rental.serviceTimezone s))) ->
     let s' := run sdk (Rental.fetchAvailableDates props year month s) in
     calls sdk (Rental.fetchAvailableDates props year month s) = 1%nat /\
     s' = Rental.setAvailableDates []
            (Rental.console_error "Failed to load available dates:" err s) /\
     Rental.availableDates s' = [] /\
     Rental.error s' = Rental.error s /\
     Rental.console_errors s'
     = Rental.console_errors s
       ++ ["Failed to load available dates: " +:+ err] /\
     Rental.currentStep s' = Rental.currentStep s /\
     Rental.loading s' = Rental.loading s /\
     forall date,
       RentalView.isDateAvailable (Rental.availableDates s') date = false /\
       forall picker,
         RentalView.handleDateClick (Rental.availableDates s') date picker
         = picker).
Proof.
  intros Hsdk. split.
  - intros props now s Hcompany Hservice Hloaded s'. subst s'.
    unfold Flexible.fetchAvailableDates.
    destruct (String.eqb_spec (Flexible.bkla_companyID props) ""); [done|].
    destruct (String.eqb_spec (Flexible.serviceID props) ""); [done|].
    rewrite Hloaded. simpl. rewrite Hsdk. simpl. repeat split.
  - intros props year month s Hcompany Hservice Hloaded Hzone Hconvert s'.
    subst s'. unfold Rental.fetchAvailableDates.
    destruct (String.eqb_spec (Rental.bkla_companyID props) ""); [done|].
    destruct (String.eqb_spec (Rental.serviceID props) ""); [done|].
    rewrite Hloaded.
    destruct (String.eqb_spec (Rental.serviceTimezone s) ""); [done|].
    cbn [orb negb].
    match goal with
    | |- context [Rental.convertToUTC ?t (Rental.serviceTimezone s)] =>
        destruct (Hconvert t) as [startUTC ->]
    end.
    match goal with
    | |- context [Rental.convertToUTC ?t (Rental.serviceTimezone s)] =>
        destruct (Hconvert t) as [endUTC ->]
    end.
    simpl. rewrite Hsdk. simpl.
    do 7 (split; [reflexivity|]).
    intros date.
    assert (Hnone : RentalView.isDateAvailable [] date = false).
    { unfold RentalView.isDateAvailable.
      apply bool_decide_eq_false_2, not_elem_of_nil. }
    split; [exact Hnone|].
    intros [mode range]. unfold RentalView.handleDateClick.
    by rewrite Hnone.
Qed.

Lemma fetchAvailableDates_rejection_witness :
  let sdk := Examples.sdk_rejecting "Error: Network Error" in
  (calls sdk
     (Flexible.fetchAvailableDates (H := UtcHost.host)
        Examples.flexible_props Examples.june_1 Examples.flexible_state)
   = 1%nat /\
   Flexible.availableDates
     (run sdk
        (Flexible.fetchAvailableDates (H := UtcHost.host)
           Examples.flexible_props Examples.june_1 Examples.flexible_state))
   = []) /\
  (calls sdk
     (Rental.fetchAvailableDates (H := UtcHost.host)
        Examples.rental_props 2024 5 (Examples.rental_state Examples.two_days))
   = 1%nat /\
   Rental.error
     (run sdk
        (Rental.fetchAvailableDates (H := UtcHost.host)
           Examples.rental_props 2024 5
           (Examples.rental_state Examples.two_days)))
   = None).
Proof.
  intros sdk.
  destruct (fetchAvailableDates_rejection (H := UtcHost.host) sdk
              "Error: Network Error") as [Hflexible Hrental].
  { intros company service params. reflexivity. }
  split.
  - destruct (Hflexible Examples.flexible_props Examples.june_1
                Examples.flexible_state)
      as (Hcalls & _ & Hdates & _);
      [discriminate | discriminate | reflexivity |].
    split; [exact Hcalls | exact Hdates].
  - destruct (Hrental Examples.rental_props 2024 5
                (Examples.rental_state Examples.two_days))
      as (Hcalls & _ & _ & Herror & _);
      [discriminate | discriminate | reflexivity | discriminate
      | intros t; eexists; reflexivity |].
    split; [exact Hcalls | exact Herror].
Defined.

(** C6 as stated fails: after a rejected dates request the available
    dates are empty but no error string is set, the failure only reaches
    the console; and the date strip of the flexible widget, given the
    empty list, still offers every day. *)
Lemma fetchAvailableDates_sets_no_error :
  let s' := run (Examples.sdk_rejecting "Error: Network Error")
              (Flexible.fetchAvailableDates (H := UtcHost.host)
                 Examples.flexible_props Examples.june_1
                 Examples.flexible_state) in
  calls (Examples.sdk_rejecting "Error: Network Error")
    (Flexible.fetchAvailableDates (H := UtcHost.host)
       Examples.flexible_props Examples.june_1 Examples.flexible_state) = 1%nat /\
  Flexible.availableDates Examples.flexible_state = ["2024-06-01"] /\
  Flexible.availableDates s' = [] /\
  Flexible.error s' = None /\
  Flexible.console_errors s'
  = ["Failed to load available dates: Error: Network Error"] /\
  DatePicker.isDateAvailable (H := UtcHost.host)
    (Flexible.availableDates Examples.flexible_state) Examples.june_3 = false /\
  DatePicker.isDateAvailable (H := UtcHost.host)
    (Flexible.availableDates s') Examples.june_3 = true.
Proof. repeat split; vm_compute; reflexivity. Qed.

(** ** The step controller *)

Section StepAfterBooking.
Context `{Host}.

(** What [makeBooking] can leave as the step: the step it was called
    on, Success or Pending. *)
Lemma Flexible_makeBooking_step (props : Flexible.Props) (sdk : Sdk)
    (s : Flexible.State) :
  let step := Flexible.currentStep (run sdk (Flexible.makeBooking props s)) in
  step = Flexible.currentStep s \/ step = Flexible.Success \/
  step = Flexible.Pending.
Proof.
  unfold Flexible.makeBooking.
  destruct (Flexible.selectedTime s) as [selected|]; [|by left].
  destruct (Flexible.bookingData props selected _) as [data|err]; [|by left].
  simpl. destruct (sdk _ _) as [response|err]; [|by left]. simpl.
  unfold Flexible.onBookingResponse.
  destruct (has_paymentURL response); [by left|].
  destruct (String.eqb _ "confirmed"); [by right; left|].
  destruct (String.eqb _ "pending"); [by right; right|by left].
Qed.

Lemma Rental_makeBooking_step (props : Rental.Props) (sdk : Sdk)
    (s : Rental.State) :
  let step := Rental.currentStep (run sdk (Rental.makeBooking props s)) in
  step = Rental.currentStep s \/ step = Rental.Success \/
  step = Rental.Pending.
Proof.
  unfold Rental.makeBooking.
  destruct (Rental.selectedSlot s) as [selected|]; [|by left].
  destruct (Rental.startDate _) as [start|]; [|by left].
  destruct (Rental.endDate _) as [end_|]; [|by left].
  destruct (String.eqb (Rental.serviceTimezone s) ""); [by left|].
  destruct (Rental.bookingData props selected _ _ _) as [data|err]; [|by left].
  simpl. destruct (sdk _ _) as [response|err]; [|by left]. simpl.
  unfold Rental.onBookingResponse.
  destruct (has_paymentURL response); [by left|].
  destruct (String.eqb _ "confirmed"); [by right; left|].
  destruct (String.eqb _ "pending"); [by right; right|by left].
Qed.

End StepAfterBooking.

(** C7. On the selection step ([Date] in the flexible widget,
    [DateRange] in the rental one), when guest mode is off and no custom
    field is configured (the field list is missing or empty),
    [proceedToNextStep] is [makeBooking] itself: the step never becomes
    Form, and with a selection that can be booked the booking request is
    made at once.  When guest mode is on or there is at least one custom
    field, it makes no request and moves the step to Form, changing
    nothing else. *)
Theorem proceedToNextStep_from_selection `{Host} (sdk : Sdk) :
  (forall props s,
     Flexible.currentStep s = Flexible.Date ->
     let next := Flexible.proceedToNextStep props s in
     (Flexible.guestMode props = false ->
      Flexible.customForm_fields props = None \/
      Flexible.customForm_fields props = Some [] ->
      next = Flexible.makeBooking props s /\
      Flexible.currentStep (run sdk next) <> Flexible.Form /\
      forall selected t,
        Flexible.selectedTime s = Some selected ->
        Date_getTime (startTime (timeSlot selected)) = Some t ->
        calls sdk next = 1%nat) /\
     (Flexible.guestMode props = true \/
      (exists f fs, Flexible.customForm_fields props = Some (f :: fs)) ->
      calls sdk next = O /\
      Flexible.currentStep (run sdk next) = Flexible.Form /\
      run sdk next = Flexible.setCurrentStep Flexible.Form s /\
      Flexible.selectedTime (run sdk next) = Flexible.selectedTime s /\
      Flexible.error (run sdk next) = Flexible.error s /\
      Flexible.submiting (run sdk next) = Flexible.submiting s)) /\
  (forall props s,
     Rental.currentStep s = Rental.DateRange ->
     let next := Rental.proceedToNextStep props s in
     (Rental.guestMode props = false ->
      Rental.customForm_fields props = None \/
      Rental.customForm_fields props = Some [] ->
      next = Rental.makeBooking props s /\
      Rental.currentStep (run sdk next) <> Rental.Form /\
      forall selected start end_ startUTC,
        Rental.selectedSlot s = Some selected ->
        Rental.startDate (Rental.dateRange s) = Some start ->
        Rental.endDate (Rental.dateRange s) = Some end_ ->
        Rental.serviceTimezone s <> "" ->
        Rental.convertToUTC
          (Rental.dateTime start
             (Rental.range_startTime (Rental.dateRange s)))
          (Rental.serviceTimezone s) = Some startUTC ->
        calls sdk next = 1%nat) /\
     (Rental.guestMode props = true \/
      (exists f fs, Rental.customForm_fields props = Some (f :: fs)) ->
      calls sdk next = O /\
      Rental.currentStep (run sdk next) = Rental.Form /\
      run sdk next = Rental.setCurrentStep Rental.Form s /\
      Rental.selectedSlot (run sdk next) = Rental.selectedSlot s /\
      Rental.error (run sdk next) = Rental.error s /\
      Rental.submiting (run sdk next) = Rental.submiting s)).
Proof.
  split; intros props s Hstep next; subst next.
  - unfold Flexible.proceedToNextStep, Flexible.formsNeeded.
    rewrite decide_True by done. split.
    + intros Hguest Hfields.
      assert (Hnone : match Flexible.customForm_fields props with
                      | Some (_ :: _) => true
                      | _ => false
                      end = false) by (by destruct Hfields as [-> | ->]).
      rewrite Hguest, Hnone. simpl. split; [done|]. split.
      * pose proof (Flexible_makeBooking_step props sdk s) as Hafter.
        simpl in Hafter. rewrite Hstep in Hafter.
        destruct Hafter as [-> | [-> | ->]]; discriminate.
      * intros selected t. apply Flexible_makeBooking_requests.
    + intros Hforms.
      assert (Hneeded : Flexible.guestMode props
                        || match Flexible.customForm_fields props with
                           | Some (_ :: _) => true
                           | _ => false
                           end = true).
      { destruct Hforms as [->|(f & fs & ->)]; [done|]. apply orb_true_r. }
      rewrite Hneeded. simpl. repeat split.
  - unfold Rental.proceedToNextStep, Rental.formsNeeded.
    rewrite decide_True by done. split.
    + intros Hguest Hfields.
      assert (Hnone : match Rental.customForm_fields props with
                      | Some (_ :: _) => true
                      | _ => false
                      end = false) by (by destruct Hfields as [-> | ->]).
      rewrite Hguest, Hnone. simpl. split; [done|]. split.
      * pose proof (Rental_makeBooking_step props sdk s) as Hafter.
        simpl in Hafter. rewrite Hstep in Hafter.
        destruct Hafter as [-> | [-> | ->]]; discriminate.
      * intros selected start end_ startUTC.
        apply Rental_makeBooking_requests.
    + intros Hforms.
      assert (Hneeded : Rental.guestMode props
                        || match Rental.customForm_fields props with
                           | Some (_ :: _) => true
                           | _ => false
                           end = true).
      { destruct Hforms as [->|(f & fs & ->)]; [done|]. apply orb_true_r. }
      rewrite Hneeded. simpl. repeat split.
Qed.

(** Without forms the request is made at once; in guest mode the step
    becomes Form; in both widgets. *)
Lemma proceedToNextStep_from_selection_witness :
  let sdk := Examples.sdk_booking
               (inl {| paymentURL := None; status := "pending" |}) in
  (calls sdk
     (Flexible.proceedToNextStep (H := UtcHost.host)
        Examples.flexible_props Examples.flexible_state) = 1%nat /\
   Flexible.currentStep
     (run sdk
        (Flexible.proceedToNextStep (H := UtcHost.host)
           MoreExamples.flexible_guest_props Examples.flexible_state))
   = Flexible.Form) /\
  (calls sdk
     (Rental.proceedToNextStep (H := UtcHost.host)
        Examples.rental_props Examples.rental_selected) = 1%nat /\
   Rental.currentStep
     (run sdk
        (Rental.proceedToNextStep (H := UtcHost.host)
           MoreExamples.rental_guest_props Examples.rental_selected))
   = Rental.Form).
Proof.
  intros sdk.
  destruct (proceedToNextStep_from_selection (H := UtcHost.host) sdk)
    as [Hflexible Hrental].
  split; split.
  - destruct (Hflexible Examples.flexible_props Examples.flexible_state)
      as [Hskip _]; [reflexivity|].
    destruct Hskip as (_ & _ & Hrequest); [reflexivity | right; reflexivity|].
    apply (Hrequest {| timeSlot := Examples.slot "2024-06-01T09:00:00Z";
                       resourceID := "room-a" |} 1717232400000);
      reflexivity.
  - destruct (Hflexible MoreExamples.flexible_guest_props
                Examples.flexible_state) as [_ Hform]; [reflexivity|].
    destruct Hform as (_ & Hstep & _); [left; reflexivity|]. exact Hstep.
  - destruct (Hrental Examples.rental_props Examples.rental_selected)
      as [Hskip _]; [reflexivity|].
    destruct Hskip as (_ & _ & Hrequest); [reflexivity | right; reflexivity|].
    apply (Hrequest {| timeSlot := Examples.slot "2024-06-01T09:00:00Z";
                       resourceID := "room-a" |}
             Examples.june_1 Examples.june_3 1717232400000);
      [reflexivity | reflexivity | reflexivity | discriminate
      | vm_compute; reflexivity].
  - destruct (Hrental MoreExamples.rental_guest_props
                Examples.rental_selected) as [_ Hform]; [reflexivity|].
    destruct Hform as (_ & Hstep & _); [left; reflexivity|]. exact Hstep.
Defined.

(** ** Navigation on the terminal steps *)

Lemma getRouteId_registered (routes : Routes) (path : string) :
  registered routes path -> (getRouteId routes path, Some path) ∈ routes.
Proof.
  intros [key Hkey]. induction routes as [|[k p] routes IH]; simpl.
  - by apply elem_of_nil in Hkey.
  - destruct (decide (p = Some path)) as [->|Hne].
    + apply elem_of_cons. by left.
    + apply elem_of_cons. right. apply IH.
      apply elem_of_cons in Hkey as [[= -> <-]|Hin]; [congruence|done].
Qed.

Lemma getRouteId_unregistered (routes : Routes) (path : string) :
  ~ registered routes path -> getRouteId routes path = "".
Proof.
  induction routes as [|[k p] routes IH]; simpl; [done|]. intros Hnot.
  destruct (decide (p = Some path)) as [->|Hne].
  - destruct Hnot. exists k. apply elem_of_cons. by left.
  - apply IH. intros [key Hkey]. apply Hnot. exists key.
    apply elem_of_cons. by right.
Qed.

Lemma getRouteId_leads_to (routes : Routes) (path : string) :
  proper_ids routes ->
  leads_to routes path
    (if String.eqb (getRouteId routes path) "" then getRouteId routes "/"
     else getRouteId routes path).
Proof.
  intros Hids. split.
  - intros Hreg. pose proof (getRouteId_registered routes path Hreg) as Hin.
    unfold proper_ids in Hids. rewrite Forall_forall in Hids.
    specialize (Hids _ Hin). simpl in Hids.
    by destruct (String.eqb_spec (getRouteId routes path) "").
  - intros Hnot. by rewrite (getRouteId_unregistered routes path Hnot).
Qed.

(** C8. After a booking response without payment address whose status is
    "pending", handled from a step other than Pending, the step is
    Pending and the effect on the step calls [navigate] once, with an
    empty hash and a route whose path is [routes.pending] when such a
    route is registered, and with what is registered for "/" only when
    none is (route ids being non-empty); in the same way the status
    "confirmed" leads to Success and to [routes.confirmed].  This holds
    in both widgets. *)
Theorem terminal_step_navigates `{Host}
    (routes : Routes) (sdk : Sdk) (response : BookingResponse) :
  proper_ids routes ->
  (forall data, sdk _ (bookings_request data) = inl response) ->
  (paymentURL response = None \/ paymentURL response = Some "") ->
  (forall props s,
     calls sdk (Flexible.makeBooking props s) <> O ->
     let s' := Flexible.dispatch props routes sdk (Flexible.makeBooking props) s in
     (status response = "pending" ->
      Flexible.currentStep s <> Flexible.Pending ->
      Flexible.currentStep s' = Flexible.Pending /\
      exists target,
        Flexible.navigations s' = Flexible.navigations s ++ [(target, "")] /\
        leads_to routes (Flexible.routes_pending props) target) /\
     (status response = "confirmed" ->
      Flexible.currentStep s <> Flexible.Success ->
      Flexible.currentStep s' = Flexible.Success /\
      exists target,
        Flexible.navigations s' = Flexible.navigations s ++ [(target, "")] /\
        leads_to routes (Flexible.routes_confirmed props) target)) /\
  (forall props s,
     calls sdk (Rental.makeBooking props s) <> O ->
     let s' := Rental.dispatch props routes sdk (Rental.makeBooking props) s in
     (status response = "pending" ->
      Rental.currentStep s <> Rental.Pending ->
      Rental.currentStep s' = Rental.Pending /\
      exists target,
        Rental.navigations s' = Rental.navigations s ++ [(target, "")] /\
        leads_to routes (Rental.routes_pending props) target) /\
     (status response = "confirmed" ->
      Rental.currentStep s <> Rental.Success ->
      Rental.currentStep s' = Rental.Success /\
      exists target,
        Rental.navigations s' = Rental.navigations s ++ [(target, "")] /\
        leads_to routes (Rental.routes_confirmed props) target)).
Proof.
  intros Hids Hsdk Hpay. apply has_paymentURL_None in Hpay.
  split; intros props s Hcalls s'; subst s'.
  - unfold Flexible.dispatch.
    rewrite (Flexible_makeBooking_run props s sdk (inl response) Hcalls Hsdk).
    unfold Flexible.onBookingResponse. rewrite Hpay. split.
    + intros Hstatus Hstep. rewrite Hstatus. simpl.
      rewrite decide_False by done.
      unfold Flexible.stepEffect, Flexible.proceedToRoute. simpl.
      split; [done|]. eexists. split; [done|].
      by apply getRouteId_leads_to.
    + intros Hstatus Hstep. rewrite Hstatus. simpl.
      rewrite decide_False by done.
      unfold Flexible.stepEffect, Flexible.proceedToRoute. simpl.
      split; [done|]. eexists. split; [done|].
      by apply getRouteId_leads_to.
  - unfold Rental.dispatch.
    rewrite (Rental_makeBooking_run props s sdk (inl response) Hcalls Hsdk).
    unfold Rental.onBookingResponse. rewrite Hpay. split.
    + intros Hstatus Hstep. rewrite Hstatus. simpl.
      rewrite decide_False by done.
      unfold Rental.stepEffect, Rental.proceedToRoute. simpl.
      split; [done|]. eexists. split; [done|].
      by apply getRouteId_leads_to.
    + intros Hstatus Hstep. rewrite Hstatus. simpl.
      rewrite decide_False by done.
      unfold Rental.stepEffect, Rental.proceedToRoute. simpl.
      split; [done|]. eexists. split; [done|].
      by apply getRouteId_leads_to.
Qed.

Example pending_navigates_to_the_pending_route :
  Flexible.navigations
    (Flexible.dispatch Examples.flexible_props
       Examples.site_routes
       (Examples.sdk_booking (inl {| paymentURL := None; status := "pending" |}))
       (Flexible.makeBooking (H := UtcHost.host) Examples.flexible_props)
       Examples.flexible_state)
  = [("wait", "")].
Proof. vm_compute. reflexivity. Qed.

Lemma terminal_step_navigates_witness :
  Flexible.currentStep
    (Flexible.dispatch Examples.flexible_props
       Examples.site_routes
       (Examples.sdk_booking (inl {| paymentURL := None; status := "pending" |}))
       (Flexible.makeBooking (H := UtcHost.host) Examples.flexible_props)
       Examples.flexible_state)
  = Flexible.Pending.
Proof.
  destruct (terminal_step_navigates (H := UtcHost.host) Examples.site_routes
              (Examples.sdk_booking
                 (inl {| paymentURL := None; status := "pending" |}))
              {| paymentURL := None; status := "pending" |})
    as [Hflexible _].
  { repeat constructor; discriminate. }
  { intros data. reflexivity. }
  { left. reflexivity. }
  destruct (Hflexible Examples.flexible_props Examples.flexible_state)
    as [Hpending _].
  { vm_compute. discriminate. }
  apply Hpending; [reflexivity | discriminate].
Defined.

(** * Further properties of the two widgets *)

(** ** Durations *)

(** X1. For a total of minutes that is not negative,
    [convertToHoursAndMinutes] gives a duration in normal form (no days,
    minutes below 60, hours not negative) whose [convertToMinutes] is the
    total again. *)
Theorem convertToHoursAndMinutes_round_trip (total : Z) :
  0 <= total ->
  let d := Flexible_Duration.convertToHoursAndMinutes total in
  days d = 0 /\ 0 <= hours d /\ 0 <= minutes d < 60 /\
  Flexible_Duration.convertToMinutes d = total.
Proof.
  intros Ht. unfold Flexible_Duration.convertToMinutes,
    Flexible_Duration.convertToHoursAndMinutes. simpl.
  rewrite Z.rem_mod_nonneg by lia.
  pose proof (Z.mod_pos_bound total 60).
  pose proof (Z_div_mod_eq_full total 60).
  assert (0 <= total / 60) by (apply Z.div_pos; lia).
  repeat split; lia.
Qed.

Lemma convertToHoursAndMinutes_round_trip_witness :
  Flexible_Duration.convertToMinutes
    (Flexible_Duration.convertToHoursAndMinutes 150) = 150.
Proof.
  apply (convertToHoursAndMinutes_round_trip 150). lia.
Defined.

(** Below zero the two functions do not agree: the hours are rounded down
    and the minutes keep the sign of the total. *)
Example convertToHoursAndMinutes_negative :
  Flexible_Duration.convertToHoursAndMinutes (-30)
  = {| days := 0; hours := -1; minutes := -30 |} /\
  Flexible_Duration.convertToMinutes
    (Flexible_Duration.convertToHoursAndMinutes (-30)) = -90.
Proof. split; reflexivity. Qed.

(** X2. With a minimum that is not negative, a click on plus or minus in
    the duration picker either changes nothing and reports nothing, or
    moves the total by exactly one step to a total within the configured
    bounds, stores it in normal form and reports that same duration to
    the parent. *)
Theorem handleDurationChange_bounds (p : DurationPicker.Props) (up : bool)
    (d : Duration) :
  0 <= Flexible_Duration.convertToMinutes (DurationPicker.minDuration p) ->
  let result := DurationPicker.handleDurationChange p up d in
  (result = (d, None)) \/
  (snd result = Some (fst result) /\
   DurationPicker.within_bounds p (fst result) /\
   Flexible_Duration.convertToMinutes (fst result)
   = (if up
      then Flexible_Duration.convertToMinutes d
           + Flexible_Duration.convertToMinutes (DurationPicker.stepDuration p)
      else Flexible_Duration.convertToMinutes d
           - Flexible_Duration.convertToMinutes (DurationPicker.stepDuration p)) /\
   days (fst result) = 0 /\ 0 <= minutes (fst result) < 60).
Proof.
  intros Hmin result. subst result. unfold DurationPicker.handleDurationChange.
  cbv zeta. set (new := if up then _ else _).
  destruct (_ && _) eqn:Hok; [|left; reflexivity]. right.
  apply andb_prop in Hok as [Hlo Hhi]. apply Z.leb_le in Hlo.
  assert (Hnew : 0 <= new) by lia.
  destruct (convertToHoursAndMinutes_round_trip new Hnew)
    as (Hdays & _ & Hminutes & Htotal).
  cbn [fst snd]. unfold DurationPicker.within_bounds. rewrite Htotal.
  split; [done|]. split; [|repeat split; (done || lia)].
  split; [done|].
  apply orb_prop in Hhi as [Hhi|Hhi]; [left; lia|right; lia].
Qed.

Lemma handleDurationChange_bounds_witness :
  let p := {| DurationPicker.minDuration := {| days := 0; hours := 0; minutes := 30 |};
              DurationPicker.stepDuration := {| days := 0; hours := 0; minutes := 15 |};
              DurationPicker.maxDuration := {| days := 0; hours := 2; minutes := 0 |} |} in
  let d := {| days := 0; hours := 0; minutes := 45 |} in
  DurationPicker.handleDurationChange p true d = (d, None) \/
  DurationPicker.within_bounds p
    (fst (DurationPicker.handleDurationChange p true d)).
Proof.
  intros p d.
  destruct (handleDurationChange_bounds p true d) as [Hsame|(_ & Hin & _)].
  - vm_compute. discriminate.
  - left. exact Hsame.
  - right. exact Hin.
Defined.

(** X3. With a positive step, a click on a disabled button of the
    duration picker changes nothing: when plus is disabled the step up is
    refused, when minus is disabled the step down is refused. *)
Theorem disabled_duration_buttons_do_nothing (p : DurationPicker.Props)
    (d : Duration) :
  0 < Flexible_Duration.convertToMinutes (DurationPicker.stepDuration p) ->
  (DurationPicker.plusButtonEnabled p d = false ->
   DurationPicker.handleDurationChange p true d = (d, None)) /\
  (DurationPicker.minusButtonEnabled p d = false ->
   DurationPicker.handleDurationChange p false d = (d, None)).
Proof.
  intros Hstep.
  unfold DurationPicker.plusButtonEnabled, DurationPicker.minusButtonEnabled,
    DurationPicker.handleDurationChange.
  split.
  - intros [Hlt Hzero]%orb_false_elim.
    apply Z.ltb_ge in Hlt. cbv zeta. rewrite Hzero, orb_false_r.
    destruct (_ && _) eqn:Hok; [|done].
    apply andb_prop in Hok as [_ Hhi]. apply Z.leb_le in Hhi. lia.
  - intros Hlt. apply Z.ltb_ge in Hlt. cbv zeta.
    destruct (_ && _) eqn:Hok; [|done].
    apply andb_prop in Hok as [Hlo _]. apply Z.leb_le in Hlo. lia.
Qed.

Lemma disabled_duration_buttons_do_nothing_witness :
  let p := {| DurationPicker.minDuration := {| days := 0; hours := 0; minutes := 30 |};
              DurationPicker.stepDuration := {| days := 0; hours := 0; minutes := 15 |};
              DurationPicker.maxDuration := {| days := 0; hours := 2; minutes := 0 |} |} in
  let d := {| days := 0; hours := 2; minutes := 0 |} in
  DurationPicker.handleDurationChange p true d = (d, None).
Proof.
  intros p d.
  destruct (disabled_duration_buttons_do_nothing p d) as [Hplus _].
  - vm_compute. reflexivity.
  - apply Hplus. vm_compute. reflexivity.
Defined.

(** The converse fails: minus can be enabled while its click is refused
    (the total is above the minimum by less than a step). *)
Example enabled_minus_may_do_nothing :
  let p := {| DurationPicker.minDuration := {| days := 0; hours := 0; minutes := 30 |};
              DurationPicker.stepDuration := {| days := 0; hours := 1; minutes := 0 |};
              DurationPicker.maxDuration := {| days := 0; hours := 4; minutes := 0 |} |} in
  let d := {| days := 0; hours := 1; minutes := 0 |} in
  DurationPicker.minusButtonEnabled p d = true /\
  DurationPicker.handleDurationChange p false d = (d, None).
Proof. split; reflexivity. Qed.

(** X4. For a range that does not end before it starts,
    [calculateDuration] gives days that are not negative, hours below 24
    and minutes below 60, standing together for the whole minutes of the
    difference (the seconds and milliseconds are dropped). *)
Theorem calculateDuration_normal_form (diffMs : Z) :
  0 <= diffMs ->
  let d := Rental_Duration.calculateDuration diffMs in
  0 <= days d /\ 0 <= hours d < 24 /\ 0 <= minutes d < 60 /\
  (days d * 24 + hours d) * 60 + minutes d = diffMs / 60000.
Proof.
  intros Hd. unfold Rental_Duration.calculateDuration. simpl.
  change (1000 * 60) with 60000. set (tm := diffMs / 60000).
  assert (0 <= tm) by (apply Z.div_pos; lia).
  assert (0 <= tm / 60) by (apply Z.div_pos; lia).
  assert (0 <= tm / 60 / 24) by (apply Z.div_pos; lia).
  rewrite !Z.rem_mod_nonneg by lia.
  pose proof (Z.mod_pos_bound tm 60).
  pose proof (Z.mod_pos_bound (tm / 60) 24).
  pose proof (Z_div_mod_eq_full tm 60).
  pose proof (Z_div_mod_eq_full (tm / 60) 24).
  repeat split; lia.
Qed.

Lemma calculateDuration_normal_form_witness :
  let d := Rental_Duration.calculateDuration 93784000 in
  (days d * 24 + hours d) * 60 + minutes d = 1563.
Proof.
  intros d.
  apply (calculateDuration_normal_form 93784000). lia.
Defined.

(** ** The form inputs *)

Lemma isGuestField_labels (key : string) :
  isGuestField key = true <->
  key = "firstName" \/ key = "lastName" \/ key = "email".
Proof.
  unfold isGuestField. rewrite !orb_true_iff, !String.eqb_eq. tauto.
Qed.

(** X5. After an input under a label, the value of a field with that
    label is the value typed and the value of every field with another
    label is what it was. *)
Theorem handleInputChange_lookup (fv : FormView) (key : string)
    (value : FormValue) (field : CustomFormField) :
  fieldValue (fst (handleInputChange key value fv)) field
  = (if decide (labelText field = key) then value else fieldValue fv field).
Proof.
  unfold handleInputChange, fieldValue.
  destruct (isGuestField key) eqn:Hkey; simpl.
  - destruct (decide (labelText field = key)) as [->|Hne].
    + by rewrite Hkey, lookup_insert_eq.
    + destruct (isGuestField (labelText field)); [|done].
      by rewrite lookup_insert_ne.
  - destruct (decide (labelText field = key)) as [->|Hne].
    + by rewrite Hkey, lookup_insert_eq.
    + destruct (isGuestField (labelText field)); [done|].
      by rewrite lookup_insert_ne.
Qed.

Lemma handleInputChange_routed_facts (fv : FormView) (key : string)
    (value : FormValue) :
  routed fv ->
  let fv' := fst (handleInputChange key value fv) in
  let handed := snd (handleInputChange key value fv) in
  routed fv' /\
  handed !! key = Some value /\
  forall k, handed !! k = if isGuestField k then guestData fv' !! k
                          else fv_formData fv' !! k.
Proof.
  intros [Hguest Hform] fv' handed. subst fv' handed.
  unfold handleInputChange, routed.
  destruct (isGuestField key) eqn:Hkey; simpl.
  - split; [split|split].
    + intros k [v Hk]. destruct (decide (key = k)) as [<-|Hne]; [done|].
      rewrite lookup_insert_ne in Hk by done. apply Hguest. by eexists.
    + done.
    + by rewrite lookup_union_l', lookup_insert_eq
        by (rewrite lookup_insert_eq; by eexists).
    + intros k. destruct (isGuestField k) eqn:Hk.
      * destruct (fv_formData fv !! k) as [v|] eqn:Hv.
        { rewrite (Hform k) in Hk; [done|by eexists]. }
        by rewrite lookup_union_l.
      * destruct (<[key:=value]> (guestData fv) !! k) as [v|] eqn:Hv.
        { destruct (decide (key = k)) as [<-|Hne]; [congruence|].
          rewrite lookup_insert_ne in Hv by done.
          rewrite (Hguest k) in Hk; [done|by eexists]. }
        by rewrite lookup_union_r.
  - split; [split|split].
    + done.
    + intros k [v Hk]. destruct (decide (key = k)) as [<-|Hne]; [done|].
      rewrite lookup_insert_ne in Hk by done. apply Hform. by eexists.
    + destruct (guestData fv !! key) as [v|] eqn:Hv.
      { rewrite (Hguest key) in Hkey; [done|by eexists]. }
      by rewrite lookup_union_r, lookup_insert_eq.
    + intros k. destruct (isGuestField k) eqn:Hk.
      * destruct (<[key:=value]> (fv_formData fv) !! k) as [v|] eqn:Hv.
        { destruct (decide (key = k)) as [<-|Hne]; [congruence|].
          rewrite lookup_insert_ne in Hv by done.
          rewrite (Hform k) in Hk; [done|by eexists]. }
        by rewrite lookup_union_l.
      * destruct (guestData fv !! k) as [v|] eqn:Hv.
        { rewrite (Hguest k) in Hk; [done|by eexists]. }
        by rewrite lookup_union_r.
Qed.

(** X6. The form view keeps the guest labels (firstName, lastName, email)
    in [guestData] and every other label in [formData]: an input
    preserves this, and the object it hands to [onDataChange] is then the
    two dictionaries side by side, with the value typed under its
    label. *)
Theorem handleInputChange_routed (fv : FormView) (key : string)
    (value : FormValue) :
  routed fv ->
  let fv' := fst (handleInputChange key value fv) in
  let handed := snd (handleInputChange key value fv) in
  routed fv' /\
  handed !! key = Some value /\
  forall k, handed !! k = if isGuestField k then guestData fv' !! k
                          else fv_formData fv' !! k.
Proof. apply handleInputChange_routed_facts. Qed.

Lemma routed_empty_form (field : CustomFormField) (value : FormValue) :
  isGuestField (labelText field) = false ->
  routed (Examples.form_with field value).
Proof.
  intros Hlabel. split; simpl.
  - intros key [v Hv]. by rewrite lookup_empty in Hv.
  - intros key [v Hv]. apply lookup_singleton_Some in Hv as [<- _]. done.
Qed.

Lemma handleInputChange_routed_witness :
  snd (handleInputChange "email" (VString "ann@example.org")
         (Examples.form_with (Examples.required_field phone) (VString "555")))
    !! "email" = Some (VString "ann@example.org").
Proof.
  apply (handleInputChange_routed
           (Examples.form_with (Examples.required_field phone) (VString "555"))
           "email" (VString "ann@example.org")).
  apply routed_empty_form. reflexivity.
Defined.

(** ** The form data in the parent *)

Lemma withoutGuestKeys_lookup (data : gmap string FormValue) (k : string) :
  withoutGuestKeys data !! k = if isGuestField k then None else data !! k.
Proof.
  unfold withoutGuestKeys.
  destruct (isGuestField k) eqn:Hk.
  - apply isGuestField_labels in Hk as [->|[->| ->]].
    + rewrite lookup_delete_ne by done. by rewrite lookup_delete_eq.
    + by rewrite lookup_delete_eq.
    + rewrite !lookup_delete_ne by done. by rewrite lookup_delete_eq.
  - assert (k <> "firstName" /\ k <> "lastName" /\ k <> "email") as (?&?&?).
    { repeat split; intros ->; discriminate. }
    by rewrite !lookup_delete_ne by done.
Qed.



Lemma handed_data_without_guest_keys (fv : FormView) (key : string)
    (value : FormValue) :
  routed fv ->
  withoutGuestKeys (snd (handleInputChange key value fv))
  = fv_formData (fst (handleInputChange key value fv)).
Proof.
  intros Hrouted.
  destruct (handleInputChange_routed_facts fv key value Hrouted)
    as ([Hguest Hform] & _ & Hhanded).
  apply map_eq. intros k. rewrite withoutGuestKeys_lookup, Hhanded.
  destruct (isGuestField k) eqn:Hk; [|done].
  destruct (fv_formData _ !! k) as [v|] eqn:Hv; [|done].
  rewrite (Hform k) in Hk; [done|by eexists].
Qed.

(** X8. From the form to the request: when an input of a form view is
    handed to [handleFormDataChange], the booking request built from the
    resulting state carries as [metaData] exactly the custom-field values
    of the view (none at all when there are none), so never an entry
    under email, firstName or lastName; and it carries the client data
    exactly in guest mode.  This holds in both widgets. *)
Theorem request_metaData_is_custom_fields `{Host} (clientUUID : string)
    (fv : FormView) (key : string) (value : FormValue) :
  routed fv ->
  let custom := fv_formData (fst (handleInputChange key value fv)) in
  let handed := snd (handleInputChange key value fv) in
  (forall props selected s s' data,
     FlexibleView.handleFormDataChange clientUUID handed s = Some s' ->
     Flexible.bookingData props selected s' = inl data ->
     BookingRequest.metaData data
     = (if decide (custom = ∅) then None else Some custom) /\
     (forall m k, BookingRequest.metaData data = Some m ->
                  isGuestField k = true -> m !! k = None) /\
     BookingRequest.client data
     = (if Flexible.guestMode props then Some (Flexible.clientData s')
        else None)) /\
  (forall props selected start end_ s s' data,
     RentalView.handleFormDataChange clientUUID handed s = Some s' ->
     Rental.bookingData props selected start end_ s' = inl data ->
     BookingRequest.metaData data
     = (if decide (custom = ∅) then None else Some custom) /\
     (forall m k, BookingRequest.metaData data = Some m ->
                  isGuestField k = true -> m !! k = None) /\
     BookingRequest.client data
     = (if Rental.guestMode props then Some (Rental.clientData s')
        else None)).
Proof.
  intros Hrouted custom handed. subst custom handed.
  pose proof (handed_data_without_guest_keys fv key value Hrouted) as Hdata.
  destruct (handleInputChange_routed_facts fv key value Hrouted)
    as ([_ Hform] & _ & _).
  assert (Hnone : forall m k,
    (if decide (fv_formData (fst (handleInputChange key value fv)) = ∅)
     then None
     else Some (fv_formData (fst (handleInputChange key value fv)))) = Some m ->
    isGuestField k = true -> m !! k = None).
  { intros m k Hm Hk. destruct (decide _); [done|]. injection Hm as <-.
    destruct (fv_formData _ !! k) as [v|] eqn:Hv; [|done].
    rewrite (Hform k) in Hk; [done|by eexists]. }
  split.
  - intros props selected s s' data.
    unfold FlexibleView.handleFormDataChange.
    destruct (clientOf clientUUID _) as [client|]; [|done].
    intros [= <-]. unfold Flexible.bookingData.
    destruct (Date_getTime _); [|done]. intros [= <-]. simpl.
    rewrite Hdata. repeat split. apply Hnone.
  - intros props selected start end_ s s' data.
    unfold RentalView.handleFormDataChange.
    destruct (clientOf clientUUID _) as [client|]; [|done].
    intros [= <-]. unfold Rental.bookingData.
    destruct (Rental.convertToUTC _ _); [|done]. intros [= <-]. simpl.
    rewrite Hdata. repeat split. apply Hnone.
Qed.

Lemma request_metaData_is_custom_fields_witness :
  exists s' data,
    FlexibleView.handleFormDataChange "session-1"
      (snd (handleInputChange "email" (VString "ann@example.org")
              (Examples.form_with (Examples.required_field phone)
                 (VString "555"))))
      Examples.flexible_state = Some s' /\
    Flexible.bookingData (H := UtcHost.host) Examples.flexible_props
      {| timeSlot := Examples.slot "2024-06-01T09:00:00Z";
         resourceID := "room-a" |} s' = inl data /\
    BookingRequest.metaData data = Some {[ "contact" := VString "555" ]}.
Proof.
  eexists _, _. split; [reflexivity|]. split; [reflexivity|].
  destruct (request_metaData_is_custom_fields (H := UtcHost.host) "session-1"
              (Examples.form_with (Examples.required_field phone)
                 (VString "555"))
              "email" (VString "ann@example.org")) as [Hflexible _].
  { apply routed_empty_form. reflexivity. }
  destruct (Hflexible Examples.flexible_props
              {| timeSlot := Examples.slot "2024-06-01T09:00:00Z";
                 resourceID := "room-a" |}
              Examples.flexible_state _ _ eq_refl eq_refl) as (Hmeta & _).
  etransitivity; [exact Hmeta|]. vm_compute. reflexivity.
Defined.

(** ** The form step and the submitter *)

Section ValidateFormFacts.
Context `{Host}.

Lemma validateForm_invalid (fv : FormView) (field : CustomFormField) :
  field ∈ allFields fv ->
  is_Some (validateField field (fieldValue fv field)) ->
  isValid (fst (validateForm fv)) = false /\
  is_Some (formErrors (snd (validateForm fv)) !! labelText field).
Proof.
  intros Hin Herr. unfold validateForm.
  pose proof (validateForm_fold_reports fv (allFields fv) (∅, true)
                field Hin Herr) as Hrep.
  destruct (foldl (validateForm_step fv) (∅, true) (allFields fv))
    as [errs valid]. simpl in *. destruct Hrep. by split.
Qed.

Lemma validateForm_valid (fv : FormView) :
  (forall field, field ∈ allFields fv ->
     validateField field (fieldValue fv field) = None) ->
  validateForm fv = ({| isValid := true; errors := ∅ |}, setFormErrors ∅ fv).
Proof.
  intros Hall. unfold validateForm.
  by rewrite (validateForm_fold_valid fv _ _ Hall).
Qed.

End ValidateFormFacts.

(** X9. On the Form step (in both widgets) [proceedToNextStep] validates
    the mounted form first: when some field has an error it makes no
    request and only stores the validated view, whose [formErrors] hold
    an entry under the label of every field in error; when no field has
    an error it is [makeBooking] on the state with the errors cleared;
    and with no form mounted it does nothing. *)
Theorem form_step_gate `{Host} :
  (forall props s,
     Flexible.currentStep s = Flexible.Form ->
     (Flexible.formRef s = None ->
      Flexible.proceedToNextStep props s = Ret s) /\
     (forall fv, Flexible.formRef s = Some fv ->
        ((exists field, field ∈ allFields fv /\
            is_Some (validateField field (fieldValue fv field))) ->
         Flexible.proceedToNextStep props s
         = Ret (Flexible.set_formRef (Some (snd (validateForm fv))) s) /\
         forall field, field ∈ allFields fv ->
           is_Some (validateField field (fieldValue fv field)) ->
           is_Some (formErrors (snd (validateForm fv)) !! labelText field)) /\
        ((forall field, field ∈ allFields fv ->
            validateField field (fieldValue fv field) = None) ->
         Flexible.proceedToNextStep props s
         = Flexible.makeBooking props
             (Flexible.set_formRef (Some (setFormErrors ∅ fv)) s)))) /\
  (forall props s,
     Rental.currentStep s = Rental.Form ->
     (Rental.formRef s = None ->
      Rental.proceedToNextStep props s = Ret s) /\
     (forall fv, Rental.formRef s = Some fv ->
        ((exists field, field ∈ allFields fv /\
            is_Some (validateField field (fieldValue fv field))) ->
         Rental.proceedToNextStep props s
         = Ret (Rental.set_formRef (Some (snd (validateForm fv))) s) /\
         forall field, field ∈ allFields fv ->
           is_Some (validateField field (fieldValue fv field)) ->
           is_Some (formErrors (snd (validateForm fv)) !! labelText field)) /\
        ((forall field, field ∈ allFields fv ->
            validateField field (fieldValue fv field) = None) ->
         Rental.proceedToNextStep props s
         = Rental.makeBooking props
             (Rental.set_formRef (Some (setFormErrors ∅ fv)) s)))).
Proof.
  split; intros props s Hstep.
  - unfold Flexible.proceedToNextStep. rewrite Hstep.
    rewrite decide_False by done. rewrite decide_True by done.
    split; [by intros ->|]. intros fv ->. split.
    + intros (field & Hin & Herr).
      destruct (validateForm_invalid fv field Hin Herr) as [Hinvalid _].
      split; [|intros f Hf Hferr; by apply validateForm_invalid].
      destruct (validateForm fv) as [validation fv']. simpl in *.
      by rewrite Hinvalid.
    + intros Hall. by rewrite (validateForm_valid fv Hall).
  - unfold Rental.proceedToNextStep. rewrite Hstep.
    rewrite decide_False by done. rewrite decide_True by done.
    split; [by intros ->|]. intros fv ->. split.
    + intros (field & Hin & Herr).
      destruct (validateForm_invalid fv field Hin Herr) as [Hinvalid _].
      split; [|intros f Hf Hferr; by apply validateForm_invalid].
      destruct (validateForm fv) as [validation fv']. simpl in *.
      by rewrite Hinvalid.
    + intros Hall. by rewrite (validateForm_valid fv Hall).
Qed.

(** X10. Continue and back: from the selection step with a form to show,
    [proceedToNextStep] only moves to the Form step, and
    [proceedToPreviousStep] from there gives back the state exactly as it
    was; on any step other than Form [proceedToPreviousStep] changes
    nothing.  This holds in both widgets. *)
Theorem continue_then_back `{Host} :
  (forall props s,
     (Flexible.currentStep s = Flexible.Date ->
      Flexible.formsNeeded props = true ->
      exists s', Flexible.proceedToNextStep props s = Ret s' /\
                 Flexible.currentStep s' = Flexible.Form /\
                 Flexible.proceedToPreviousStep s' = s) /\
     (Flexible.currentStep s <> Flexible.Form ->
      Flexible.proceedToPreviousStep s = s)) /\
  (forall props s,
     (Rental.currentStep s = Rental.DateRange ->
      Rental.formsNeeded props = true ->
      exists s', Rental.proceedToNextStep props s = Ret s' /\
                 Rental.currentStep s' = Rental.Form /\
                 Rental.proceedToPreviousStep s' = s) /\
     (Rental.currentStep s <> Rental.Form ->
      Rental.proceedToPreviousStep s = s)).
Proof.
  split; intros props s; split.
  - intros Hstep Hforms. exists (Flexible.setCurrentStep Flexible.Form s).
    unfold Flexible.proceedToNextStep, Flexible.proceedToPreviousStep.
    rewrite Hforms, decide_True by done. repeat split.
    simpl. destruct s; simpl in *. by subst.
  - intros Hstep. unfold Flexible.proceedToPreviousStep.
    by rewrite decide_False.
  - intros Hstep Hforms. exists (Rental.setCurrentStep Rental.Form s).
    unfold Rental.proceedToNextStep, Rental.proceedToPreviousStep.
    rewrite Hforms, decide_True by done. repeat split.
    simpl. destruct s; simpl in *. by subst.
  - intros Hstep. unfold Rental.proceedToPreviousStep.
    by rewrite decide_False.
Qed.

Lemma form_step_gate_witness :
  let fv := Examples.form_with (Examples.required_field phone) (VString "abc") in
  calls (Examples.sdk_booking (inr "unused"))
    (Flexible.proceedToNextStep (H := UtcHost.host) Examples.flexible_props
       (MoreExamples.flexible_on_form fv)) = O.
Proof.
  intros fv.
  destruct (form_step_gate (H := UtcHost.host)) as [Hflexible _].
  destruct (Hflexible Examples.flexible_props (MoreExamples.flexible_on_form fv))
    as [_ Hform]; [reflexivity|].
  destruct (Hform fv) as [Hblocked _]; [reflexivity|].
  destruct Hblocked as [Hret _].
  - exists (Examples.required_field phone). split.
    + apply list_elem_of_singleton. reflexivity.
    + vm_compute. eexists. reflexivity.
  - rewrite Hret. reflexivity.
Defined.

Lemma continue_then_back_witness :
  exists s',
    Flexible.proceedToNextStep (H := UtcHost.host)
      MoreExamples.flexible_guest_props Examples.flexible_state = Ret s' /\
    Flexible.currentStep s' = Flexible.Form /\
    Flexible.proceedToPreviousStep s' = Examples.flexible_state.
Proof.
  destruct (continue_then_back (H := UtcHost.host)) as [Hflexible _].
  destruct (Hflexible MoreExamples.flexible_guest_props Examples.flexible_state)
    as [Hround _].
  apply Hround; reflexivity.
Defined.

(** X11. [makeBooking] (in both widgets) makes at most one request
    whatever the SDK answers; without a selection (in the rental widget
    also without a day or a time zone) it returns the state untouched;
    and with them it always ends with [submiting] false, whether the
    request resolved, was rejected or was never made. *)
Theorem makeBooking_settles `{Host} (sdk : Sdk) :
  (forall props s,
     (calls sdk (Flexible.makeBooking props s) <= 1)%nat /\
     (Flexible.selectedTime s = None ->
      Flexible.makeBooking props s = Ret s) /\
     (Flexible.selectedTime s <> None ->
      Flexible.submiting (run sdk (Flexible.makeBooking props s)) = false)) /\
  (forall props s,
     (calls sdk (Rental.makeBooking props s) <= 1)%nat /\
     (Rental.selectedSlot s = None \/
      Rental.startDate (Rental.dateRange s) = None \/
      Rental.endDate (Rental.dateRange s) = None \/
      Rental.serviceTimezone s = "" ->
      Rental.makeBooking props s = Ret s) /\
     (Rental.selectedSlot s <> None ->
      Rental.startDate (Rental.dateRange s) <> None ->
      Rental.endDate (Rental.dateRange s) <> None ->
      Rental.serviceTimezone s <> "" ->
      Rental.submiting (run sdk (Rental.makeBooking props s)) = false)).
Proof.
  split; intros props s.
  - unfold Flexible.makeBooking.
    destruct (Flexible.selectedTime s) as [selected|]; simpl.
    + destruct (Flexible.bookingData props selected _) as [data|err]; simpl.
      * destruct (sdk _ _); simpl; repeat split; (lia || done).
      * repeat split; [lia|done].
    + repeat split; [lia|done].
  - unfold Rental.makeBooking.
    destruct (Rental.selectedSlot s) as [selected|];
      [|repeat split; (simpl; lia) || done].
    destruct (Rental.startDate (Rental.dateRange s)) as [start|];
      [|repeat split; (simpl; lia) || done].
    destruct (Rental.endDate (Rental.dateRange s)) as [end_|];
      [|repeat split; (simpl; lia) || done].
    destruct (String.eqb_spec (Rental.serviceTimezone s) "") as [Htz|Htz].
    { repeat split; (simpl; lia) || done. }
    destruct (Rental.bookingData props selected _ _ _) as [data|err]; simpl.
    + destruct (sdk _ _); simpl;
        (repeat split; lia || done || (intros [?|[?|[?|?]]]; done)).
    + repeat split; lia || done || (intros [?|[?|[?|?]]]; done).
Qed.

Lemma makeBooking_settles_witness :
  Flexible.submiting
    (run (Examples.sdk_rejecting "Error: Network Error")
       (Flexible.makeBooking (H := UtcHost.host) Examples.flexible_props
          Examples.flexible_state)) = false.
Proof.
  destruct (makeBooking_settles (H := UtcHost.host)
              (Examples.sdk_rejecting "Error: Network Error"))
    as [Hflexible _].
  destruct (Hflexible Examples.flexible_props Examples.flexible_state)
    as (_ & _ & Hdone).
  apply Hdone. discriminate.
Defined.

(** X12. A failure before the request is caught like a failure of the
    request.  In the flexible widget a selected slot whose start time is
    not a valid date makes [toISOString] throw: no request is made and
    the error state holds "Failed to request booking: " and the
    RangeError; in the rental widget the same happens when the host does
    not know the service time zone.  The step is unchanged and
    [submiting] is false again. *)
Theorem makeBooking_fails_before_request `{Host} (sdk : Sdk) :
  (forall props s selected,
     Flexible.selectedTime s = Some selected ->
     Date_getTime (startTime (timeSlot selected)) = None ->
     let s' := run sdk (Flexible.makeBooking props s) in
     calls sdk (Flexible.makeBooking props s) = O /\
     Flexible.error s'
     = Some ("Failed to request booking: " +:+ invalid_time_error) /\
     Flexible.currentStep s' = Flexible.currentStep s /\
     Flexible.submiting s' = false) /\
  (forall props s selected start end_,
     Rental.selectedSlot s = Some selected ->
     Rental.startDate (Rental.dateRange s) = Some start ->
     Rental.endDate (Rental.dateRange s) = Some end_ ->
     Rental.serviceTimezone s <> "" ->
     Rental.convertToUTC
       (Rental.dateTime start (Rental.range_startTime (Rental.dateRange s)))
       (Rental.serviceTimezone s) = None ->
     let s' := run sdk (Rental.makeBooking props s) in
     calls sdk (Rental.makeBooking props s) = O /\
     Rental.error s'
     = Some ("Failed to request booking: "
             +:+ invalid_zone_error (Rental.serviceTimezone s)) /\
     Rental.currentStep s' = Rental.currentStep s /\
     Rental.submiting s' = false).
Proof.
  split.
  - intros props s selected Hsel Hstart s'. subst s'.
    unfold Flexible.makeBooking, Flexible.bookingData.
    rewrite Hsel, Hstart. by simpl.
  - intros props s selected start end_ Hsel Hs He Htz Hutc s'. subst s'.
    unfold Rental.makeBooking, Rental.bookingData.
    rewrite Hsel, Hs, He. simpl.
    destruct (String.eqb_spec (Rental.serviceTimezone s) ""); [done|].
    simpl. rewrite Hutc. by simpl.
Qed.

Lemma makeBooking_fails_before_request_witness :
  Flexible.error
    (run (Examples.sdk_booking (inl {| paymentURL := None; status := "confirmed" |}))
       (Flexible.makeBooking (H := UtcHost.host) Examples.flexible_props
          MoreExamples.flexible_unreadable_start))
  = Some "Failed to request booking: RangeError: Invalid time value".
Proof.
  destruct (makeBooking_fails_before_request (H := UtcHost.host)
              (Examples.sdk_booking
                 (inl {| paymentURL := None; status := "confirmed" |})))
    as [Hflexible _].
  destruct (Hflexible Examples.flexible_props
              MoreExamples.flexible_unreadable_start
              {| timeSlot := Examples.slot "tomorrow"; resourceID := "room-a" |})
    as (_ & Herror & _); [reflexivity | reflexivity |].
  exact Herror.
Defined.

(** ** The available dates *)

Section SortFacts.
Context {A : Type}.

(** Sorting with a comparator that is total and transitive as an order
    ("not after") leaves the array ordered by it. *)
Lemma sort_insert_ordered (cmp : A -> A -> option Z) (a : A) (l : list A) :
  (forall x y, goes_before cmp x y = false -> goes_before cmp y x = true) ->
  (forall x y z, goes_before cmp x y = true -> goes_before cmp y z = true ->
                 goes_before cmp x z = true) ->
  StronglySorted (fun x y => goes_before cmp x y = true) l ->
  StronglySorted (fun x y => goes_before cmp x y = true) (sort_insert cmp a l).
Proof.
  intros Htotal Htrans. induction l as [|b l IH]; intros Hs; simpl.
  - repeat constructor.
  - apply StronglySorted_cons in Hs as [Hb Hl].
    destruct (goes_before cmp a b) eqn:Hab.
    + apply StronglySorted_cons. split.
      * constructor; [done|].
        eapply Forall_impl; [exact Hb|]. intros y Hy; simpl in *. eauto.
      * by apply StronglySorted_cons.
    + apply StronglySorted_cons. split.
      * rewrite sort_insert_Permutation. constructor; [auto|done].
      * auto.
Qed.

Lemma Array_sort_ordered (cmp : A -> A -> option Z) (l : list A) :
  (forall x y, goes_before cmp x y = false -> goes_before cmp y x = true) ->
  (forall x y z, goes_before cmp x y = true -> goes_before cmp y z = true ->
                 goes_before cmp x z = true) ->
  StronglySorted (fun x y => goes_before cmp x y = true) (Array_sort cmp l).
Proof.
  intros Htotal Htrans. induction l as [|a l IH]; simpl; [constructor|].
  fold (Array_sort cmp l). by apply sort_insert_ordered.
Qed.

Lemma StronglySorted_NoDup_strict (R R' : A -> A -> Prop) (l : list A) :
  (forall x y, R x y -> x <> y -> R' x y) ->
  StronglySorted R l -> NoDup l -> StronglySorted R' l.
Proof.
  intros Hstrict. induction l as [|a l IH]; intros Hs Hnd; [constructor|].
  apply StronglySorted_cons in Hs as [Ha Hl].
  apply NoDup_cons in Hnd as [Hnotin Hnd].
  apply StronglySorted_cons. split; [|auto].
  apply Forall_forall. intros y Hy. apply Hstrict.
  - eapply Forall_forall in Ha; eauto.
  - intros ->. done.
Qed.

End SortFacts.

Lemma Set_elements_from (seen l : list string) :
  let result :=
    foldl (fun (seen : list string) x =>
             if decide (x ∈ seen) then seen else seen ++ [x]) seen l in
  (NoDup seen -> NoDup result) /\
  (forall x, x ∈ result <-> x ∈ seen \/ x ∈ l).
Proof.
  revert seen. induction l as [|a l IH]; intros seen; simpl.
  - split; [done|]. intros x. rewrite elem_of_nil. tauto.
  - destruct (decide (a ∈ seen)) as [Hin|Hnotin].
    + destruct (IH seen) as [Hnd Hmem]. split; [done|].
      intros x. rewrite Hmem, elem_of_cons.
      split; [tauto|]. intros [?|[->|?]]; tauto.
    + destruct (IH (seen ++ [a])) as [Hnd Hmem]. split.
      * intros Hseen. apply Hnd. apply NoDup_app. split; [done|].
        split; [|apply NoDup_singleton].
        intros x Hx ->%list_elem_of_singleton. done.
      * intros x. rewrite Hmem, elem_of_app, list_elem_of_singleton, elem_of_cons.
        tauto.
Qed.

Lemma Set_elements_NoDup (l : list string) : NoDup (Set_elements l).
Proof. apply (Set_elements_from [] l). constructor. Qed.

Lemma Set_elements_elem_of (l : list string) (x : string) :
  x ∈ Set_elements l <-> x ∈ l.
Proof.
  unfold Set_elements. rewrite (proj2 (Set_elements_from [] l)).
  rewrite elem_of_nil. tauto.
Qed.

Lemma goes_before_compareStrings (a b : string) :
  goes_before compareStrings a b = true <-> String.compare a b <> Gt.
Proof.
  unfold goes_before, compareStrings.
  destruct (String.compare a b); simpl; split; done.
Qed.

Lemma String_compare_not_Gt (a b : string) :
  String.compare a b <> Gt <-> a = b \/ String.compare a b = Lt.
Proof.
  destruct (String.compare a b) eqn:Hc.
  - apply String.compare_eq_iff in Hc. split; [auto|done].
  - split; [auto|done].
  - split; [done|]. intros [->|?]; [|done].
    pose proof (String.compare_antisym b b) as Hanti.
    rewrite Hc in Hanti. discriminate.
Qed.

Lemma String_compare_Lt_trans (a b c : string) :
  String.compare a b = Lt -> String.compare b c = Lt ->
  String.compare a c = Lt.
Proof.
  intros Hab Hbc.
  exact (@RelationClasses.StrictOrder_Transitive _ _
           OrdersEx.String_as_OT.lt_strorder a b c Hab Hbc).
Qed.

Lemma uniqueDates_facts (response : DatesResponse) :
  NoDup (uniqueDates response) /\
  StronglySorted (fun a b => String.compare a b = Lt) (uniqueDates response) /\
  (forall day, day ∈ uniqueDates response <->
     exists entry, entry ∈ dates response /\ day ∈ snd entry).
Proof.
  unfold uniqueDates.
  set (allDates := concat (map snd (dates response))).
  assert (Hnd : NoDup (Array_sort compareStrings (Set_elements allDates))).
  { rewrite Array_sort_Permutation. apply Set_elements_NoDup. }
  split; [done|]. split.
  - eapply StronglySorted_NoDup_strict; [| |exact Hnd].
    2:{ apply Array_sort_ordered.
        - intros x y. rewrite <- not_true_iff_false.
          rewrite !goes_before_compareStrings.
          rewrite (String.compare_antisym y x).
          destruct (String.compare x y); simpl; intros Hxy;
            [discriminate| |discriminate].
          destruct Hxy. discriminate.
        - intros x y z. rewrite !goes_before_compareStrings.
          rewrite !String_compare_not_Gt.
          intros [->|Hxy] [->|Hyz]; eauto using String_compare_Lt_trans. }
    intros x y Hxy Hne. simpl in Hxy.
    apply goes_before_compareStrings, String_compare_not_Gt in Hxy.
    by destruct Hxy.
  - intros day. rewrite Array_sort_Permutation, Set_elements_elem_of.
    unfold allDates. rewrite list_elem_of_In, in_concat. split.
    + intros (days & Hdays & Hday).
      apply in_map_iff in Hdays as (entry & <- & Hentry).
      exists entry. by rewrite !list_elem_of_In.
    + intros (entry & Hentry & Hday). exists (snd entry).
      apply list_elem_of_In in Hentry. apply list_elem_of_In in Hday.
      split; [|done].
      by apply in_map.
Qed.

(** X13. The dates kept from a dates response
    ([[...new Set(Object.values(response.dates).flat())].sort()]) are
    exactly the days listed under some key of the response, each once,
    in strictly ascending order of their strings. *)
Theorem uniqueDates_ascending_distinct (response : DatesResponse) :
  NoDup (uniqueDates response) /\
  StronglySorted (fun a b => String.compare a b = Lt) (uniqueDates response) /\
  (forall day, day ∈ uniqueDates response <->
     exists entry, entry ∈ dates response /\ day ∈ snd entry).
Proof. apply uniqueDates_facts. Qed.

(** X14. When the dates request resolves, [fetchAvailableDates] (in both
    widgets) leaves as available dates exactly the days of the response,
    without duplicates and ascending, and changes nothing else: the
    error, the step and the console are as before. *)
Theorem fetchAvailableDates_resolved `{Host} (sdk : Sdk)
    (response : DatesResponse) :
  (forall company service params,
     sdk _ (services_getDates company service params) = inl response) ->
  (forall props now s,
     calls sdk (Flexible.fetchAvailableDates props now s) <> O ->
     let s' := run sdk (Flexible.fetchAvailableDates props now s) in
     s' = Flexible.setAvailableDates (Flexible.availableDates s') s /\
     NoDup (Flexible.availableDates s') /\
     StronglySorted (fun a b => String.compare a b = Lt)
       (Flexible.availableDates s') /\
     (forall day, day ∈ Flexible.availableDates s' <->
        exists entry, entry ∈ dates response /\ day ∈ snd entry)) /\
  (forall props year month s,
     calls sdk (Rental.fetchAvailableDates props year month s) <> O ->
     let s' := run sdk (Rental.fetchAvailableDates props year month s) in
     s' = Rental.setAvailableDates (Rental.availableDates s') s /\
     NoDup (Rental.availableDates s') /\
     StronglySorted (fun a b => String.compare a b = Lt)
       (Rental.availableDates s') /\
     (forall day, day ∈ Rental.availableDates s' <->
        exists entry, entry ∈ dates response /\ day ∈ snd entry)).
Proof.
  intros Hsdk. split.
  - intros props now s Hcalls s'. subst s'. revert Hcalls.
    unfold Flexible.fetchAvailableDates.
    destruct (_ || _); [done|]. intros _. simpl. rewrite Hsdk. simpl.
    split; [done|]. apply uniqueDates_facts.
  - intros props year month s Hcalls s'. subst s'. revert Hcalls.
    unfold Rental.fetchAvailableDates.
    destruct (_ || _); [done|].
    destruct (Rental.convertToUTC _ _); [|done].
    destruct (Rental.convertToUTC _ _); [|done].
    intros _. simpl. rewrite Hsdk. simpl.
    split; [done|]. apply uniqueDates_facts.
Qed.

Lemma fetchAvailableDates_resolved_witness :
  "2024-06-02" ∈
    Flexible.availableDates
      (run (MoreExamples.sdk_dates MoreExamples.room_days)
         (Flexible.fetchAvailableDates (H := UtcHost.host)
            Examples.flexible_props Examples.june_1 Examples.flexible_state)).
Proof.
  destruct (fetchAvailableDates_resolved (H := UtcHost.host)
              (MoreExamples.sdk_dates MoreExamples.room_days)
              MoreExamples.room_days) as [Hflexible _].
  { intros company service params. reflexivity. }
  destruct (Hflexible Examples.flexible_props Examples.june_1
              Examples.flexible_state) as (_ & _ & _ & Hdays).
  { vm_compute. discriminate. }
  apply Hdays. exists ("room-b", ["2024-06-01"; "2024-06-02"]).
  split; [|simpl]; apply list_elem_of_further, list_elem_of_here.
Defined.

Lemma rejected_dates_empty `{Host} (sdk : Sdk) :
  (forall company service params,
     exists err, sdk _ (services_getDates company service params) = inr err) ->
  (forall props now s,
     Flexible.availableDates
       (run sdk (Flexible.fetchAvailableDates props now s)) = []) /\
  (forall props year month s,
     Rental.availableDates
       (run sdk (Rental.fetchAvailableDates props year month s)) = []).
Proof.
  intros Hsdk. split.
  - intros props now s. unfold Flexible.fetchAvailableDates.
    destruct (_ || _); [done|]. simpl.
    match goal with |- context [sdk _ (services_getDates ?c ?v ?p)] =>
      destruct (Hsdk c v p) as [err ->] end. done.
  - intros props year month s. unfold Rental.fetchAvailableDates.
    destruct (_ || _); [done|].
    destruct (Rental.convertToUTC _ _); [|done].
    destruct (Rental.convertToUTC _ _); [|done]. simpl.
    match goal with |- context [sdk _ (services_getDates ?c ?v ?p)] =>
      destruct (Hsdk c v p) as [err ->] end. done.
Qed.

(** X15. After a dates fetch against an SDK that rejects the dates
    request, the two calendars differ.  The date strip of the flexible
    widget takes the empty list for "no restriction": every day is
    available.  The range picker of the rental widget has no available
    day, and a click on any day changes neither the selection mode nor
    the range. *)
Theorem calendars_after_rejected_dates `{Host} (sdk : Sdk) :
  (forall company service params,
     exists err, sdk _ (services_getDates company service params) = inr err) ->
  (forall props now s date,
     DatePicker.isDateAvailable
       (Flexible.availableDates
          (run sdk (Flexible.fetchAvailableDates props now s))) date = true) /\
  (forall props year month s date picker,
     let availableDates :=
       Rental.availableDates
         (run sdk (Rental.fetchAvailableDates props year month s)) in
     RentalView.isDateAvailable availableDates date = false /\
     RentalView.handleDateClick availableDates date picker = picker).
Proof.
  intros Hsdk. destruct (rejected_dates_empty sdk Hsdk) as [Hflexible Hrental].
  split.
  - intros props now s date. by rewrite Hflexible.
  - intros props year month s date [mode range] availableDates.
    subst availableDates. rewrite Hrental.
    unfold RentalView.handleDateClick, RentalView.isDateAvailable.
    rewrite bool_decide_eq_false_2 by apply not_elem_of_nil. done.
Qed.

Lemma calendars_after_rejected_dates_witness :
  DatePicker.isDateAvailable (H := UtcHost.host)
    (Flexible.availableDates
       (run (Examples.sdk_rejecting "Error: Network Error")
          (Flexible.fetchAvailableDates (H := UtcHost.host)
             Examples.flexible_props Examples.june_1
             Examples.flexible_state)))
    Examples.june_3 = true.
Proof.
  destruct (calendars_after_rejected_dates (H := UtcHost.host)
              (Examples.sdk_rejecting "Error: Network Error"))
    as [Hflexible _].
  { intros company service params. eexists. reflexivity. }
  apply Hflexible.
Defined.

(** ** The range picker and the button of the rental widget *)

Section RangePicker.
Context `{Host}.

Import Rental RentalView.

Lemma pickerStep_shape (picker : StartOrEnd * DateRangeT) (event : PickerEvent) :
  picker_shape picker -> picker_shape (pickerStep picker event).
Proof.
  destruct picker as [mode range]. destruct event as [availableDates date|type time].
  - unfold pickerStep, handleDateClick.
    destruct (negb _); [done|]. intros Hshape.
    destruct mode; [by split; simpl; eauto|].
    destruct Hshape as [[start Hstart] Hend]. simpl in Hstart, Hend.
    rewrite Hstart. destruct (Z.ltb_spec date start).
    + by split; simpl; eauto.
    + right. exists start, date. simpl. repeat split; (done || lia).
  - unfold pickerStep, picker_shape. by destruct mode, type.
Qed.

Lemma picker_shape_ordered (picker : StartOrEnd * DateRangeT) :
  picker_shape picker -> ordered_range (snd picker).
Proof.
  unfold picker_shape, ordered_range. destruct (fst picker).
  - intros [[_ ->]|(start & end_ & Hs & -> & Hle)]; [done|eauto].
  - by intros [_ ->].
Qed.

End RangePicker.

(** X16. Whatever days the user clicks and times the user changes,
    starting from the initial empty range, a range with an end day
    always has a start day that is not after it; while the picker waits
    for the end day, the range has a start day and no end day; and
    otherwise the range is empty or complete. *)
Theorem picker_keeps_range_ordered `{Host} (events : list RentalView.PickerEvent) :
  let picker :=
    foldl RentalView.pickerStep
      (RentalView.at_start, RentalView.initialDateRange) events in
  RentalView.ordered_range (snd picker) /\
  match fst picker with
  | RentalView.at_end =>
      is_Some (Rental.startDate (snd picker)) /\
      Rental.endDate (snd picker) = None
  | RentalView.at_start =>
      is_Some (Rental.startDate (snd picker))
      <-> is_Some (Rental.endDate (snd picker))
  end.
Proof.
  intros picker.
  assert (Hshape : RentalView.picker_shape picker).
  { subst picker.
    assert (Hinit : RentalView.picker_shape
                      (RentalView.at_start, RentalView.initialDateRange))
      by (left; done).
    revert Hinit.
    generalize (RentalView.at_start, RentalView.initialDateRange).
    induction events as [|event events IH]; intros picker Hpicker; [done|].
    simpl. apply IH. by apply pickerStep_shape. }
  split; [by apply picker_shape_ordered|].
  revert Hshape. unfold RentalView.picker_shape. destruct (fst picker); [|done].
  intros [[-> ->]|(start & end_ & -> & -> & _)].
  - split; intros [? ?]; done.
  - split; eauto.
Qed.

(** X17. A click on an available day while the picker expects a start
    day makes that day the start, drops the end day and keeps both times
    of day; the effect on the new range then clears the selected slot
    without asking the SDK. *)
Theorem new_start_clears_selection `{Host} (props : Rental.Props)
    (sdk : Sdk) (availableDates : list string) (date : Z) (s : Rental.State) :
  RentalView.isDateAvailable availableDates date = true ->
  let picker :=
    RentalView.handleDateClick availableDates date
      (RentalView.at_start, Rental.dateRange s) in
  let s' := RentalView.setDateRange (snd picker) s in
  fst picker = RentalView.at_end /\
  Rental.startDate (snd picker) = Some date /\
  Rental.endDate (snd picker) = None /\
  Rental.range_startTime (snd picker)
  = Rental.range_startTime (Rental.dateRange s) /\
  Rental.range_endTime (snd picker)
  = Rental.range_endTime (Rental.dateRange s) /\
  calls sdk (RentalView.slotEffect props s') = O /\
  Rental.selectedSlot (run sdk (RentalView.slotEffect props s')) = None.
Proof.
  intros Havailable picker s'. subst s' picker.
  unfold RentalView.handleDateClick. rewrite Havailable. simpl.
  repeat split; done.
Qed.

Lemma new_start_clears_selection_witness :
  Rental.selectedSlot
    (run (Examples.sdk_times Examples.two_rooms)
       (RentalView.slotEffect (H := UtcHost.host) Examples.rental_props
          (RentalView.setDateRange
             (snd (RentalView.handleDateClick (H := UtcHost.host)
                     ["2024-06-03"] Examples.june_3
                     (RentalView.at_start,
                      Rental.dateRange Examples.rental_selected)))
             Examples.rental_selected))) = None.
Proof.
  eapply (new_start_clears_selection (H := UtcHost.host)).
  vm_compute. reflexivity.
Defined.

(** X18. The duration check of the slot effect is implied by
    [checkSlotAvailability]: on every state the effect is
    [checkSlotAvailability] itself, which clears the selection without a
    request where the effect would. *)
Theorem slotEffect_is_checkSlotAvailability `{Host} (props : Rental.Props)
    (s : Rental.State) :
  RentalView.slotEffect props s = Rental.checkSlotAvailability props s.
Proof.
  unfold RentalView.slotEffect, Rental.isDurationValid,
    Rental.checkSlotAvailability, Rental.below_24h.
  destruct (Rental.startDate _) as [start|]; [|done].
  destruct (Rental.endDate _) as [end_|]; [|done].
  destruct (Qle_bool _ _); simpl; [done|].
  by destruct (_ || _).
Qed.

(** X19. A click on an enabled button on the selection step is never
    lost.  In the flexible widget it opens the form, or makes exactly one
    booking request, or sets the error to the start time's RangeError;
    in the rental widget, given a service time zone, it opens the form,
    or makes exactly one booking request, or sets the error to the
    zone's RangeError. *)
Theorem enabled_button_acts `{Host} (sdk : Sdk) :
  (forall props isAuthorized showTerms termsAccepted s,
     Flexible.currentStep s = Flexible.Date ->
     FlexibleView.bookButtonEnabled props isAuthorized showTerms
       termsAccepted s = true ->
     let next := Flexible.proceedToNextStep props s in
     (Flexible.formsNeeded props = true /\
      next = Ret (Flexible.setCurrentStep Flexible.Form s)) \/
     (Flexible.formsNeeded props = false /\
      (calls sdk next = 1%nat \/
       calls sdk next = O /\
       Flexible.error (run sdk next)
       = Some ("Failed to request booking: " +:+ invalid_time_error)))) /\
  (forall props isAuthorized s,
     Rental.currentStep s = Rental.DateRange ->
     Rental.serviceTimezone s <> "" ->
     RentalView.isButtonEnabled props isAuthorized s = true ->
     let next := Rental.proceedToNextStep props s in
     (Rental.formsNeeded props = true /\
      next = Ret (Rental.setCurrentStep Rental.Form s)) \/
     (Rental.formsNeeded props = false /\
      (calls sdk next = 1%nat \/
       calls sdk next = O /\
       Rental.error (run sdk next)
       = Some ("Failed to request booking: "
               +:+ invalid_zone_error (Rental.serviceTimezone s))))).
Proof.
  split.
  - intros props isAuthorized showTerms termsAccepted s Hstep Henabled next.
    subst next. unfold Flexible.proceedToNextStep.
    rewrite decide_True by done.
    destruct (Flexible.formsNeeded props); [by left|right]. split; [done|].
    unfold FlexibleView.bookButtonEnabled in Henabled.
    rewrite Hstep in Henabled.
    rewrite (bool_decide_eq_true_2 (Flexible.Date = Flexible.Date)) in Henabled
      by done.
    simpl in Henabled.
    apply andb_prop in Henabled as [Henabled _].
    apply andb_prop in Henabled as [_ Hselected].
    apply bool_decide_eq_true in Hselected.
    unfold Flexible.makeBooking, Flexible.bookingData.
    destruct (Flexible.selectedTime s) as [selected|]; [|done].
    destruct (Date_getTime _); simpl.
    + left. by destruct (sdk _ _).
    + right. done.
  - intros props isAuthorized s Hstep Htz Henabled next.
    subst next. unfold Rental.proceedToNextStep.
    rewrite decide_True by done.
    destruct (Rental.formsNeeded props); [by left|right]. split; [done|].
    unfold RentalView.isButtonEnabled in Henabled.
    destruct (Rental.submiting s); [done|].
    rewrite decide_True in Henabled by done.
    apply andb_prop in Henabled as [Henabled _].
    apply andb_prop in Henabled as [Hvalid Hselected].
    apply bool_decide_eq_true in Hselected.
    unfold Rental.isDurationValid in Hvalid.
    unfold Rental.makeBooking, Rental.bookingData.
    destruct (Rental.selectedSlot s) as [selected|]; [|done].
    destruct (Rental.startDate _) as [start|]; [|done].
    destruct (Rental.endDate _) as [end_|]; [|done].
    destruct (String.eqb_spec (Rental.serviceTimezone s) ""); [done|].
    simpl. destruct (Rental.convertToUTC _ _); simpl.
    + left. by destruct (sdk _ _).
    + right. done.
Qed.

Lemma enabled_button_acts_witness :
  calls (Examples.sdk_rejecting "Error: Network Error")
    (Flexible.proceedToNextStep (H := UtcHost.host) Examples.flexible_props
       Examples.flexible_state) = 1%nat.
Proof.
  destruct (enabled_button_acts (H := UtcHost.host)
              (Examples.sdk_rejecting "Error: Network Error"))
    as [Hflexible _].
  destruct (Hflexible Examples.flexible_props true false false
              Examples.flexible_state) as [[Hforms _]|[_ [Hcall|[_ Herror]]]];
    [reflexivity | reflexivity | discriminate Hforms | exact Hcall
    | discriminate Herror].
Defined.

(** ** The times of a day in the flexible widget *)

(** X20. Once [onDateChange] has asked for the times of a day, it
    settles with the loading flag off and no time selected, whatever the
    answer.  A resolved request replaces the time slots by
    [formatSlots] of the response and leaves no error; a rejected one
    sets the error to "Failed to load times: " and the reason, and keeps
    the time slots of the day shown before.  The step and the available
    dates are untouched. *)
Theorem onDateChange_settled `{Host} (sdk : Sdk)
    (settled : TimesResponse + string) :
  (forall company service params,
     sdk _ (services_getTimes company service params) = settled) ->
  forall props localTime timeZone date s,
    let handler := FlexibleView.onDateChange props localTime timeZone date s in
    calls sdk handler <> O ->
    let s' := fst (run sdk handler) in
    calls sdk handler = 1%nat /\
    snd (run sdk handler) = None /\
    Flexible.loading s' = false /\
    Flexible.selectedTime s' = None /\
    match settled with
    | inl response =>
        Flexible.timeSlots s' = formatSlots response /\
        Flexible.error s' = None
    | inr err =>
        Flexible.timeSlots s' = Flexible.timeSlots s /\
        Flexible.error s' = Some ("Failed to load times: " +:+ err)
    end /\
    Flexible.currentStep s' = Flexible.currentStep s /\
    Flexible.availableDates s' = Flexible.availableDates s.
Proof.
  intros Hsdk props localTime timeZone date s handler Hcalls s'.
  subst s' handler. revert Hcalls. unfold FlexibleView.onDateChange.
  destruct (_ || _); [done|].
  destruct (FlexibleView.timesWindow _ _ _ _) as [[from to]|thrown]; [|done].
  intros _. simpl. rewrite Hsdk. by destruct settled.
Qed.

Lemma onDateChange_settled_witness :
  Flexible.error
    (fst (run (Examples.sdk_rejecting "Error: Network Error")
            (FlexibleView.onDateChange (H := UtcHost.host)
               Examples.flexible_props false "UTC" Examples.june_1
               Examples.flexible_state)))
  = Some "Failed to load times: Error: Network Error".
Proof.
  destruct (onDateChange_settled (H := UtcHost.host)
              (Examples.sdk_rejecting "Error: Network Error")
              (inr "Error: Network Error")
              ltac:(reflexivity)
              Examples.flexible_props false "UTC" Examples.june_1
              Examples.flexible_state)
    as (_ & _ & _ & _ & [_ Herror] & _).
  - vm_compute. discriminate.
  - exact Herror.
Defined.

(** X21. With [localTime] on and a time zone the host does not know,
    [getTimezoneOffset] throws before the [try] of [onDateChange]: no
    request is made, the handler's promise rejects with the RangeError,
    the time selection is already cleared, and the loading flag, set at
    the start, is never reset. *)
Theorem onDateChange_unknown_zone `{Host} (sdk : Sdk) (props : Flexible.Props)
    (timeZone : string) (date : Z) (s : Flexible.State) :
  Flexible.bkla_companyID props <> "" ->
  Flexible.serviceID props <> "" ->
  Flexible.serviceLoaded s = true ->
  (forall t, Date_wallClock timeZone t = None) ->
  let handler := FlexibleView.onDateChange props true timeZone date s in
  calls sdk handler = O /\
  snd (run sdk handler) = Some (invalid_zone_error timeZone) /\
  Flexible.loading (fst (run sdk handler)) = true /\
  Flexible.selectedTime (fst (run sdk handler)) = None /\
  Flexible.error (fst (run sdk handler)) = None /\
  Flexible.timeSlots (fst (run sdk handler)) = Flexible.timeSlots s.
Proof.
  intros Hcompany Hservice Hloaded Hzone handler. subst handler.
  unfold FlexibleView.onDateChange.
  destruct (String.eqb_spec (Flexible.bkla_companyID props) ""); [done|].
  destruct (String.eqb_spec (Flexible.serviceID props) ""); [done|].
  rewrite Hloaded. simpl.
  unfold FlexibleView.timesWindow, FlexibleView.getTimezoneOffset.
  rewrite Hzone. by destruct (Date_wallClock "UTC" _).
Qed.

Lemma onDateChange_unknown_zone_witness :
  Flexible.loading
    (fst (run (Examples.sdk_times Examples.two_rooms)
            (FlexibleView.onDateChange (H := UtcHost.host)
               Examples.flexible_props true "Mars/Olympus" Examples.june_1
               Examples.flexible_state))) = true.
Proof.
  apply (onDateChange_unknown_zone (H := UtcHost.host)
           (Examples.sdk_times Examples.two_rooms) Examples.flexible_props
           "Mars/Olympus" Examples.june_1 Examples.flexible_state);
    [discriminate | discriminate | reflexivity | reflexivity].
Defined.

(** ** The date strip and the next available date *)

(** The arrows of the date strip move it by one day less than it
    shows: the next page starts at the last offset of the current one,
    the previous page ends at its first, the two arrows undo each other,
    and neither touches the selected date. *)
Lemma strip_pages_overlap (s : DatePicker.State) :
  DatePicker.startOffset (DatePicker.handleNext s)
  = DatePicker.startOffset s + DatePicker.visibleCount s - 1 /\
  DatePicker.startOffset (DatePicker.handlePrevious s)
  + DatePicker.visibleCount (DatePicker.handlePrevious s) - 1
  = DatePicker.startOffset s /\
  DatePicker.handlePrevious (DatePicker.handleNext s) = s /\
  DatePicker.handleNext (DatePicker.handlePrevious s) = s /\
  DatePicker.selectedDate (DatePicker.handleNext s)
  = DatePicker.selectedDate s /\
  DatePicker.selectedDate (DatePicker.handlePrevious s)
  = DatePicker.selectedDate s.
Proof.
  destruct s as [selected offset count].
  unfold DatePicker.handleNext, DatePicker.handlePrevious. simpl.
  repeat split; try lia; f_equal; lia.
Qed.

Lemma laterDates_elem_of `{Host} (availableDates : list string)
    (current m : Z) :
  m ∈ TimePicker.laterDates availableDates current <->
  exists day t, day ∈ availableDates /\ Date_getTime day = Some t /\
                m = Date_setHours t 0 0 0 0 /\ current < m.
Proof.
  unfold TimePicker.laterDates. rewrite list_elem_of_omap. split.
  - intros (day & Hday & Hsome).
    destruct (Date_getTime day) as [t|] eqn:Ht; [|done].
    destruct (Z.ltb_spec current (Date_setHours t 0 0 0 0)); [|done].
    injection Hsome as <-. eauto 6.
  - intros (day & t & Hday & Ht & -> & Hlt). exists day. split; [done|].
    rewrite Ht. destruct (Z.ltb_spec current (Date_setHours t 0 0 0 0)); [done|lia].
Qed.

(** X23. [getNextAvailableDate] answers with the local midnight of an
    available date that lies after the midnight of the selected day, and
    with the earliest such; it answers with nothing exactly when no
    available date can be read as a day after the selected one (in
    particular without a selected date or available dates). *)
Theorem getNextAvailableDate_earliest `{Host}
    (availableDates : list string) (selected : Z) :
  let current := Date_setHours selected 0 0 0 0 in
  let candidate (m : Z) :=
    exists day t, day ∈ availableDates /\ Date_getTime day = Some t /\
                  m = Date_setHours t 0 0 0 0 /\ current < m in
  match TimePicker.getNextAvailableDate (Some availableDates) (Some selected) with
  | Some next => candidate next /\ forall m, candidate m -> next <= m
  | None => forall m, ~ candidate m
  end.
Proof.
  intros current candidate.
  assert (Hcandidate : forall m,
            candidate m <-> m ∈ TimePicker.laterDates availableDates current).
  { intros m. symmetry. apply laterDates_elem_of. }
  unfold TimePicker.getNextAvailableDate.
  destruct availableDates as [|d ds].
  { intros m (day & t & Hday & _). by apply elem_of_nil in Hday. }
  fold current.
  set (later := TimePicker.laterDates (d :: ds) current) in *.
  pose proof (Array_sort_Permutation (fun a b => Some (a - b)) later) as Hperm.
  pose proof (Array_sort_sorted (fun a b => Some (a - b)) (fun a => a) later
                ltac:(done)) as Hsorted.
  destruct (Array_sort _ later) as [|first rest].
  - intros m Hm. apply Hcandidate in Hm. rewrite <- Hperm in Hm.
    by apply elem_of_nil in Hm.
  - split.
    + apply Hcandidate. rewrite <- Hperm. apply list_elem_of_here.
    + intros m Hm. apply Hcandidate in Hm. rewrite <- Hperm in Hm.
      apply StronglySorted_cons in Hsorted as [Hfirst _].
      apply elem_of_cons in Hm as [->|Hm]; [lia|].
      by eapply Forall_forall in Hfirst.
Qed.

(** X24. Of several routes registered with the same path, [getRouteId]
    answers with the key of the first: the routes before it do not have
    the path, and the ones after it do not matter. *)
Theorem getRouteId_first_match (before after : Routes) (key path : string) :
  (forall route, route ∈ before -> snd route <> Some path) ->
  getRouteId (before ++ (key, Some path) :: after) path = key.
Proof.
  induction before as [|[k p] before IH]; intros Hbefore; simpl.
  - by rewrite decide_True.
  - rewrite decide_False.
    + apply IH. intros route Hroute. apply Hbefore.
      by apply list_elem_of_further.
    + apply (Hbefore (k, p)). apply list_elem_of_here.
Qed.

Lemma getRouteId_first_match_witness :
  getRouteId
    ([("home", Some "/"); ("draft", None)]
     ++ ("thanks", Some "/thanks") :: [("thanks-old", Some "/thanks")])
    "/thanks" = "thanks".
Proof.
  apply getRouteId_first_match.
  intros route Hroute.
  apply elem_of_cons in Hroute as [->|Hroute]; [discriminate|].
  apply list_elem_of_singleton in Hroute as ->. discriminate.
Defined.

Example getNextAvailableDate_skips_to_next_day :
  TimePicker.getNextAvailableDate (H := MoreExamples.date_host)
    (Some ["2024-06-03"; "2024-06-01"; "soon"; "2024-06-02"])
    (Some MoreExamples.june_1_noon)
  = Some MoreExamples.june_2.
Proof. vm_compute. reflexivity. Qed.

(** X25. The date the flexible widget starts with: without a
    configured date it is the current time; a configured date that can
    be read is taken as it is when it is not before the current time,
    and replaced by the current time when it is earlier; a configured
    date that cannot be read gives an invalid date.  So a valid
    starting date is never in the past, and it is the current time only
    when no later date is configured. *)
Theorem preselectedDate_not_past `{Host} (selectedDate : option string)
    (now : Z) :
  let chosen := FlexibleView.preselectedDate selectedDate now in
  (selectedDate = None -> chosen = Some now) /\
  (forall given presDate,
     selectedDate = Some given -> Date_getTime given = Some presDate ->
     (now <= presDate -> chosen = Some presDate) /\
     (presDate < now -> chosen = Some now)) /\
  (forall given,
     selectedDate = Some given -> Date_getTime given = None ->
     chosen = None) /\
  (forall date, chosen = Some date -> now <= date).
Proof.
  intros chosen. subst chosen. unfold FlexibleView.preselectedDate.
  split; [by intros ->|]. split; [|split].
  - intros given presDate -> ->.
    destruct (Z.ltb_spec presDate now); split; intros; (done || lia).
  - by intros given -> ->.
  - intros date. destruct selectedDate as [given|].
    + destruct (Date_getTime given) as [presDate|]; [|done].
      destruct (Z.ltb_spec presDate now); intros [= <-]; lia.
    + intros [= <-]. lia.
Qed.

Lemma preselectedDate_not_past_witness :
  FlexibleView.preselectedDate (H := MoreExamples.date_host) (Some "2024-06-03")
    Examples.june_1 = Some Examples.june_3 /\
  FlexibleView.preselectedDate (H := MoreExamples.date_host) (Some "2024-06-01")
    Examples.june_3 = Some Examples.june_3.
Proof.
  split.
  - destruct (preselectedDate_not_past (H := MoreExamples.date_host)
                (Some "2024-06-03") Examples.june_1) as (_ & Hread & _).
    destruct (Hread "2024-06-03" Examples.june_3) as [Hkept _];
      [reflexivity | vm_compute; reflexivity |].
    apply Hkept. vm_compute. discriminate.
  - destruct (preselectedDate_not_past (H := MoreExamples.date_host)
                (Some "2024-06-01") Examples.june_3) as (_ & Hread & _).
    destruct (Hread "2024-06-01" Examples.june_1) as [_ Hnow];
      [reflexivity | vm_compute; reflexivity |].
    apply Hnow. vm_compute. reflexivity.
Defined.

(** ** The villa widget *)

(** X26. [fetchAvailability] of the villa widget has no guard: it always
    makes exactly one dates request, even with empty ids, and always ends
    with the loading flag off.  A resolved request stores the sorted
    distinct days of the response and leaves no error; a rejected one
    sets the error to the configured availability text (the reason only
    reaches the console) and keeps the available dates it had. *)
Theorem villa_fetchAvailability_settles `{Host} (sdk : Sdk)
    (settled : DatesResponse + string) :
  (forall company service params,
     sdk _ (services_getDates company service params) = settled) ->
  forall props anchor months s,
    let s' := run sdk (Villa.fetchAvailability props anchor months s) in
    calls sdk (Villa.fetchAvailability props anchor months s) = 1%nat /\
    Villa.loading s' = false /\
    Villa.step s' = Villa.step s /\
    match settled with
    | inl res =>
        Villa.availableDates s' = uniqueDates res /\ Villa.error s' = None
    | inr e =>
        Villa.availableDates s' = Villa.availableDates s /\
        Villa.error s' = Some (Villa.availabilityError (Villa.texts props)) /\
        Villa.console s' = Villa.console s ++ [e]
    end.
Proof.
  intros Hsdk props anchor months s s'. subst s'.
  unfold Villa.fetchAvailability. simpl. rewrite Hsdk.
  by destruct settled.
Qed.

Lemma villa_fetchAvailability_settles_witness :
  Villa.availableDates
    (run (Examples.sdk_rejecting "Error: Network Error")
       (Villa.fetchAvailability (H := UtcHost.host) MoreExamples.villa_props
          Examples.june_1 3
          (Villa.setAvailableDates ["2024-06-01"] MoreExamples.villa_state)))
  = ["2024-06-01"].
Proof.
  destruct (villa_fetchAvailability_settles (H := UtcHost.host)
              (Examples.sdk_rejecting "Error: Network Error")
              (inr "Error: Network Error") ltac:(reflexivity)
              MoreExamples.villa_props Examples.june_1 3
              (Villa.setAvailableDates ["2024-06-01"] MoreExamples.villa_state))
    as (_ & _ & _ & Hdates & _).
  exact Hdates.
Defined.

(** A branch of [onBook] that returns without a request: some condition
    of the request fails. *)
Ltac villa_refused :=
  simpl; split;
  [ split;
    [ discriminate
    | intros (Hstart & Hboundary & Hfirst & Hlast & Hemail & Hslot & Hterms);
      first [ by destruct Hstart | by destruct Hboundary
            | by destruct Hfirst | by destruct Hlast | by destruct Hemail
            | by (subst; simpl in Hslot)
            | by specialize (Hterms eq_refl) ] ]
  | split;
    [ lia
    | intros _ Hstart Hboundary;
      first [ by destruct Hstart | by destruct Hboundary | by eexists ] ] ].

(** X27. [onBook] of the villa widget makes a booking request exactly
    when a start day and an end boundary are chosen, no required name or
    email is empty, a slot start has been found and the terms, when
    shown, are accepted; it never makes more than one.  When it refuses
    with the days chosen, it only sets the error. *)
Theorem villa_onBook_requests_iff `{Host} (sdk : Sdk) (props : Villa.Props)
    (s : Villa.State) :
  (calls sdk (Villa.onBook props s) = 1%nat <->
   is_Some (Villa.startDate s) /\ is_Some (Villa.endBoundary props s) /\
   (Villa.formTexts_firstNameRequired props = true ->
    Villa.firstName (Villa.client s) <> "") /\
   (Villa.formTexts_lastNameRequired props = true ->
    Villa.lastName (Villa.client s) <> "") /\
   (Villa.formTexts_emailRequired props = true ->
    Villa.email (Villa.client s) <> "") /\
   Villa.nonempty (Villa.slotStartISO s) = true /\
   (Villa.showTerms props = true -> Villa.termsAccepted s = true)) /\
  (calls sdk (Villa.onBook props s) <= 1)%nat /\
  (calls sdk (Villa.onBook props s) = O ->
   is_Some (Villa.startDate s) -> is_Some (Villa.endBoundary props s) ->
   exists message,
     Villa.onBook props s = Ret (Villa.setError (Some message) s)).
Proof.
  unfold Villa.onBook.
  destruct (Villa.startDate s) as [start|]; [|villa_refused].
  destruct (Villa.endBoundary props s) as [boundary|]; [|villa_refused].
  destruct (Villa.formTexts_firstNameRequired props);
    destruct (String.eqb_spec (Villa.firstName (Villa.client s)) "");
    cbn [andb]; try villa_refused.
  all: destruct (Villa.formTexts_lastNameRequired props);
    destruct (String.eqb_spec (Villa.lastName (Villa.client s)) "");
    cbn [andb]; try villa_refused.
  all: destruct (Villa.formTexts_emailRequired props);
    destruct (String.eqb_spec (Villa.email (Villa.client s)) "");
    cbn [andb]; try villa_refused.
  all: destruct (Villa.slotStartISO s) as [slotStart|];
    [destruct (String.eqb_spec slotStart "")|]; try villa_refused.
  all: destruct (Villa.showTerms props); destruct (Villa.termsAccepted s);
    cbn [andb negb]; try villa_refused.
  all: cbn [calls]; destruct (sdk _ _); cbn [calls];
    (split; [split; [intros _|reflexivity]|split; [lia|discriminate]]).
  all: split; [by eexists|]; split; [by eexists|].
  all: split; [first [intros _; assumption | intros Hb; discriminate Hb]|].
  all: split; [first [intros _; assumption | intros Hb; discriminate Hb]|].
  all: split; [first [intros _; assumption | intros Hb; discriminate Hb]|].
  all: split; [cbn [Villa.nonempty];
               apply negb_true_iff, String.eqb_neq; assumption|].
  all: first [intros _; reflexivity | intros Hb; discriminate Hb].
Qed.

(** X28. A booking response that resolves in the villa widget: a
    non-empty [paymentURL] redirects the page and changes neither the
    step nor the route; otherwise the router is sent to a non-empty route
    id, only for the status "confirmed" or "pending", or else the step
    becomes "success".  So with no router or no route props, and for
    every status other than those two, a response without payment
    address ends on the success step.  The error is cleared. *)
Theorem villa_onBook_resolved `{Host} (sdk : Sdk) (res : BookingResponse) :
  (forall data, sdk _ (bookings_request data) = inl res) ->
  forall props s,
    calls sdk (Villa.onBook props s) <> O ->
    let s' := run sdk (Villa.onBook props s) in
    Villa.error s' = None /\
    (forall u, has_paymentURL res = Some u ->
       Villa.location_href s' = Some u /\ Villa.step s' = Villa.step s /\
       Villa.navigations s' = Villa.navigations s) /\
    (has_paymentURL res = None ->
     Villa.location_href s' = Villa.location_href s /\
     ((exists rid, rid <> "" /\
         Villa.navigations s' = Villa.navigations s ++ [rid] /\
         Villa.step s' = Villa.step s /\
         (status res = "confirmed" \/ status res = "pending") /\
         Villa.navigate props = true /\ is_Some (Villa.routes props) /\
         is_Some (Villa.props_routes props)) \/
      (Villa.step s' = Villa.StepSuccess /\
       Villa.navigations s' = Villa.navigations s)) /\
     (status res <> "confirmed" -> status res <> "pending" ->
      Villa.step s' = Villa.StepSuccess) /\
     (Villa.navigate props = false \/ Villa.routes props = None \/
      Villa.props_routes props = None ->
      Villa.step s' = Villa.StepSuccess)).
Proof.
  intros Hsdk props s Hcalls s'. subst s'. revert Hcalls.
  unfold Villa.onBook.
  destruct (Villa.startDate s); [|done].
  destruct (Villa.endBoundary props s); [|done].
  destruct (_ && _); [done|]. destruct (_ && _); [done|].
  destruct (_ && _); [done|].
  destruct (Villa.slotStartISO s) as [slotStart|]; [|done].
  destruct (String.eqb slotStart ""); [done|].
  destruct (_ && _); [done|]. intros _. simpl. rewrite Hsdk. simpl.
  unfold Villa.onBookingResponse.
  destruct (has_paymentURL res) as [u|]; simpl.
  { split; [done|]. split; [by intros ? [= <-]|done]. }
  split; [by destruct (Villa.navigationTarget props res)|].
  split; [done|]. intros _.
  assert (Hroute : forall path rid,
            Villa.routeFor props path = Some rid ->
            rid <> "" /\ is_Some (Villa.routes props)).
  { intros path rid. unfold Villa.routeFor.
    destruct path as [path|]; [|done].
    destruct (String.eqb path ""); [done|].
    destruct (Villa.routes props) as [routes|]; simpl; [|done].
    match goal with
    | |- (if String.eqb ?found "" then _ else _) = _ -> _ =>
        destruct (String.eqb_spec found ""); [done|]
    end.
    intros [= <-]. eauto. }
  unfold Villa.navigationTarget.
  destruct (Villa.navigate props); simpl.
  2:{ repeat split; auto. }
  destruct (Villa.props_routes props) as [r|]; simpl.
  2:{ repeat split; auto. }
  destruct (String.eqb_spec (status res) "confirmed") as [Hconfirmed|Hconfirmed].
  - destruct (Villa.routeFor props (Villa.confirmed r)) as [rid|] eqn:Hrid.
    + destruct (Hroute _ _ Hrid) as [Hne Hroutes]. simpl. repeat split.
      * left. exists rid. repeat split; eauto.
      * done.
      * intros [?|[Hnone|?]]; [done| |done].
        rewrite Hnone in Hroutes. by destruct Hroutes.
    + rewrite Hconfirmed. simpl. repeat split; auto.
  - destruct (String.eqb_spec (status res) "pending") as [Hpending|Hpending].
    + destruct (Villa.routeFor props (Villa.pending r)) as [rid|] eqn:Hrid.
      * destruct (Hroute _ _ Hrid) as [Hne Hroutes]. simpl. repeat split.
        -- left. exists rid. repeat split; eauto.
        -- done.
        -- intros [?|[Hnone|?]]; [done| |done].
           rewrite Hnone in Hroutes. by destruct Hroutes.
      * simpl. repeat split; auto.
    + simpl. repeat split; auto.
Qed.

Lemma villa_onBook_resolved_witness :
  Villa.step
    (run (Examples.sdk_booking
            (inl {| paymentURL := None; status := "pending" |}))
       (Villa.onBook (H := UtcHost.host) MoreExamples.villa_props
          MoreExamples.villa_state))
  = Villa.StepSuccess.
Proof.
  destruct (villa_onBook_resolved (H := UtcHost.host)
              (Examples.sdk_booking
                 (inl {| paymentURL := None; status := "pending" |}))
              {| paymentURL := None; status := "pending" |}
              ltac:(reflexivity)
              MoreExamples.villa_props MoreExamples.villa_state)
    as (_ & _ & Hplain).
  - vm_compute. discriminate.
  - destruct (Hplain eq_refl) as (_ & _ & _ & Hsuccess).
    apply Hsuccess. left. reflexivity.
Defined.

Section VillaSlots.
Context `{Host}.

Lemma firstOnDay_Some (target : string) (slots : list TimeSlot) (c : TimeSlot) :
  Villa.firstOnDay target slots = Some c ->
  Villa.startsOn target c = true /\
  exists before after,
    slots = before ++ c :: after /\
    forall x, x ∈ before -> Villa.startsOn target x = false.
Proof.
  induction slots as [|x slots IH]; simpl; [done|].
  destruct (Date_getTime (startTime x)) as [t|] eqn:Hread.
  - destruct (String.prefix target (Date_toISOString t)) eqn:Hday.
    + intros [= <-]. split.
      * unfold Villa.startsOn. by rewrite Hread.
      * exists [], slots. split; [done|]. by intros ? ?%elem_of_nil.
    + intros [Hc (before & after & -> & Hbefore)]%IH. split; [done|].
      exists (x :: before), after. split; [done|].
      intros y [->|Hy]%elem_of_cons; [|auto].
      unfold Villa.startsOn. by rewrite Hread.
  - intros [Hc (before & after & -> & Hbefore)]%IH. split; [done|].
    exists (x :: before), after. split; [done|].
    intros y [->|Hy]%elem_of_cons; [|auto].
    unfold Villa.startsOn. by rewrite Hread.
Qed.

Lemma firstOnDay_None (target : string) (slots : list TimeSlot) :
  Villa.firstOnDay target slots = None ->
  forall x, x ∈ slots -> Villa.startsOn target x = false.
Proof.
  induction slots as [|y slots IH]; simpl; [by intros _ ? ?%elem_of_nil|].
  intros Hnone x [->|Hx]%elem_of_cons.
  - unfold Villa.startsOn.
    destruct (Date_getTime (startTime y)); [|done].
    by destruct (String.prefix target _).
  - apply IH; [|done].
    destruct (Date_getTime (startTime y)); [|done].
    by destruct (String.prefix target _).
Qed.

Lemma onBook_without_slot (sdk : Sdk) (props : Villa.Props) (s : Villa.State) :
  Villa.slotStartISO s = None -> calls sdk (Villa.onBook props s) = O.
Proof.
  intros Hslot. unfold Villa.onBook. rewrite Hslot.
  destruct (Villa.startDate s); [|done].
  destruct (Villa.endBoundary props s); [|done].
  by repeat destruct (_ && _).
Qed.

End VillaSlots.

(** X29. The slot the villa widget books for a span.  When
    [fetchPriceAndSlot] has asked for the times and the request resolved,
    a slot start it stores is the start of a slot of the configured
    resource: of the first one, in response order, whose ISO start begins
    with the day of the selected start, or, when the resource has no slot
    on that day, of its first slot whatever its day.  The price stored is
    that slot's price, taken over only with a currency.  With no slot for
    the resource, nothing is stored.  The price loading flag ends off. *)
Theorem villa_slot_for_span `{Host} (sdk : Sdk) (res : TimesResponse) :
  (forall company service params,
     sdk _ (services_getTimes company service params) = inl res) ->
  forall props s start,
    Villa.startDate s = Some start ->
    calls sdk (Villa.fetchPriceAndSlot props s) <> O ->
    let slots := Villa.slotsOf (Villa.resourceID props) (times res) in
    let target := Villa.fmt start in
    let s' := run sdk (Villa.fetchPriceAndSlot props s) in
    Villa.priceLoading s' = false /\
    (slots = [] -> Villa.slotStartISO s' = None /\ Villa.price s' = None) /\
    (forall iso, Villa.slotStartISO s' = Some iso ->
       exists chosen t,
         Date_getTime (startTime chosen) = Some t /\
         iso = Date_toISOString t /\
         Villa.price s' = Villa.chosenPrice chosen /\
         ((Villa.startsOn target chosen = true /\
           exists before after,
             slots = before ++ chosen :: after /\
             forall x, x ∈ before -> Villa.startsOn target x = false) \/
          ((forall x, x ∈ slots -> Villa.startsOn target x = false) /\
           head slots = Some chosen))).
Proof.
  intros Hsdk props s start Hstart Hcalls slots target s'.
  subst s' slots target. revert Hcalls.
  unfold Villa.fetchPriceAndSlot. rewrite Hstart.
  destruct (Villa.endBoundary props s) as [boundary|]; [|done].
  destruct (_ && _); [done|]. intros _. simpl. rewrite Hsdk.
  set (slots := Villa.slotsOf (Villa.resourceID props) (times res)).
  set (target := Villa.fmt start).
  destruct (Villa.chosenSlot target slots) as [chosen|] eqn:Hchosen.
  - assert (Hwhich :
      (Villa.startsOn target chosen = true /\
       exists before after,
         slots = before ++ chosen :: after /\
         forall x, x ∈ before -> Villa.startsOn target x = false) \/
      ((forall x, x ∈ slots -> Villa.startsOn target x = false) /\
       head slots = Some chosen)).
    { unfold Villa.chosenSlot in Hchosen.
      destruct (Villa.firstOnDay target slots) as [c|] eqn:Hfirst.
      - injection Hchosen as ->. left. by apply firstOnDay_Some.
      - right. split; [by apply firstOnDay_None|done]. }
    assert (Hnonempty : slots <> []).
    { intros Hnil. rewrite Hnil in Hchosen. done. }
    assert (Hprice : forall s1,
              Villa.price s1 = None ->
              Villa.price (match Villa.chosenPrice chosen with
                           | Some p => Villa.setPrice (Some p) s1
                           | None => s1
                           end) = Villa.chosenPrice chosen).
    { intros s1 Hs1. by destruct (Villa.chosenPrice chosen). }
    destruct (String.eqb (startTime chosen) "").
    + simpl. split; [done|]. split; [done|]. intros iso Hiso.
      by destruct (Villa.chosenPrice chosen).
    + destruct (Date_getTime (startTime chosen)) as [t|] eqn:Hread; simpl.
      * split; [done|]. split; [done|]. intros iso [= <-].
        exists chosen, t. repeat split; [done| |done].
        by destruct (Villa.chosenPrice chosen).
      * split; [done|]. split; [done|]. intros iso Hiso.
        by destruct (Villa.chosenPrice chosen).
  - simpl. split; [done|]. split; [done|]. done.
Qed.

Lemma villa_slot_for_span_witness :
  exists chosen t,
    @Date_getTime UtcHost.host (startTime chosen) = Some t /\
    "2024-06-02T15:00:00.000Z" = @Date_toISOString UtcHost.host t.
Proof.
  destruct (villa_slot_for_span (H := UtcHost.host)
              (Examples.sdk_times MoreExamples.villa_times)
              MoreExamples.villa_times ltac:(reflexivity)
              MoreExamples.villa_props MoreExamples.villa_state
              Examples.june_1 eq_refl)
    as (_ & _ & Hslot).
  - vm_compute. discriminate.
  - destruct (Hslot "2024-06-02T15:00:00.000Z"
                ltac:(vm_compute; reflexivity))
      as (chosen & t & Hread & Hiso & _).
    exists chosen, t. split; [exact Hread|exact Hiso].
Defined.

(** The villa has no slot on the selected June 1st: the slot booked
    starts on June 2nd. *)
Example villa_books_another_day :
  Villa.fmt (H := UtcHost.host) Examples.june_1 = "2024-06-01" /\
  Villa.slotStartISO
    (run (Examples.sdk_times MoreExamples.villa_times)
       (Villa.fetchPriceAndSlot (H := UtcHost.host) MoreExamples.villa_props
          MoreExamples.villa_state))
  = Some "2024-06-02T15:00:00.000Z".
Proof. split; vm_compute; reflexivity. Qed.

(** X30. A click on a week in the villa widget, whatever branch it
    takes, leaves a selection that is complete or empty and, when the
    clicked week and the earlier selection run forward in time, runs
    forward too; it always forgets the price, the slot start, the price
    key and the error, so that [onBook] makes no request until a slot
    has been looked up again. *)
Theorem villa_handleWeekSelect_resets `{Host} (weekStart weekEnd : Z)
    (s : Villa.State) :
  weekStart <= weekEnd ->
  Villa.ordered_selection s ->
  let s' := Villa.handleWeekSelect weekStart weekEnd s in
  Villa.ordered_selection s' /\
  Villa.price s' = None /\ Villa.slotStartISO s' = None /\
  Villa.lastPriceKeyRef s' = None /\ Villa.error s' = None /\
  Villa.step s' = Villa.step s /\
  forall sdk props, calls sdk (Villa.onBook props s') = O.
Proof.
  intros Hweek Hordered s'.
  assert (Hfacts :
    Villa.ordered_selection s' /\
    Villa.price s' = None /\ Villa.slotStartISO s' = None /\
    Villa.lastPriceKeyRef s' = None /\ Villa.error s' = None /\
    Villa.step s' = Villa.step s).
  { subst s'. revert Hordered.
    unfold Villa.handleWeekSelect, Villa.ordered_selection,
      Villa.isWeekInSelection, Villa.isWeekAdjacent.
    destruct s as [step dates [start|] [end_|] ? ? ? ? ? ? ? ? ? ? ? ? ?];
      cbn [Villa.startDate Villa.endDate];
      try (simpl; intros; repeat split; (done || lia)).
    intros Hle.
    destruct ((start <=? weekStart) && (weekEnd <=? end_)) eqn:Hin.
    - apply andb_prop in Hin as [Hs He].
      apply Z.leb_le in Hs. apply Z.leb_le in He.
      destruct (_ && _); [simpl; repeat split; done|].
      destruct (Villa.isSameDay start weekStart);
        [simpl; repeat split; (done || lia)|].
      destruct (Villa.isSameDay end_ weekEnd);
        simpl; repeat split; (done || lia).
    - destruct (_ || _); simpl; [|repeat split; (done || lia)].
      destruct (Z.ltb_spec weekStart start);
        destruct (Z.ltb_spec end_ weekEnd);
        repeat split; (done || lia). }
  destruct Hfacts as (Ho & Hp & Hslot & Hk & He & Hstep).
  repeat split; try done.
  intros sdk props. by apply onBook_without_slot.
Qed.

Lemma villa_handleWeekSelect_resets_witness :
  Villa.slotStartISO
    (Villa.handleWeekSelect (H := UtcHost.host) MoreExamples.june_8
       (MoreExamples.june_8 + 7 * 86400000) MoreExamples.villa_state) = None.
Proof.
  eapply (villa_handleWeekSelect_resets (H := UtcHost.host)
            MoreExamples.june_8 (MoreExamples.june_8 + 7 * 86400000)
            MoreExamples.villa_state).
  - vm_compute. discriminate.
  - vm_compute. discriminate.
Defined.
